(** * isimip.py: download, crop and combine ISIMIP3b climate files

    A shallow embedding of [src/script/isimip.py] and the properties of
    its catalogue, task generation, fetch unit, combiner and orchestrator.

    Modelling decisions, in one place:
    - Python [int] is [Z]; [str] is [string]; a [Union[str, List[str]]]
      argument is the two-constructor type [selector].
    - A [pathlib.Path] is the list of its components, root first; [p / c]
      appends one component.
    - The file system is a finite map from paths to nodes (directory, or a
      file holding a dataset).  Every effect the program has on the outside
      (directory creation, file write, remote open, subprocess) is also
      appended to an event trace, and every logger call to a log.
    - Stateful, fallible code runs in a state-and-exception monad [M]; a
      raised exception keeps the state reached so far, as in Python.
    - xarray, the remote server, the disk and the subprocess are parameters
      of the development (Section variables). *)

From Stdlib Require Import ZArith List Ascii String Sorted Permutation Lia.
From stdpp Require Import base option list strings pretty gmap fin_maps sorting.

Local Open Scope Z_scope.
Local Open Scope string_scope.

(** ** Python values used by the program *)

Inductive selector :=
  | Str (s : string)
  | Lst (l : list string).

(** [[x] if isinstance(x, str) else x] *)
Definition as_list (x : selector) : list string :=
  match x with
  | Str s => [s]
  | Lst l => l
  end.

(** The exceptions the program can meet.  All but [BaseExc] are subclasses
    of Python's [Exception]; [BaseExc] stands for [KeyboardInterrupt],
    [SystemExit] and the like, which [except Exception] does not catch. *)
Inductive exn :=
  | ValueError (msg : string)
  | NameError (msg : string)
  | KeyError (key : string)
  | OSError (msg : string)
  | CalledProcessError (msg : string)
  | LibError (msg : string)
  | BaseExc (msg : string).

Definition is_Exception (e : exn) : bool :=
  match e with
  | BaseExc _ => false
  | _ => true
  end.

Definition is_CalledProcessError (e : exn) : bool :=
  match e with
  | CalledProcessError _ => true
  | _ => false
  end.

(** [str(e)]; for a [KeyError] the key in single quotes, as [repr] prints
    a key that holds no quote. *)
Definition exn_str (e : exn) : string :=
  match e with
  | ValueError m | NameError m | OSError m | CalledProcessError m
  | LibError m | BaseExc m => m
  | KeyError k => "'" ++ k ++ "'"
  end.

(** [range(start, stop, step)] for a positive step. *)
Definition py_range (start stop step : Z) : list Z :=
  map (fun i => start + step * Z.of_nat i)
      (seq 0 (Z.to_nat ((stop - start + step - 1) / step))).

(** [repr] of a list of strings that contain neither quotes nor escapes
    (true of every list the program prints). *)
Definition repr_list (l : list string) : string :=
  "[" ++ String.concat ", " (map (fun s => "'" ++ s ++ "'") l) ++ "]".

(** [str(i)] for an [int] *)
Definition str_int (i : Z) : string := pretty i.

(** ** Catalogue (lines 162-171, 27-28, 81-82) *)

Definition valid_models : list (string * string) :=
  [ ("GFDL-ESM4", "gfdl-esm4");
    ("MPI-ESM1-2-HR", "mpi-esm1-2-hr");
    ("IPSL-CM6A-LR", "ipsl-cm6a-lr");
    ("MRI-ESM2-0", "mri-esm2-0");
    ("UKESM1-0-LL", "ukesm1-0-ll") ].

(** [list(valid_models.keys())]; also the list literal of lines 27 and 81. *)
Definition valid_model_names : list string := map fst valid_models.

Definition valid_variables : list string :=
  ["hurs"; "huss"; "pr"; "prsn"; "ps"; "tas"; "tasmax"; "tasmin"].

Definition valid_scenarios : list string :=
  ["historical"; "ssp126"; "ssp585"].

Definition base_url : string :=
  "https://files.isimip.org/ISIMIP3b/InputData/climate/atmosphere/bias-adjusted/global/daily".

(** [valid_models[model]] as a lookup that may miss. *)
Fixpoint dict_get (d : list (string * string)) (k : string) : option string :=
  match d with
  | [] => None
  | (k', v) :: d' => if String.eqb k k' then Some v else dict_get d' k
  end.

(** [x in l] for a list of strings *)
Definition str_in (x : string) (l : list string) : bool :=
  existsb (String.eqb x) l.

(** ** Paths, datasets and the file system *)

Definition path := list string.

(** [p / c] for a plain component [c] (see [plain_component] below):
    pathlib normalises other operands (a trailing or inner '/', ".", an
    absolute name), which this appending does not; the catalogue names are
    plain, and the statements about unvalidated names assume it. *)
Definition path_div (p : path) (c : string) : path := (p ++ [c])%list.
Infix "//" := path_div (at level 40, left associativity).

(** [str(p)] *)
Definition path_str (p : path) : string := String.concat "/" p.

(** A gridded dataset, as far as the program can tell datasets apart: the
    rows along the time axis, each a time stamp with its slab of data. *)
Definition dataset := list (Z * string).

Definition time_axis (d : dataset) : list Z := map fst d.

Inductive node :=
  | Dir
  | File (d : dataset).

Definition is_file (o : option node) : bool :=
  match o with
  | Some (File _) => true
  | _ => false
  end.

Definition is_dir (o : option node) : bool :=
  match o with
  | Some Dir => true
  | _ => false
  end.

Inductive level := Info | Warning | Error.

Inductive event :=
  | Mkdir (p : path)
  | NetOpen (url : string)
  | Write (p : path) (d : dataset)
  | Proc (cmd : string).

Record world := World {
  w_fs : gmap path node;
  w_log : list (level * string);
  w_trace : list event
}.

Definition is_net (e : event) : bool :=
  match e with
  | NetOpen _ => true
  | _ => false
  end.

Definition net_calls (w : world) : list event := List.filter is_net (w_trace w).

(** ** The state-and-exception monad *)

Inductive result (A : Type) :=
  | Ret (a : A)
  | Raise (e : exn).
Arguments Ret {A} a.
Arguments Raise {A} e.

Definition M (A : Type) : Type := world -> result A * world.

Definition mret {A} (a : A) : M A := fun w => (Ret a, w).

Definition raise {A} (e : exn) : M A := fun w => (Raise e, w).

Definition bind {A B} (m : M A) (k : A -> M B) : M B :=
  fun w =>
    match m w with
    | (Ret a, w') => k a w'
    | (Raise e, w') => (Raise e, w')
    end.

Notation "'do' x <- m ; k" := (bind m (fun x => k))
  (at level 10, x name, m at level 100, k at level 200).
Notation "'run' m ; k" := (bind m (fun _ => k))
  (at level 10, m at level 100, k at level 200).

(** [try: m  except <catches> as e: h e] *)
Definition try_except (m : M unit) (catches : exn -> bool) (h : exn -> M unit) : M unit :=
  fun w =>
    match m w with
    | (Raise e, w') => if catches e then h e w' else (Raise e, w')
    | r => r
    end.

(** [for x in l: body x] *)
Fixpoint for_each {A} (l : list A) (body : A -> M unit) : M unit :=
  match l with
  | [] => mret tt
  | x :: l' => run body x ; for_each l' body
  end.

Fixpoint map_M {A B} (f : A -> M B) (l : list A) : M (list B) :=
  match l with
  | [] => mret []
  | x :: l' => do y <- f x ; do ys <- map_M f l' ; mret (y :: ys)
  end.

Definition add_log (l : level) (msg : string) (w : world) : world :=
  World (w_fs w) (w_log w ++ [(l, msg)]) (w_trace w).

(** A logger call ([logger.info], [logger.warning], [logger.error]).  The
    log records the calls, whatever handlers [logging.basicConfig] (line
    158) has installed. *)
Definition log (l : level) (msg : string) : M unit :=
  fun w => (Ret tt, add_log l msg w).

Definition emit (e : event) (w : world) : world :=
  World (w_fs w) (w_log w) (w_trace w ++ [e]).

(** ** File-system primitives *)

(** The path itself and its ancestors, outermost first (the current
    directory, the empty path, is not listed: it always exists). *)
Definition prefixes (p : path) : list path :=
  map (fun n => take n p) (seq 1 (List.length p)).

(** [p.exists()] *)
Definition path_exists (p : path) : M bool :=
  fun w => (Ret (match w_fs w !! p with Some _ => true | None => false end), w).

(** A regular file sits at the path or at one of its ancestors. *)
Definition blocked (f : gmap path node) (p : path) : bool :=
  existsb (fun q => is_file (f !! q)) (prefixes p).

(** [p.mkdir(parents=True, exist_ok=True)]: fails when the path or one of
    its ancestors is a regular file, otherwise makes every missing directory
    on the way and leaves existing ones alone.  This is the call on a path
    of plain components; a name with a NUL byte makes the real call raise
    [ValueError], which the statements about unvalidated names exclude. *)
Definition mkdir (p : path) : M unit :=
  fun w =>
    if blocked (w_fs w) p
    then (Raise (OSError ("File exists: " ++ path_str p)), emit (Mkdir p) w)
    else (Ret tt,
          World (foldr (fun q f => <[q := Dir]> f) (w_fs w) (prefixes p))
                (w_log w) (w_trace w ++ [Mkdir p])).

Fixpoint strip_prefix (dir p : path) : option path :=
  match dir, p with
  | [], _ => Some p
  | d :: dir', c :: p' => if String.eqb d c then strip_prefix dir' p' else None
  | _ :: _, [] => None
  end.

Definition ends_with (suffix s : string) : bool :=
  (String.length suffix <=? String.length s)%nat
  && String.eqb (substring (String.length s - String.length suffix)
                           (String.length suffix) s) suffix.

Definition cropped_in (dir p : path) : bool :=
  match strip_prefix dir p with
  | Some [name] => ends_with "_cropped.nc" name
  | _ => false
  end.

(** [list(dir.glob("*_cropped.nc"))], in the order the map lists its keys. *)
Definition glob_cropped (dir : path) : M (list path) :=
  fun w => (Ret (List.filter (cropped_in dir) (map fst (map_to_list (w_fs w)))), w).

(** [ds.sortby('time')]: the rows in the order of their time stamps.  Rows
    with equal time stamps may come out in another order than xarray's
    stable sort gives them; the time axis is the same. *)
Definition time_le (a b : Z * string) : Prop := a.1 <= b.1.

#[global] Instance time_le_dec : RelDecision time_le :=
  fun a b => Z_le_dec (a.1) (b.1).

Definition sortby_time (d : dataset) : dataset := merge_sort time_le d.

Section Isimip.

(** The four floats of a bounding box, kept opaque. *)
Variable bbox : Type.

(** What [xr.open_dataset(url, engine='netcdf4')] answers in a given world. *)
Variable remote_open : world -> string -> result dataset.

(** [ds.sel(lon=slice(b[0], b[1]), lat=slice(b[2], b[3]))] *)
Variable xr_sel : bbox -> dataset -> result dataset.

(** A fault (disk full, permission, encoding) that makes a write fail. *)
Variable disk_fault : world -> path -> option exn.

(** xarray's [combine='by_coords'] step on the preprocessed datasets. *)
Variable xr_combine : list dataset -> result dataset.

(** [subprocess.run(cmd, shell=True, check=True)]: the outcome and the file
    system the child process leaves behind. *)
Variable run_shell : world -> string -> result unit * gmap path node.

Definition xr_open_dataset (url : string) : M dataset :=
  fun w => (remote_open w url, emit (NetOpen url) w).

Definition sel (b : bbox) (ds : dataset) : M dataset :=
  fun w => (xr_sel b ds, w).

(** [ds.to_netcdf(p)]: on success the file holds [ds]; a failed write is
    modelled as leaving the file system as it was. *)
Definition to_netcdf (p : path) (ds : dataset) : M unit :=
  fun w =>
    if is_dir (w_fs w !! p)
    then (Raise (OSError ("Is a directory: " ++ path_str p)), w)
    else match disk_fault w p with
         | Some e => (Raise e, w)
         | None => (Ret tt, World (<[p := File ds]> (w_fs w)) (w_log w)
                                  (w_trace w ++ [Write p ds]))
         end.

(** Opening one local file of an [open_mfdataset] call. *)
Definition open_local (p : path) : M dataset :=
  fun w =>
    match w_fs w !! p with
    | Some (File d) => (Ret d, w)
    | Some Dir => (Raise (OSError ("Is a directory: " ++ path_str p)), w)
    | None => (Raise (OSError ("No such file: " ++ path_str p)), w)
    end.

(** [xr.open_mfdataset(files, combine='by_coords', parallel=True,
    preprocess=lambda ds: ds.sortby('time'))] *)
Definition open_mfdataset (files : list path) : M dataset :=
  do dss <- map_M open_local files ;
  fun w => (xr_combine (map sortby_time dss), w).

Definition subprocess_run (cmd : string) : M unit :=
  fun w =>
    let '(r, f) := run_shell w cmd in
    (r, World f (w_log w) (w_trace w ++ [Proc cmd])).

(** ** The helpers' own resolution of "all" (lines 31-32 and 85-86) *)

(** [valid_models if model_choices == "all" else ([model_choices] if
    isinstance(model_choices, str) else model_choices)]; a list never
    equals the string "all". *)
Definition helper_models (model_choices : selector) : list string :=
  match model_choices with
  | Str s => if String.eqb s "all" then valid_model_names else [s]
  | Lst l => l
  end.

(** [valid_scenarios if scenario == "all" else [scenario]] *)
Definition resolve_scenarios (scenario : string) : list string :=
  if String.eqb scenario "all" then valid_scenarios else [scenario].

(** ** create_ncml_files (lines 10-63) *)

Definition nl : string := String (ascii_of_nat 10) EmptyString.

Definition r_script (source_dir ncml_file : path) : string :=
  nl ++ "            library(loadeR)" ++
  nl ++ "            makeAggregatedDataset(" ++
  nl ++ "                source.dir='" ++ path_str source_dir ++ "'," ++
  nl ++ "                ncml.file='" ++ path_str ncml_file ++ "'" ++
  nl ++ "            )" ++
  nl ++ "            ".

Definition ncml_one (output_dir ncml_dir : path) (conda_env scen model : string) : M unit :=
  let source_dir := output_dir // model // scen in
  do present <- path_exists source_dir ;
  if negb present then
    log Warning ("Directory " ++ path_str source_dir ++ " does not exist, skipping...")
  else
    let ncml_file := ncml_dir // scen // (model ++ "_" ++ scen ++ ".ncml") in
    try_except
      (let cmd := "conda run -n " ++ conda_env ++ " Rscript -e '"
                  ++ r_script source_dir ncml_file ++ "'" in
       run subprocess_run cmd ;
       log Info ("Successfully created ncml file: " ++ path_str ncml_file))
      is_CalledProcessError
      (fun e => log Error ("Failed to create ncml file for " ++ model ++ " "
                           ++ scen ++ ": " ++ exn_str e)).

Definition create_ncml_files (model_choices : selector) (scenario : string)
    (output_dir : path) (conda_env : string) : M unit :=
  let models := helper_models model_choices in
  let scenarios := resolve_scenarios scenario in
  let ncml_dir := output_dir // "ncml" in
  for_each scenarios (fun scen =>
    run mkdir (ncml_dir // scen) ;
    for_each models (ncml_one output_dir ncml_dir conda_env scen)).

(** ** combine_netcdf_files (lines 65-133) *)

(** The body of the inner loop, lines 98-133. *)
Definition combine_one (output_dir scen_dir : path) (scen model : string) : M unit :=
  let source_dir := output_dir // model // scen in
  do present <- path_exists source_dir ;
  if negb present then
    log Warning ("Directory " ++ path_str source_dir ++ " does not exist, skipping...")
  else
    do nc_files <- glob_cropped source_dir ;
    match nc_files with
    | [] => log Warning ("No NetCDF files found in " ++ path_str source_dir)
    | _ :: _ =>
        try_except
          (run log Info ("Combining files for " ++ model ++ " " ++ scen ++ "...") ;
           do ds <- open_mfdataset nc_files ;
           let output_file := scen_dir // (model ++ "_combined.nc") in
           run to_netcdf output_file ds ;
           log Info ("Successfully created combined file: " ++ path_str output_file))
          is_Exception
          (fun e => log Error ("Failed to combine files for " ++ model ++ " "
                               ++ scen ++ ": " ++ exn_str e))
    end.

Definition combine_netcdf_files (model_choices : selector) (scenario : string)
    (output_dir : path) : M unit :=
  let models := helper_models model_choices in
  let scenarios := resolve_scenarios scenario in
  let combined_dir := output_dir // "combined" in
  run mkdir combined_dir ;
  for_each scenarios (fun scen =>
    let scen_dir := combined_dir // scen in
    run mkdir scen_dir ;
    for_each models (combine_one output_dir scen_dir scen)).

(** ** download_isimip_data (lines 135-273) *)

(** Lines 174-181: normalise the model selector and expand "all". *)
Definition resolve_models (model_choices : selector) : list string :=
  let model_choices := as_list model_choices in
  if str_in "all" model_choices then valid_model_names else model_choices.

(** Lines 188-198: the three validation loops. *)
Definition validate_models (models : list string) : M unit :=
  for_each models (fun model =>
    match dict_get valid_models model with
    | Some _ => mret tt
    | None => raise (ValueError ("Invalid model: " ++ model ++ ". Valid models: "
                                 ++ repr_list valid_model_names))
    end).

Definition validate_variables (variables : list string) : M unit :=
  for_each variables (fun var =>
    if str_in var valid_variables then mret tt
    else raise (ValueError ("Invalid variable: " ++ var ++ ". Valid variables: "
                            ++ repr_list valid_variables))).

Definition validate_scenarios (scenarios : list string) : M unit :=
  for_each scenarios (fun scen =>
    if str_in scen valid_scenarios then mret tt
    else raise (ValueError ("Invalid scenario: " ++ scen ++ ". Valid scenarios: "
                            ++ repr_list valid_scenarios))).

(** Line 205 *)
Definition experiment (model : string) : string :=
  if String.eqb model "UKESM1-0-LL" then "r1i1p1f2" else "r1i1p1f1".

(** Lines 208-213, the value bound to [end_year]. *)
Definition end_year (scen : string) (year : Z) : Z :=
  if String.eqb scen "historical" then Z.min (year + 9) 2014 else year + 9.

(** Line 220 *)
Definition file_name (model_lower experiment scen variable : string)
    (year end_year : Z) : string :=
  model_lower ++ "_" ++ experiment ++ "_w5e5_" ++ scen ++ "_" ++ variable
  ++ "_global_daily_" ++ str_int year ++ "_" ++ str_int end_year.

(** Line 221 *)
Definition remote_url (scen model file_name : string) : string :=
  base_url ++ "/" ++ scen ++ "/" ++ model ++ "/" ++ file_name ++ ".nc".

(** Lines 234-238: [if bbox: ds = ds.sel(...)] *)
Definition crop (bb : option bbox) (ds : dataset) : M dataset :=
  match bb with
  | Some b => sel b ds
  | None => mret ds
  end.

(** Lines 228-246: the guarded part of a fetch unit. *)
Definition fetch (bb : option bbox) (url : string) (output_file : path) : M unit :=
  try_except
    (run log Info ("Downloading " ++ url) ;
     do ds <- xr_open_dataset url ;
     do ds <- crop bb ds ;
     run to_netcdf output_file ds ;
     log Info ("Successfully processed: " ++ path_str output_file))
    is_Exception
    (fun e => log Error ("Error processing " ++ url ++ ": " ++ exn_str e)).

(** Lines 202-246 *)
Definition process_file (bb : option bbox) (output_dir : path)
    (model variable scen : string) (year : Z) : M unit :=
  match dict_get valid_models model with
  | None => raise (KeyError model)
  | Some model_lower =>
      let experiment := experiment model in
      let end_year := end_year scen year in
      if String.eqb scen "historical" && (end_year <? year)%Z then mret tt
      else
        let out_dir := output_dir // model // scen in
        run mkdir out_dir ;
        let file_name := file_name model_lower experiment scen variable year end_year in
        let url := remote_url scen model file_name in
        let output_file := out_dir // (file_name ++ "_cropped.nc") in
        do present <- path_exists output_file ;
        if present then log Info ("File already exists: " ++ path_str output_file)
        else fetch bb url output_file
  end.

(** Lines 253-256 *)
Definition decade_starts (scen : string) : list Z :=
  if String.eqb scen "historical" then py_range 1971 2011 10
  else py_range 2021 2091 10.

(** Lines 249-259: the task tuples [(model, var, scen, year)], in the
    order of the nested loops. *)
Definition build_tasks (models scenarios variables : list string)
    : list (string * string * string * Z) :=
  model ← models; scen ← scenarios; var ← variables;
  year ← decade_starts scen; [(model, var, scen, year)].

(** Lines 262-263: [ThreadPoolExecutor(max_workers)] refuses a
    non-positive pool size; [executor.map] submits every task, its result
    iterator is never consumed, so whatever a task raises stays in its
    future; leaving the [with] block waits for all tasks.  The tasks are
    run here one after the other, in the order of submission. *)
Definition thread_pool_map {A} (max_workers : Z) (fn : A -> M unit)
    (tasks : list A) : M unit :=
  if (max_workers <=? 0)%Z
  then raise (ValueError "max_workers must be greater than 0")
  else fun w => (Ret tt, fold_left (fun w t => snd (fn t w)) tasks w).

(** The fetch unit applied to a task tuple: [lambda x: process_file( *x )]. *)
Definition run_task (bb : option bbox) (output_dir : path)
    (t : string * string * string * Z) : M unit :=
  let '(model, var, scen, year) := t in
  process_file bb output_dir model var scen year.

(** Names bound to a string at module level, or as a parameter or local
    of [download_isimip_data], besides the parameters modelled as
    arguments below: there is none.  Line 266 reads [conda_env]. *)
Definition string_names_in_scope : list (string * string) := [].

Definition load_name (name : string) : M string :=
  match dict_get string_names_in_scope name with
  | Some v => mret v
  | None => raise (NameError ("name '" ++ name ++ "' is not defined"))
  end.

Definition truthy (s : string) : bool := negb (String.eqb s EmptyString).

Definition download_isimip_data (model_choices variables : selector)
    (scenario : string) (bb : option bbox) (output_dir : path)
    (max_workers : Z) (combine_files : bool) : M unit :=
  let variables := as_list variables in
  let model_choices := resolve_models model_choices in
  let scenarios := resolve_scenarios scenario in
  run validate_models model_choices ;
  run validate_variables variables ;
  run validate_scenarios scenarios ;
  let tasks := build_tasks model_choices scenarios variables in
  run thread_pool_map max_workers (run_task bb output_dir) tasks ;
  do conda_env <- load_name "conda_env" ;
  run (if truthy conda_env then
         run log Info ("Creating ncml files using conda environment: " ++ conda_env) ;
         create_ncml_files (Lst model_choices) scenario output_dir conda_env
       else mret tt) ;
  if combine_files then
    run log Info "Combining NetCDF files..." ;
    combine_netcdf_files (Lst model_choices) scenario output_dir
  else mret tt.

End Isimip.

Arguments crop {bbox} xr_sel bb ds _.
Arguments fetch {bbox} remote_open xr_sel disk_fault bb url output_file _.
Arguments process_file {bbox} remote_open xr_sel disk_fault bb output_dir
  model variable scen year _.
Arguments run_task {bbox} remote_open xr_sel disk_fault bb output_dir t _.
Arguments download_isimip_data {bbox} remote_open xr_sel disk_fault xr_combine
  run_shell model_choices variables scenario bb output_dir max_workers
  combine_files _.

(** ** Predicates of the statements *)

Definition task : Type := string * string * string * Z.

Definition parent (p : path) : path := take (List.length p - 1) p.

(** A well-formed tree: every entry below the top level sits in a directory. *)
Definition fs_wf (f : gmap path node) : Prop :=
  forall p, is_Some (f !! p) -> parent p = [] \/ f !! parent p = Some Dir.

(** The same, as a check that runs on a concrete tree. *)
Definition fs_wfb (f : gmap path node) : bool :=
  forallb (fun p => match parent p with
                    | [] => true
                    | q => is_dir (f !! q)
                    end)
          (map fst (map_to_list f)).

(** Where a fetch unit stores its file: lines 216-222. *)
Definition local_target (output_dir : path) (t : task) : option path :=
  let '(model, variable, scen, year) := t in
  match dict_get valid_models model with
  | Some model_lower =>
      Some (output_dir // model // scen //
            (file_name model_lower (experiment model) scen variable year
                       (end_year scen year) ++ "_cropped.nc"))
  | None => None
  end.

(** The test of lines 208-211 that makes a unit return at once. *)
Definition dropped (t : task) : bool :=
  let '(_, _, scen, year) := t in
  String.eqb scen "historical" && (end_year scen year <? year)%Z.

(** Every unit of the list already has its file. *)
Definition populated (f : gmap path node) (output_dir : path) (tasks : list task) : bool :=
  forallb (fun t => match local_target output_dir t with
                    | Some p => match f !! p with Some _ => true | None => false end
                    | None => false
                    end) tasks.

Definition time_sorted (d : dataset) : Prop := Sorted Z.le (time_axis d).

Definition writes_sorted (w : world) : Prop :=
  forall p d, Write p d ∈ w_trace w -> time_sorted d.

(** The errors of lines 190, 194 and 198, with the lists printed out. *)
Definition model_error (m : string) : exn :=
  ValueError ("Invalid model: " ++ m ++ ". Valid models: "
              ++ "['GFDL-ESM4', 'MPI-ESM1-2-HR', 'IPSL-CM6A-LR', 'MRI-ESM2-0', 'UKESM1-0-LL']").

Definition variable_error (v : string) : exn :=
  ValueError ("Invalid variable: " ++ v ++ ". Valid variables: "
              ++ "['hurs', 'huss', 'pr', 'prsn', 'ps', 'tas', 'tasmax', 'tasmin']").

Definition scenario_error (s : string) : exn :=
  ValueError ("Invalid scenario: " ++ s ++ ". Valid scenarios: "
              ++ "['historical', 'ssp126', 'ssp585']").

(** The inputs that pass lines 188-198. *)
Definition valid_inputs (model_choices variables : selector) (scenario : string) : Prop :=
  Forall (fun m => m ∈ valid_model_names) (resolve_models model_choices)
  /\ Forall (fun v => v ∈ valid_variables) (as_list variables)
  /\ Forall (fun s => s ∈ valid_scenarios) (resolve_scenarios scenario).

(** A validation error and the value it blames. *)
Definition offending (mc vars : selector) (scenario : string) (x : exn) : Prop :=
  (exists m, m ∈ resolve_models mc /\ (m ∉ valid_model_names) /\ x = model_error m)
  \/ (exists v, v ∈ as_list vars /\ (v ∉ valid_variables) /\ x = variable_error v)
  \/ (exists s, s ∈ resolve_scenarios scenario /\ (s ∉ valid_scenarios)
                 /\ x = scenario_error s).

(** The world the pool leaves behind. *)
Definition after_tasks {bbox : Type} (remote_open : world -> string -> result dataset)
    (xr_sel : bbox -> dataset -> result dataset)
    (disk_fault : world -> path -> option exn)
    (bb : option bbox) (od : path) (tasks : list task) (w : world) : world :=
  fold_left (fun w t => snd (run_task remote_open xr_sel disk_fault bb od t w)) tasks w.

(** ASCII lower-casing, [str.lower] on the catalogue's names. *)
Definition lower_ascii (c : ascii) : ascii :=
  let n := nat_of_ascii c in
  if ((65 <=? n) && (n <=? 90))%nat then ascii_of_nat (n + 32) else c.

Fixpoint str_lower (s : string) : string :=
  match s with
  | EmptyString => EmptyString
  | String c s' => String (lower_ascii c) (str_lower s')
  end.

(** ** Test doubles for the environment *)

Definition w0 : world := World ∅ [] [].

Definition stub_open (w : world) (url : string) : result dataset :=
  Ret [(2, "b"); (1, "a")].

Definition failing_open (w : world) (url : string) : result dataset :=
  Raise (LibError "connection refused").

Definition stub_sel (b : Z * Z * Z * Z) (d : dataset) : result dataset := Ret d.

Definition failing_sel (b : Z * Z * Z * Z) (d : dataset) : result dataset :=
  Raise (KeyError "lon").

Definition no_fault (w : world) (p : path) : option exn := None.

Definition disk_full (w : world) (p : path) : option exn :=
  Some (OSError "No space left on device").

(** A combine step in the manner of xarray: concatenate, then refuse a
    result whose time index is not monotonic. *)
Definition checked_combine (dss : list dataset) : result dataset :=
  let d := concat dss in
  if bool_decide (time_sorted d) then Ret d
  else Raise (ValueError "Resulting object does not have monotonic global indexes along dimension time").

Definition stub_shell (w : world) (cmd : string) : result unit * gmap path node :=
  (Ret tt, w_fs w).

Definition europe : Z * Z * Z * Z := (-10, 40, 35, 70).

Definition failing_run (ro : world -> string -> result dataset)
    (sl : Z * Z * Z * Z -> dataset -> result dataset)
    (df : world -> path -> option exn) : result unit * world :=
  fetch ro sl df (Some europe) "https://example.org/x.nc" ["out"; "x_cropped.nc"] w0.

(** A tree with two cropped files whose time axes are out of order. *)
Definition unsorted_tree : world :=
  World (list_to_map
           [ (["out"], Dir);
             (["out"; "GFDL-ESM4"], Dir);
             (["out"; "GFDL-ESM4"; "historical"], Dir);
             (["out"; "GFDL-ESM4"; "historical"; "a_cropped.nc"],
              File [(4, "t4"); (3, "t3")]);
             (["out"; "GFDL-ESM4"; "historical"; "b_cropped.nc"],
              File [(2, "t2"); (1, "t1")]) ])
        [] [].

(** The call of lines 278-285. *)
Definition example_run : result unit * world :=
  download_isimip_data stub_open stub_sel no_fault checked_combine stub_shell
    (Str "GFDL-ESM4") (Lst ["tas"; "pr"]) "historical" (Some europe)
    ["isimip_data"] 5 true w0.

(** The world after that call: every generated unit has its file. *)
Definition populated_world : world := snd example_run.

(** ** Further notions for the statements *)

(** The URL a fetch unit opens: lines 220-221. *)
Definition unit_url (t : task) : option string :=
  let '(model, variable, scen, year) := t in
  match dict_get valid_models model with
  | Some model_lower =>
      Some (remote_url scen model
              (file_name model_lower (experiment model) scen variable year
                         (end_year scen year)))
  | None => None
  end.

(** The effects a download may have below [od]: making a model/scenario
    directory of a catalogue model, opening a resource under the base URL,
    writing a cropped file into such a directory. *)
Definition own_event (od : path) (e : event) : Prop :=
  match e with
  | Mkdir p => exists m s, m ∈ valid_model_names /\ p = od // m // s
  | NetOpen u => exists rest, u = base_url ++ "/" ++ rest
  | Write p _ =>
      exists m s stem, m ∈ valid_model_names
                       /\ p = od // m // s // (stem ++ "_cropped.nc")
  | Proc _ => False
  end.

(** [w'] continues the trace of [w] with own events, at most [n] of them
    remote opens. *)
Definition grows (od : path) (n : nat) (w w' : world) : Prop :=
  exists new, w_trace w' = (w_trace w ++ new)%list
              /\ Forall (own_event od) new
              /\ (List.length (List.filter is_net new) <= n)%nat.

(** The warning of lines 43 and 100 for a model and a scenario. *)
Definition missing_warning (od : path) (scen model : string) : level * string :=
  (Warning, "Directory " ++ path_str (od // model // scen) ++ " does not exist, skipping...").

(** The command line of line 59. *)
Definition ncml_command (od : path) (conda_env scen model : string) : string :=
  "conda run -n " ++ conda_env ++ " Rscript -e '"
  ++ r_script (od // model // scen)
              (od // "ncml" // scen // (model ++ "_" ++ scen ++ ".ncml"))
  ++ "'".

(** Subprocess runners for the statements at concrete inputs. *)
Definition shell_exit_1 (w : world) (cmd : string) : result unit * gmap path node :=
  (Raise (CalledProcessError "Command returned non-zero exit status 1."), w_fs w).

Definition shell_interrupted (w : world) (cmd : string) : result unit * gmap path node :=
  (Raise (BaseExc "KeyboardInterrupt"), w_fs w).

(** A tree that has the download directory of one model and scenario. *)
Definition one_source_tree : world :=
  World (list_to_map
           [ (["out"], Dir);
             (["out"; "GFDL-ESM4"], Dir);
             (["out"; "GFDL-ESM4"; "ssp126"], Dir) ])
        [] [].

(** A tree where a regular file stands in the way of a model directory. *)
Definition blocked_tree : world :=
  World (list_to_map [ (["out"], Dir); (["out"; "GFDL-ESM4"], File []) ]) [] [].

(** The directory of a unit. *)
Definition unit_dir (od : path) (t : task) : path :=
  let '(model, _, scen, _) := t in od // model // scen.

(** A combine step that always fails. *)
Definition failing_combine (dss : list dataset) : result dataset :=
  Raise (ValueError "Could not find any dimension coordinates to use to order the datasets").

(** The units of the statements at concrete inputs. *)
Definition unit_2021 : task := ("GFDL-ESM4", "tas", "ssp126", 2021).

Definition target_2021 : path :=
  ["out"; "GFDL-ESM4"; "ssp126";
   "gfdl-esm4_r1i1p1f1_w5e5_ssp126_tas_global_daily_2021_2030_cropped.nc"].

Definition url_2021 : string :=
  "https://files.isimip.org/ISIMIP3b/InputData/climate/atmosphere/bias-adjusted/global/daily/ssp126/GFDL-ESM4/gfdl-esm4_r1i1p1f1_w5e5_ssp126_tas_global_daily_2021_2030.nc".

(** ** Plain names *)

(** An ASCII letter, a digit, or one of '-', '_' and '.'. *)
Definition plain_char (c : ascii) : bool :=
  let n := nat_of_ascii c in
  (Nat.leb 48 n && Nat.leb n 57) || (Nat.leb 65 n && Nat.leb n 90)
  || (Nat.leb 97 n && Nat.leb n 122)
  || Nat.eqb n 45 || Nat.eqb n 95 || Nat.eqb n 46.

Fixpoint all_chars (f : ascii -> bool) (s : string) : bool :=
  match s with
  | EmptyString => true
  | String c s' => f c && all_chars f s'
  end.

(** A plain path component: not empty, neither "." nor "..", and made of
    plain characters only (so no '/', no NUL byte).  For such a name
    pathlib's [/] appends exactly one component, [str] of the path joins
    the components with '/', and the file-system calls of the program raise
    nothing but [OSError]. *)
Definition plain_component (s : string) : bool :=
  negb (String.eqb s EmptyString) && negb (String.eqb s ".")
  && negb (String.eqb s "..") && all_chars plain_char s.

(** A relative path of plain components. *)
Definition plain_path (p : path) : bool := forallb plain_component p.

(** A call whose model list holds "all" beside a name outside the
    catalogue. *)
Definition mixed_run : result unit * world :=
  download_isimip_data stub_open stub_sel no_fault checked_combine stub_shell
    (Lst ["XYZ"; "all"]) (Str "tas") "ssp126" None ["out"] 5 false w0.
(** * Properties *)

(** ** Catalogue and resolution *)

Lemma str_in_elem (x : string) (l : list string) : str_in x l = true <-> x ∈ l.
Proof.
  unfold str_in. induction l as [|y l IH]; simpl.
  - split; [discriminate | intros H; inversion H].
  - rewrite orb_true_iff, IH, elem_of_cons, String.eqb_eq. reflexivity.
Qed.

Lemma str_in_not_elem (x : string) (l : list string) : str_in x l = false <-> x ∉ l.
Proof.
  rewrite <- str_in_elem. destruct (str_in x l); split; congruence.
Qed.

Lemma dict_get_Some_elem (d : list (string * string)) (k v : string) :
  dict_get d k = Some v -> (k, v) ∈ d.
Proof.
  induction d as [|[k' v'] d IH]; simpl; [discriminate|].
  destruct (String.eqb_spec k k') as [->|Hne]; intros H.
  - injection H as ->. apply elem_of_cons. by left.
  - apply elem_of_cons. right. by apply IH.
Qed.

Lemma dict_get_keys (d : list (string * string)) (k : string) :
  is_Some (dict_get d k) <-> k ∈ map fst d.
Proof.
  induction d as [|[k' v'] d IH]; simpl.
  - split; [intros [? ?]; discriminate | intros H; inversion H].
  - rewrite elem_of_cons. destruct (String.eqb_spec k k') as [->|Hne]; simpl.
    + split; [by left | by eexists].
    + rewrite IH. split; [by right | by intros [?|?]].
Qed.

Lemma valid_model_lookup (m : string) :
  m ∈ valid_model_names <-> is_Some (dict_get valid_models m).
Proof. symmetry. apply dict_get_keys. Qed.

Lemma valid_model_lookup_None (m : string) :
  m ∉ valid_model_names <-> dict_get valid_models m = None.
Proof.
  rewrite valid_model_lookup, eq_None_not_Some. reflexivity.
Qed.

Lemma elem_of_build_tasks (ms ss vs : list string) (m v s : string) (y : Z) :
  (m, v, s, y) ∈ build_tasks ms ss vs
  <-> m ∈ ms /\ s ∈ ss /\ v ∈ vs /\ y ∈ decade_starts s.
Proof.
  unfold build_tasks. rewrite list_elem_of_bind. split.
  - intros (m' & H & Hm). apply list_elem_of_bind in H as (s' & H & Hs).
    apply list_elem_of_bind in H as (v' & H & Hv).
    apply list_elem_of_bind in H as (y' & H & Hy).
    apply list_elem_of_singleton in H. injection H as -> -> -> ->. done.
  - intros (Hm & Hs & Hv & Hy). exists m. split; [|done].
    apply list_elem_of_bind. exists s. split; [|done].
    apply list_elem_of_bind. exists v. split; [|done].
    apply list_elem_of_bind. exists y. split; [|done].
    by apply list_elem_of_singleton.
Qed.

Lemma decade_starts_historical :
  decade_starts "historical" = [1971; 1981; 1991; 2001].
Proof. reflexivity. Qed.

Lemma decade_starts_future (s : string) :
  s <> "historical" ->
  decade_starts s = [2021; 2031; 2041; 2051; 2061; 2071; 2081].
Proof.
  intros Hs. unfold decade_starts.
  destruct (String.eqb_spec s "historical"); [contradiction | reflexivity].
Qed.

(** A generated decade start is never dropped by line 210. *)
Lemma decade_starts_kept (s : string) (y : Z) :
  y ∈ decade_starts s ->
  (String.eqb s "historical" && (end_year s y <? y)%Z) = false.
Proof.
  unfold end_year. destruct (String.eqb_spec s "historical") as [->|Hs]; simpl; [|done].
  rewrite decade_starts_historical. intros Hy.
  apply Z.ltb_ge. repeat (apply elem_of_cons in Hy as [->|Hy]; [lia|]).
  inversion Hy.
Qed.

(** The cross-product the loops of lines 250-259 build. *)
Lemma build_tasks_cross_product (ms ss vs : list string) (t : task) :
  t ∈ build_tasks ms ss vs
  <-> t.1.1.1 ∈ ms /\ t.1.2 ∈ ss /\ t.1.1.2 ∈ vs /\
      t.2 ∈ (if String.eqb t.1.2 "historical"
             then [1971; 1981; 1991; 2001]
             else [2021; 2031; 2041; 2051; 2061; 2071; 2081]).
Proof.
  destruct t as [[[m v] s] y]. simpl. rewrite elem_of_build_tasks.
  destruct (String.eqb_spec s "historical") as [->|Hs].
  - by rewrite decade_starts_historical.
  - by rewrite decade_starts_future.
Qed.

(** C1.  Evaluating the task generation: "all" resolves to the three
    scenarios and the future scenarios get the starts 2021, 2031, ..., 2081,
    but [range(1971, 2011, 10)] stops at 2001, so a historical run has four
    decade starts and no task for 2011. *)
Theorem historical_tasks_miss_2011 :
  resolve_scenarios "all" = ["historical"; "ssp126"; "ssp585"]
  /\ decade_starts "ssp126" = [2021; 2031; 2041; 2051; 2061; 2071; 2081]
  /\ decade_starts "ssp585" = [2021; 2031; 2041; 2051; 2061; 2071; 2081]
  /\ decade_starts "historical" = [1971; 1981; 1991; 2001]
  /\ build_tasks (resolve_models (Str "GFDL-ESM4")) (resolve_scenarios "historical")
                 (as_list (Str "tas"))
     = [("GFDL-ESM4", "tas", "historical", 1971);
        ("GFDL-ESM4", "tas", "historical", 1981);
        ("GFDL-ESM4", "tas", "historical", 1991);
        ("GFDL-ESM4", "tas", "historical", 2001)]
  /\ (forall ms ss vs m v, (m, v, "historical", 2011) ∉ build_tasks ms ss vs).
Proof.
  repeat split; try reflexivity.
  intros ms ss vs m v H. apply elem_of_build_tasks in H as (_ & _ & _ & H).
  rewrite decade_starts_historical in H.
  repeat (apply elem_of_cons in H as [H|H]; [discriminate|]). inversion H.
Qed.

(** ** Validation *)

(** A loop of checks stops at its first offender and touches nothing. *)
Lemma for_each_check {A} (P : A -> Prop) (err : A -> exn) (body : A -> M unit)
    (l : list A) (w : world) :
  (forall x, P x -> body x w = (Ret tt, w)) ->
  (forall x, ~ P x -> body x w = (Raise (err x), w)) ->
  (forall x, P x \/ ~ P x) ->
  (Forall P l /\ for_each l body w = (Ret tt, w))
  \/ (exists x, x ∈ l /\ ~ P x /\ for_each l body w = (Raise (err x), w)).
Proof.
  intros Hok Hbad Hdec. induction l as [|x l IH].
  - left. split; [constructor | reflexivity].
  - destruct (Hdec x) as [Hx|Hx].
    + destruct IH as [[Hall Hrun]|(y & Hy & HPy & Hrun)].
      * left. split; [by constructor|].
        simpl. unfold bind. by rewrite (Hok x Hx).
      * right. exists y. split; [by apply elem_of_cons; right|]. split; [done|].
        simpl. unfold bind. by rewrite (Hok x Hx).
    + right. exists x. split; [by apply elem_of_cons; left|]. split; [done|].
      simpl. unfold bind. by rewrite (Hbad x Hx).
Qed.

Lemma validate_models_cases (ms : list string) (w : world) :
  (Forall (fun m => m ∈ valid_model_names) ms /\ validate_models ms w = (Ret tt, w))
  \/ (exists m, m ∈ ms /\ (m ∉ valid_model_names)
                /\ validate_models ms w = (Raise (model_error m), w)).
Proof.
  apply for_each_check.
  - intros m Hm. apply valid_model_lookup in Hm as [tok Htok]. by rewrite Htok.
  - intros m Hm. apply valid_model_lookup_None in Hm. by rewrite Hm.
  - intros m. destruct (decide (m ∈ valid_model_names)); auto.
Qed.

Lemma validate_variables_cases (vs : list string) (w : world) :
  (Forall (fun v => v ∈ valid_variables) vs /\ validate_variables vs w = (Ret tt, w))
  \/ (exists v, v ∈ vs /\ (v ∉ valid_variables)
                /\ validate_variables vs w = (Raise (variable_error v), w)).
Proof.
  apply for_each_check.
  - intros v Hv. apply str_in_elem in Hv. by rewrite Hv.
  - intros v Hv. apply str_in_not_elem in Hv. by rewrite Hv.
  - intros v. destruct (decide (v ∈ valid_variables)); auto.
Qed.

Lemma validate_scenarios_cases (ss : list string) (w : world) :
  (Forall (fun s => s ∈ valid_scenarios) ss /\ validate_scenarios ss w = (Ret tt, w))
  \/ (exists s, s ∈ ss /\ (s ∉ valid_scenarios)
                /\ validate_scenarios ss w = (Raise (scenario_error s), w)).
Proof.
  apply for_each_check.
  - intros s Hs. apply str_in_elem in Hs. by rewrite Hs.
  - intros s Hs. apply str_in_not_elem in Hs. by rewrite Hs.
  - intros s. destruct (decide (s ∈ valid_scenarios)); auto.
Qed.

Lemma valid_inputs_not_offending mc vars scenario x :
  valid_inputs mc vars scenario -> ~ offending mc vars scenario x.
Proof.
  intros (Hm & Hv & Hs) [(m & Hin & Hbad & _)|[(v & Hin & Hbad & _)|(s & Hin & Hbad & _)]];
    apply Hbad; [revert Hm|revert Hv|revert Hs]; rewrite Forall_forall; auto.
Qed.

Section Behaviour.

Context {bbox : Type}.
Variable remote_open : world -> string -> result dataset.
Variable xr_sel : bbox -> dataset -> result dataset.
Variable disk_fault : world -> path -> option exn.
Variable xr_combine : list dataset -> result dataset.
Variable run_shell : world -> string -> result unit * gmap path node.

Local Abbreviation download :=
  (download_isimip_data remote_open xr_sel disk_fault xr_combine run_shell).
Local Abbreviation after := (after_tasks remote_open xr_sel disk_fault).

(** What a call of [download_isimip_data] comes to: a validation error in
    an untouched world, the pool's refusal of a non-positive size, or the
    downloads followed by the failed read of [conda_env]. *)
Lemma download_cases mc vars scenario (bb : option bbox) od mw cf w :
  (exists x, download mc vars scenario bb od mw cf w = (Raise x, w)
             /\ offending mc vars scenario x)
  \/ (valid_inputs mc vars scenario /\ mw <= 0
      /\ download mc vars scenario bb od mw cf w
         = (Raise (ValueError "max_workers must be greater than 0"), w))
  \/ (valid_inputs mc vars scenario /\ 0 < mw
      /\ download mc vars scenario bb od mw cf w
         = (Raise (NameError "name 'conda_env' is not defined"),
            after bb od
              (build_tasks (resolve_models mc) (resolve_scenarios scenario)
                           (as_list vars)) w)).
Proof.
  unfold download_isimip_data, bind.
  destruct (validate_models_cases (resolve_models mc) w)
    as [[Hm ->]|(m & Hm & Hbad & ->)];
    [|left; eexists; split; [reflexivity|]; left; eauto 6].
  destruct (validate_variables_cases (as_list vars) w)
    as [[Hv ->]|(v & Hv & Hbad & ->)];
    [|left; eexists; split; [reflexivity|]; right; left; eauto 6].
  destruct (validate_scenarios_cases (resolve_scenarios scenario) w)
    as [[Hs ->]|(s & Hs & Hbad & ->)];
    [|left; eexists; split; [reflexivity|]; right; right; eauto 6].
  right. unfold thread_pool_map.
  destruct (Z.leb_spec mw 0) as [Hmw|Hmw].
  - left. done.
  - right. done.
Qed.

(** C2.  [download_isimip_data] never returns normally: once validation
    has passed and the pool has run the downloads, line 266 reads the
    name [conda_env], which nothing binds, and the call ends in a
    [NameError] in the world the downloads left; neither the aggregator
    nor the combiner runs. *)
Theorem download_ends_in_NameError mc vars scenario (bb : option bbox) od mw cf w :
  (exists e, fst (download mc vars scenario bb od mw cf w) = Raise e)
  /\ (valid_inputs mc vars scenario -> 0 < mw ->
      download mc vars scenario bb od mw cf w
      = (Raise (NameError "name 'conda_env' is not defined"),
         after bb od
           (build_tasks (resolve_models mc) (resolve_scenarios scenario)
                        (as_list vars)) w)).
Proof.
  destruct (download_cases mc vars scenario bb od mw cf w)
    as [(x & Hrun & Hoff)|[(Hv & Hmw & Hrun)|(Hv & Hmw & Hrun)]];
    rewrite Hrun; (split; [by eexists|]); intros Hvalid Hpos.
  - by destruct (valid_inputs_not_offending _ _ _ x Hvalid).
  - lia.
  - reflexivity.
Qed.

(** C3, as the code has it.  The selectors are resolved first: a model
    list that holds "all" stands for the five catalogue models and its
    other entries are dropped, the scenario "all" stands for the three
    scenarios.  When a resolved model, a variable or a resolved scenario is
    not in its fixed set, the call raises a [ValueError] whose message names
    an offending value and the allowed set, in a world it has not touched:
    no directory, no file, no remote open, no log line. *)
Theorem invalid_name_raises_before_effects mc vars scenario (bb : option bbox)
    od mw cf w :
  (exists m, m ∈ resolve_models mc /\ m ∉ valid_model_names)
  \/ (exists v, v ∈ as_list vars /\ v ∉ valid_variables)
  \/ (exists s, s ∈ resolve_scenarios scenario /\ s ∉ valid_scenarios) ->
  exists x, download mc vars scenario bb od mw cf w = (Raise x, w)
    /\ ((exists m, m ∈ resolve_models mc /\ (m ∉ valid_model_names)
          /\ x = ValueError ("Invalid model: " ++ m ++ ". Valid models: "
                             ++ repr_list (map fst valid_models)))
        \/ (exists v, v ∈ as_list vars /\ (v ∉ valid_variables)
          /\ x = ValueError ("Invalid variable: " ++ v ++ ". Valid variables: "
                             ++ repr_list valid_variables))
        \/ (exists s, s ∈ resolve_scenarios scenario /\ (s ∉ valid_scenarios)
          /\ x = ValueError ("Invalid scenario: " ++ s ++ ". Valid scenarios: "
                             ++ repr_list valid_scenarios))).
Proof.
  intros Hbad.
  assert (Hnv : ~ valid_inputs mc vars scenario).
  { intros (Hm & Hv & Hs). rewrite Forall_forall in Hm, Hv, Hs.
    destruct Hbad as [(m & Hin & Hb)|[(v & Hin & Hb)|(s & Hin & Hb)]]; auto. }
  destruct (download_cases mc vars scenario bb od mw cf w)
    as [(x & Hrun & Hoff)|[(Hv & _)|(Hv & _)]]; try contradiction.
  exists x. split; [exact Hrun|exact Hoff].
Qed.

(** C10.  A model list that contains "all" anywhere resolves to the five
    catalogue models; its other entries, valid or not, are gone before the
    validation loop, which passes; the call behaves as for the selector
    "all" and no "Invalid model" error is raised. *)
Theorem all_in_list_selects_catalog (l : list string) :
  "all" ∈ l ->
  resolve_models (Lst l)
    = ["GFDL-ESM4"; "MPI-ESM1-2-HR"; "IPSL-CM6A-LR"; "MRI-ESM2-0"; "UKESM1-0-LL"]
  /\ (forall w, validate_models (resolve_models (Lst l)) w = (Ret tt, w))
  /\ (forall vars scenario (bb : option bbox) od mw cf w,
        download (Lst l) vars scenario bb od mw cf w
        = download (Str "all") vars scenario bb od mw cf w)
  /\ (forall vars scenario (bb : option bbox) od mw cf w m,
        fst (download (Lst l) vars scenario bb od mw cf w) <> Raise (model_error m)).
Proof.
  intros Hall. apply str_in_elem in Hall.
  assert (Hres : resolve_models (Lst l) = valid_model_names).
  { unfold resolve_models. simpl. by rewrite Hall. }
  assert (Hok : Forall (fun m => m ∈ valid_model_names) (resolve_models (Lst l))).
  { rewrite Hres. apply Forall_forall. auto. }
  split; [exact Hres|]. split; [|split].
  - intros w. destruct (validate_models_cases (resolve_models (Lst l)) w)
      as [[_ E]|(m & Hin & Hbad & _)]; [exact E|].
    rewrite Forall_forall in Hok. destruct (Hbad (Hok m Hin)).
  - intros. unfold download_isimip_data. rewrite Hres. reflexivity.
  - intros vars scenario bb od mw cf w m.
    destruct (download_cases (Lst l) vars scenario bb od mw cf w)
      as [(x & Hrun & Hoff)|[(_ & _ & Hrun)|(_ & _ & Hrun)]]; rewrite Hrun; simpl;
      try discriminate.
    destruct Hoff as [(m' & Hin & Hbad & _)|[(v & _ & _ & ->)|(s & _ & _ & ->)]];
      try discriminate.
    rewrite Forall_forall in Hok. destruct (Hbad (Hok m' Hin)).
Qed.

(** ** The file system under [mkdir] *)

Lemma parent_snoc (d : path) (c : string) : parent (d // c) = d.
Proof.
  unfold parent, path_div. rewrite length_app. simpl.
  replace (List.length d + 1 - 1)%nat with (List.length d) by lia.
  by rewrite take_app_length.
Qed.

Lemma wf_ancestors_are_dirs (f : gmap path node) (d : path) (c : string) :
  fs_wf f -> is_Some (f !! (d // c)) ->
  Forall (fun q => f !! q = Some Dir) (prefixes d).
Proof.
  intros Hwf Hsome.
  assert (Hk : forall j k, (k + j = List.length d)%nat -> (1 <= k)%nat ->
                           f !! take k d = Some Dir).
  { induction j as [|j IH]; intros k Hlen Hpos.
    - replace k with (List.length d) by lia. rewrite firstn_all.
      destruct (Hwf _ Hsome) as [Hnil|Hdir]; rewrite parent_snoc in *; [|done].
      subst d. simpl in Hlen. lia.
    - assert (Hnext : f !! take (S k) d = Some Dir) by (apply IH; lia).
      destruct (Hwf (take (S k) d)) as [Hnil|Hdir]; [by eexists| |].
      + unfold parent in Hnil. rewrite length_take in Hnil.
        rewrite take_take in Hnil.
        apply (f_equal List.length) in Hnil. rewrite length_take in Hnil.
        change (List.length (@nil string)) with 0%nat in Hnil. lia.
      + unfold parent in Hdir. rewrite length_take, take_take in Hdir.
        replace ((S k `min` List.length d - 1) `min` S k)%nat with k in Hdir by lia.
        exact Hdir. }
  unfold prefixes. apply Forall_forall. intros q Hq.
  apply list_elem_of_In, in_map_iff in Hq as (k & <- & Hin).
  apply in_seq in Hin. apply (Hk (List.length d - k)%nat); lia.
Qed.

Lemma mkdir_existing (p : path) (w : world) :
  Forall (fun q => w_fs w !! q = Some Dir) (prefixes p) ->
  mkdir p w = (Ret tt, emit (Mkdir p) w).
Proof.
  intros Hdirs. unfold mkdir, emit.
  assert (Hnofile : blocked (w_fs w) p = false).
  { unfold blocked. clear -Hdirs. induction Hdirs as [|q l Hq _ IH]; simpl; [done|].
    by rewrite Hq, IH. }
  assert (Hsame : foldr (fun q f => <[q := Dir]> f) (w_fs w) (prefixes p) = w_fs w).
  { clear -Hdirs. induction Hdirs as [|q l Hq _ IH]; simpl; [done|].
    rewrite IH. by apply insert_id. }
  by rewrite Hnofile, Hsame.
Qed.

Lemma lookup_after_mkdirs (f : gmap path node) (ps : list path) (p : path) :
  p ∉ ps -> foldr (fun q f => <[q := Dir]> f) f ps !! p = f !! p.
Proof.
  induction ps as [|q ps IH]; simpl; [done|]. intros Hnot.
  apply not_elem_of_cons in Hnot as [Hne Hnot].
  rewrite lookup_insert_ne by done. by apply IH.
Qed.

Lemma child_not_prefix (d : path) (c : string) : d // c ∉ prefixes d.
Proof.
  unfold prefixes, path_div. intros Hin.
  apply list_elem_of_In, in_map_iff in Hin as (k & Heq & _).
  apply (f_equal List.length) in Heq.
  rewrite length_take, length_app in Heq. simpl in Heq. lia.
Qed.

Lemma net_calls_add_log l msg w : net_calls (add_log l msg w) = net_calls w.
Proof. reflexivity. Qed.

Lemma net_calls_emit e w :
  net_calls (emit e w) = (net_calls w ++ (if is_net e then [e] else []))%list.
Proof.
  unfold net_calls, emit. simpl. rewrite List.filter_app. simpl.
  by destruct (is_net e).
Qed.

(** ** The fetch unit *)

Local Abbreviation unit_run := (run_task remote_open xr_sel disk_fault).
Local Abbreviation process := (process_file remote_open xr_sel disk_fault).
Local Abbreviation fetch_unit := (fetch remote_open xr_sel disk_fault).

Lemma local_target_Some od m v s y p :
  local_target od (m, v, s, y) = Some p ->
  exists tok, dict_get valid_models m = Some tok
    /\ p = od // m // s // (file_name tok (experiment m) s v y (end_year s y)
                            ++ "_cropped.nc").
Proof.
  unfold local_target. destruct (dict_get valid_models m) as [tok|]; [|discriminate].
  intros [= <-]. eauto.
Qed.

Lemma run_task_existing (bb : option bbox) od t p w :
  fs_wf (w_fs w) -> local_target od t = Some p -> is_Some (w_fs w !! p) ->
  dropped t = false ->
  unit_run bb od t w
  = (Ret tt, add_log Info ("File already exists: " ++ path_str p)
                     (emit (Mkdir (parent p)) w)).
Proof.
  destruct t as [[[m v] s] y]. intros Hwf Htarget Hsome Hkept.
  apply local_target_Some in Htarget as (tok & Htok & ->).
  rewrite parent_snoc. unfold run_task, process_file, dropped in *.
  rewrite Htok, Hkept. unfold bind.
  rewrite mkdir_existing by (eapply wf_ancestors_are_dirs; eauto).
  unfold path_exists. simpl. destruct Hsome as [n Hn]. by rewrite Hn.
Qed.

Lemma populated_elem (f : gmap path node) od tasks t :
  populated f od tasks = true -> t ∈ tasks ->
  exists p, local_target od t = Some p /\ is_Some (f !! p).
Proof.
  unfold populated. rewrite forallb_forall. intros Hall Hin.
  specialize (Hall t (proj1 (list_elem_of_In _ _) Hin)).
  destruct (local_target od t) as [p|]; [|discriminate].
  exists p. split; [done|]. destruct (f !! p); [by eexists|discriminate].
Qed.

Lemma after_tasks_cons (bb : option bbox) od t tasks w :
  after bb od (t :: tasks) w = after bb od tasks (snd (unit_run bb od t w)).
Proof. reflexivity. Qed.

Lemma after_tasks_populated (bb : option bbox) od tasks w :
  fs_wf (w_fs w) ->
  (forall t, t ∈ tasks -> dropped t = false
             /\ exists p, local_target od t = Some p /\ is_Some (w_fs w !! p)) ->
  w_fs (after bb od tasks w) = w_fs w
  /\ net_calls (after bb od tasks w) = net_calls w.
Proof.
  revert w. induction tasks as [|t tasks IH]; intros w Hwf Hall; [done|].
  destruct (Hall t) as (Hkept & p & Htarget & Hsome); [by apply elem_of_cons; left|].
  rewrite after_tasks_cons, (run_task_existing bb od t p w) by done. simpl.
  set (w1 := add_log _ _ _).
  assert (Hfs : w_fs w1 = w_fs w) by reflexivity.
  assert (Hnet : net_calls w1 = net_calls w).
  { unfold w1. rewrite net_calls_add_log, net_calls_emit. simpl. apply app_nil_r. }
  destruct (IH w1) as [Hfs' Hnet'].
  - by rewrite Hfs.
  - intros t' Hin. rewrite Hfs. apply Hall. by apply elem_of_cons; right.
  - by rewrite Hfs', Hnet'.
Qed.

Lemma built_tasks_kept ms ss vs t : t ∈ build_tasks ms ss vs -> dropped t = false.
Proof.
  destruct t as [[[m v] s] y]. intros Hin.
  apply elem_of_build_tasks in Hin as (_ & _ & _ & Hy).
  by apply decade_starts_kept.
Qed.

(** C4.  A unit whose target file exists logs "File already exists" and
    returns: the file system is as before and no remote open is made.
    Hence a run of [download_isimip_data] over a tree that holds the file
    of every generated unit makes no remote open and changes no file. *)
Theorem existing_target_skips_fetch :
  (forall (bb : option bbox) od t p w,
      fs_wf (w_fs w) -> local_target od t = Some p -> is_Some (w_fs w !! p) ->
      dropped t = false ->
      exists w', unit_run bb od t w = (Ret tt, w')
        /\ w_fs w' = w_fs w
        /\ net_calls w' = net_calls w
        /\ w_log w' = w_log (add_log Info ("File already exists: " ++ path_str p) w))
  /\ (forall mc vars scenario (bb : option bbox) od mw cf w,
      fs_wf (w_fs w) ->
      populated (w_fs w) od
        (build_tasks (resolve_models mc) (resolve_scenarios scenario) (as_list vars))
      = true ->
      w_fs (snd (download mc vars scenario bb od mw cf w)) = w_fs w
      /\ net_calls (snd (download mc vars scenario bb od mw cf w)) = net_calls w).
Proof.
  split.
  - intros bb od t p w Hwf Htarget Hsome Hkept. eexists. split.
    + by apply run_task_existing.
    + split; [done|]. split; [|done].
      rewrite net_calls_add_log, net_calls_emit. simpl. apply app_nil_r.
  - intros mc vars scenario bb od mw cf w Hwf Hpop.
    destruct (download_cases mc vars scenario bb od mw cf w)
      as [(x & Hrun & _)|[(_ & _ & Hrun)|(_ & _ & Hrun)]]; rewrite Hrun; simpl;
      try done.
    apply after_tasks_populated; [done|]. intros t Hin. split.
    + by eapply built_tasks_kept.
    + by eapply populated_elem.
Qed.

(** C5.  The end year is [min(start + 9, 2014)] for the historical
    scenario and [start + 9] for any other; it falls before the start only
    for a historical start after 2014, and such a unit returns at once in
    an unchanged world: no directory, no remote open, no log line. *)
Theorem end_year_rule_and_drop (bb : option bbox) od m v s y w :
  (s = "historical" -> end_year s y = Z.min (y + 9) 2014)
  /\ (s <> "historical" -> end_year s y = y + 9)
  /\ (end_year s y < y ->
      s = "historical" /\ 2014 < y
      /\ dropped (m, v, s, y) = true
      /\ (m ∈ valid_model_names -> process bb od m v s y w = (Ret tt, w))).
Proof.
  unfold dropped, end_year. destruct (String.eqb_spec s "historical") as [->|Hs].
  - split; [done|]. split; [done|]. intros Hlt. split; [done|]. split; [lia|].
    assert (Hb : (Z.min (y + 9) 2014 <? y)%Z = true) by by apply Z.ltb_lt.
    split; [by rewrite Hb|]. intros Hm.
    apply valid_model_lookup in Hm as [tok Htok].
    unfold process_file. rewrite Htok.
    change (end_year "historical" y) with (Z.min (y + 9) 2014).
    change (String.eqb "historical" "historical") with true. by rewrite Hb.
  - split; [done|]. split; [done|]. intros Hlt. lia.
Qed.

Lemma mkdir_cases (p : path) (w : world) :
  (exists msg, mkdir p w = (Raise (OSError msg), emit (Mkdir p) w))
  \/ (mkdir p w = (Ret tt, snd (mkdir p w))
      /\ w_log (snd (mkdir p w)) = w_log w
      /\ w_trace (snd (mkdir p w)) = (w_trace w ++ [Mkdir p])%list
      /\ forall q, q ∉ prefixes p -> w_fs (snd (mkdir p w)) !! q = w_fs w !! q).
Proof.
  unfold mkdir. destruct (blocked (w_fs w) p).
  - left. by eexists.
  - right. simpl. repeat split. intros q Hq. by apply lookup_after_mkdirs.
Qed.

Lemma crop_keeps_world (bb : option bbox) ds w :
  crop xr_sel bb ds w = (fst (crop xr_sel bb ds w), w).
Proof. unfold crop, sel, mret. by destruct bb. Qed.

Lemma to_netcdf_failure out ds w e :
  fst (to_netcdf disk_fault out ds w) = Raise e ->
  to_netcdf disk_fault out ds w = (Raise e, w).
Proof.
  unfold to_netcdf. destruct (is_dir _); simpl; [by intros ->|].
  destruct (disk_fault w out); simpl; [by intros [= ->]|discriminate].
Qed.

Lemma fetch_net_calls (bb : option bbox) url out w :
  net_calls (snd (fetch_unit bb url out w)) = (net_calls w ++ [NetOpen url])%list.
Proof.
  unfold fetch, try_except, bind, log, xr_open_dataset.
  set (w1 := emit (NetOpen url) (add_log Info ("Downloading " ++ url) w)).
  assert (Hnet : net_calls w1 = (net_calls w ++ [NetOpen url])%list).
  { unfold w1. by rewrite net_calls_emit, net_calls_add_log. }
  destruct (remote_open _ url) as [ds|e]; simpl.
  - rewrite crop_keeps_world. destruct (fst (crop xr_sel bb ds w1)) as [ds'|e].
    + unfold to_netcdf. destruct (is_dir (w_fs w1 !! out)).
      * simpl. exact Hnet.
      * destruct (disk_fault w1 out) as [e|].
        -- destruct (is_Exception e); exact Hnet.
        -- unfold net_calls in *. simpl. rewrite List.filter_app. simpl.
           rewrite app_nil_r. exact Hnet.
    + destruct (is_Exception e); exact Hnet.
  - destruct (is_Exception e); exact Hnet.
Qed.

Lemma process_file_executed (bb : option bbox) od m v s y tok w :
  dict_get valid_models m = Some tok ->
  dropped (m, v, s, y) = false ->
  fst (mkdir (od // m // s) w) = Ret tt ->
  w_fs w !! (od // m // s // (file_name tok (experiment m) s v y (end_year s y)
                              ++ "_cropped.nc")) = None ->
  process bb od m v s y w
  = fetch_unit bb
      (remote_url s m (file_name tok (experiment m) s v y (end_year s y)))
      (od // m // s // (file_name tok (experiment m) s v y (end_year s y)
                        ++ "_cropped.nc"))
      (snd (mkdir (od // m // s) w)).
Proof.
  intros Htok Hkept Hmk Hnone. unfold process_file, dropped in *.
  rewrite Htok, Hkept. unfold bind.
  destruct (mkdir_cases (od // m // s) w) as [[msg E]|(E & _ & _ & Hfs)].
  - rewrite E in Hmk. discriminate.
  - rewrite E. unfold path_exists.
    rewrite Hfs by apply child_not_prefix. by rewrite Hnone.
Qed.

Lemma fetch_failure_caught (bb : option bbox) url out w e :
  let w1 := add_log Info ("Downloading " ++ url) w in
  let w2 := emit (NetOpen url) w1 in
  is_Exception e = true ->
  remote_open w1 url = Raise e
  \/ (exists ds, remote_open w1 url = Ret ds
                 /\ fst (crop xr_sel bb ds w2) = Raise e)
  \/ (exists ds ds', remote_open w1 url = Ret ds
                     /\ fst (crop xr_sel bb ds w2) = Ret ds'
                     /\ fst (to_netcdf disk_fault out ds' w2) = Raise e) ->
  fetch_unit bb url out w
  = (Ret tt, add_log Error ("Error processing " ++ url ++ ": " ++ exn_str e) w2).
Proof.
  intros w1 w2 Hexc Hfail.
  unfold fetch, try_except, bind, log, xr_open_dataset. fold w1. fold w2.
  destruct Hfail as [Hopen|[(ds & Hopen & Hcrop)|(ds & ds' & Hopen & Hcrop & Hwrite)]];
    rewrite Hopen.
  - by rewrite Hexc.
  - by rewrite crop_keeps_world, Hcrop, Hexc.
  - by rewrite crop_keeps_world, Hcrop, (to_netcdf_failure _ _ _ _ Hwrite), Hexc.
Qed.

Lemma pool_returns {A} mw (fn : A -> M unit) tasks w :
  0 < mw -> fst (thread_pool_map mw fn tasks w) = Ret tt.
Proof. intros Hmw. unfold thread_pool_map. by destruct (Z.leb_spec mw 0); [lia|]. Qed.

(** The outcome of a call, read off the arguments alone. *)
Lemma download_outcome mc vars scenario (bb : option bbox) od mw cf w :
  fst (download mc vars scenario bb od mw cf w)
  = fst ((run validate_models (resolve_models mc) ;
          run validate_variables (as_list vars) ;
          run validate_scenarios (resolve_scenarios scenario) ;
          if (mw <=? 0)%Z
          then raise (ValueError "max_workers must be greater than 0")
          else raise (NameError "name 'conda_env' is not defined")) w).
Proof.
  unfold download_isimip_data, bind, thread_pool_map.
  destruct (validate_models _ w) as [[[]|?] w1]; [|done].
  destruct (validate_variables _ w1) as [[[]|?] w2]; [|done].
  destruct (validate_scenarios _ w2) as [[[]|?] w3]; [|done].
  by destruct (mw <=? 0)%Z.
Qed.

Lemma catalogue_tokens (m : string) :
  m ∈ valid_model_names ->
  dict_get valid_models m = Some (str_lower m)
  /\ experiment m = (if decide (m = "UKESM1-0-LL") then "r1i1p1f2" else "r1i1p1f1").
Proof.
  intros Hm. unfold valid_model_names in Hm. simpl in Hm.
  repeat (apply elem_of_cons in Hm as [->|Hm]; [by split|]). inversion Hm.
Qed.

(** C7.  For a catalogue model the file name is
    [{token}_{experiment}_w5e5_{scenario}_{variable}_global_daily_{start}_{end}],
    the token being the lower-cased model name and the experiment
    "r1i1p1f2" for "UKESM1-0-LL" and "r1i1p1f1" otherwise; the local target
    is that name plus "_cropped.nc" under [output_dir/model/scenario]; and
    a unit that is executed (not dropped, directory made, target absent)
    opens exactly one remote resource, the base path joined with
    scenario, model and the file name plus ".nc". *)
Theorem remote_name_and_url (bb : option bbox) od m v s y w :
  m ∈ valid_model_names ->
  let exp := if decide (m = "UKESM1-0-LL") then "r1i1p1f2" else "r1i1p1f1" in
  let name := str_lower m ++ "_" ++ exp ++ "_w5e5_" ++ s ++ "_" ++ v
              ++ "_global_daily_" ++ str_int y ++ "_" ++ str_int (end_year s y) in
  let url := "https://files.isimip.org/ISIMIP3b/InputData/climate/atmosphere/bias-adjusted/global/daily"
             ++ "/" ++ s ++ "/" ++ m ++ "/" ++ name ++ ".nc" in
  dict_get valid_models m = Some (str_lower m)
  /\ local_target od (m, v, s, y) = Some (od // m // s // (name ++ "_cropped.nc"))
  /\ (dropped (m, v, s, y) = false ->
      fst (mkdir (od // m // s) w) = Ret tt ->
      w_fs w !! (od // m // s // (name ++ "_cropped.nc")) = None ->
      net_calls (snd (process bb od m v s y w)) = (net_calls w ++ [NetOpen url])%list).
Proof.
  intros Hm exp name url. destruct (catalogue_tokens m Hm) as [Htok Hexp].
  assert (Hname : file_name (str_lower m) (experiment m) s v y (end_year s y) = name).
  { unfold file_name, name, exp. by rewrite Hexp. }
  split; [exact Htok|]. split.
  - unfold local_target. by rewrite Htok, Hname.
  - intros Hkept Hmk Hnone.
    rewrite (process_file_executed bb od m v s y (str_lower m) w Htok Hkept Hmk)
      by (by rewrite Hname).
    rewrite fetch_net_calls, Hname.
    destruct (mkdir_cases (od // m // s) w) as [[msg E]|(_ & _ & Htr & _)].
    + rewrite E in Hmk. discriminate.
    + unfold net_calls at 1. rewrite Htr, List.filter_app. simpl.
      by rewrite app_nil_r.
Qed.

(** ** The combiner *)

Local Abbreviation combine_pair := (combine_one disk_fault xr_combine).
Local Abbreviation combine := (combine_netcdf_files disk_fault xr_combine).

#[local] Instance time_le_total : Total time_le.
Proof. intros a b. unfold time_le. lia. Qed.

Lemma sortby_time_sorted (d : dataset) : time_sorted (sortby_time d).
Proof.
  unfold time_sorted, time_axis, sortby_time.
  generalize (Sorted_merge_sort time_le d).
  generalize (merge_sort time_le d). intros l Hl.
  induction Hl as [|a l Hl IH Hhd]; simpl; constructor; [done|].
  destruct Hhd; simpl; constructor. done.
Qed.

Lemma sortby_time_permutation (d : dataset) : sortby_time d ≡ₚ d.
Proof. apply merge_sort_Permutation. Qed.

Lemma map_M_open_local (files : list path) (w : world) :
  snd (map_M open_local files w) = w.
Proof.
  induction files as [|p files IH]; [done|].
  simpl. unfold bind, open_local at 1.
  destruct (w_fs w !! p) as [[|d]|]; try done.
  destruct (map_M open_local files w) as [[dss|e] w1] eqn:E; simpl in IH; by subst.
Qed.

Lemma map_M_open_local_fs (files : list path) (w1 w2 : world) :
  w_fs w1 = w_fs w2 ->
  fst (map_M open_local files w1) = fst (map_M open_local files w2).
Proof.
  intros Hfs. induction files as [|p files IH]; [done|].
  simpl. unfold bind, open_local at 1 3. rewrite Hfs.
  destruct (w_fs w2 !! p) as [[|d]|]; try done.
  pose proof (map_M_open_local files w1) as H1.
  pose proof (map_M_open_local files w2) as H2.
  destruct (map_M open_local files w1) as [[dss1|e1] w3];
    destruct (map_M open_local files w2) as [[dss2|e2] w4];
    simpl in *; congruence.
Qed.

(** What one pass of the inner loop does to the world: nothing but log
    lines, or the write of one dataset to the combined file. *)
Lemma combine_one_cases od scen_dir scen model w :
  let out := scen_dir // (model ++ "_combined.nc") in
  let w' := snd (combine_pair od scen_dir scen model w) in
  (w_fs w' = w_fs w /\ w_trace w' = w_trace w)
  \/ (exists files dss d,
        fst (map_M open_local files w) = Ret dss /\ files <> []
        /\ xr_combine (map sortby_time dss) = Ret d
        /\ w_fs w' = <[out := File d]> (w_fs w)
        /\ w_trace w' = (w_trace w ++ [Write out d])%list).
Proof.
  intros out w'. subst w'. unfold combine_one, bind, path_exists.
  destruct (w_fs w !! (od // model // scen)); simpl; [|by left].
  unfold glob_cropped.
  destruct (List.filter _ _) as [|p files]; [by left|].
  unfold try_except, bind, log, open_mfdataset, bind.
  set (w1 := add_log Info _ w).
  pose proof (map_M_open_local (p :: files) w1) as Hw.
  destruct (map_M open_local (p :: files) w1) as [[dss|e] w2] eqn:Eopen;
    simpl in Hw; subst w2.
  2:{ destruct (is_Exception e); by left. }
  destruct (xr_combine (map sortby_time dss)) as [d|e] eqn:Ecomb.
  2:{ destruct (is_Exception e); by left. }
  unfold to_netcdf. fold out.
  destruct (is_dir (w_fs w1 !! out)); [by left|].
  destruct (disk_fault w1 out) as [e|].
  { destruct (is_Exception e); by left. }
  right. exists (p :: files), dss, d.
  split; [|by repeat split].
  rewrite <- (map_M_open_local_fs (p :: files) w1 w) by done. by rewrite Eopen.
Qed.

Lemma for_each_preserves {A} (P : world -> Prop) (body : A -> M unit) l w :
  (forall x w, P w -> P (snd (body x w))) -> P w -> P (snd (for_each l body w)).
Proof.
  intros Hbody. revert w. induction l as [|x l IH]; intros w Hw; [done|].
  simpl. unfold bind. specialize (Hbody x w Hw).
  destruct (body x w) as [[[]|e] w1]; simpl in *; auto.
Qed.

Lemma bind_preserves {A B} (P : world -> Prop) (m : M A) (k : A -> M B) w :
  P (snd (m w)) -> (forall a w, P w -> P (snd (k a w))) -> P (snd (bind m k w)).
Proof.
  intros Hm Hk. unfold bind. destruct (m w) as [[a|e] w1]; simpl in *; auto.
Qed.

Lemma mkdir_trace p w : w_trace (snd (mkdir p w)) = (w_trace w ++ [Mkdir p])%list.
Proof. unfold mkdir. by destruct (blocked (w_fs w) p). Qed.

Lemma mkdir_writes_sorted p w : writes_sorted w -> writes_sorted (snd (mkdir p w)).
Proof.
  intros Hw q d. rewrite mkdir_trace, elem_of_app, list_elem_of_singleton.
  intros [Hin|Heq]; [by eapply Hw | discriminate].
Qed.

Section Contract.

(** xarray's side of the bargain: combining datasets whose time axes are
    each sorted gives, when it succeeds, a dataset with a sorted time
    axis (it raises on a result that is not monotonic). *)
Hypothesis combine_monotonic :
  forall dss d, Forall time_sorted dss -> xr_combine dss = Ret d -> time_sorted d.

Lemma combine_sorted_inputs dss d :
  xr_combine (map sortby_time dss) = Ret d -> time_sorted d.
Proof.
  apply combine_monotonic. apply Forall_forall. intros x Hx.
  apply list_elem_of_In, in_map_iff in Hx as (y & <- & _).
  apply sortby_time_sorted.
Qed.

Lemma combine_one_writes_sorted od scen_dir scen model w :
  writes_sorted w -> writes_sorted (snd (combine_pair od scen_dir scen model w)).
Proof.
  intros Hw.
  destruct (combine_one_cases od scen_dir scen model w)
    as [[_ Htr]|(files & dss & d & _ & _ & Hcomb & _ & Htr)];
    intros q x; rewrite Htr; [by apply Hw|].
  rewrite elem_of_app, list_elem_of_singleton.
  intros [Hin|[= -> ->]]; [by eapply Hw | by eapply combine_sorted_inputs].
Qed.

Lemma combine_writes_sorted mc scenario od w :
  writes_sorted w -> writes_sorted (snd (combine mc scenario od w)).
Proof.
  intros Hw. unfold combine_netcdf_files.
  apply bind_preserves; [by apply mkdir_writes_sorted|]. intros _ w1 Hw1.
  apply for_each_preserves; [|done]. intros scen w2 Hw2.
  apply bind_preserves; [by apply mkdir_writes_sorted|]. intros _ w3 Hw3.
  apply for_each_preserves; [|done]. intros model w4 Hw4.
  by apply combine_one_writes_sorted.
Qed.

Lemma combine_one_writes od scen_dir scen model w files dss d :
  let out := scen_dir // (model ++ "_combined.nc") in
  let w1 := add_log Info ("Combining files for " ++ model ++ " " ++ scen ++ "...") w in
  is_Some (w_fs w !! (od // model // scen)) ->
  fst (glob_cropped (od // model // scen) w) = Ret files -> files <> [] ->
  fst (map_M open_local files w) = Ret dss ->
  xr_combine (map sortby_time dss) = Ret d ->
  is_dir (w_fs w !! out) = false -> disk_fault w1 out = None ->
  fst (combine_pair od scen_dir scen model w) = Ret tt
  /\ w_fs (snd (combine_pair od scen_dir scen model w)) !! out = Some (File d)
  /\ time_sorted d.
Proof.
  intros out w1 [n Hn] Hglob Hne Hopen Hcomb Hdir Hfault.
  split; [|split]; [| |by eapply combine_sorted_inputs].
  all: unfold combine_one, bind, path_exists; rewrite Hn; simpl.
  all: revert Hglob; unfold glob_cropped; simpl; intros [= ->].
  all: destruct files as [|p files]; [done|].
  all: unfold try_except, bind, log, open_mfdataset, bind; fold w1.
  all: pose proof (map_M_open_local (p :: files) w1) as Hw.
  all: pose proof (map_M_open_local_fs (p :: files) w1 w eq_refl) as Hfst.
  all: rewrite Hopen in Hfst.
  all: destruct (map_M open_local (p :: files) w1) as [r w2];
       simpl in Hw, Hfst; subst w2 r.
  all: rewrite Hcomb; unfold to_netcdf; fold out.
  all: change (w_fs w1) with (w_fs w); rewrite Hdir, Hfault; simpl.
  - done.
  - apply lookup_insert_eq.
Qed.

End Contract.

(** C8.  Every file is passed through [sortby('time')], which returns the
    same rows with the time axis in order, before the datasets go to the
    coordinate-wise combine.  Granted that xarray's combine returns, when
    it succeeds, a monotonic time axis for inputs that are each sorted:
    one pass of the combiner either leaves the files alone or writes one
    dataset, with a non-decreasing time axis, to the combined file; every
    write of a whole combiner run has a non-decreasing time axis; and for
    a pair with matching source files that open and combine, with the
    disk accepting the write, the combined file is written and holds the
    sorted result. *)
Theorem combined_time_axis_sorted :
  (forall dss d, Forall time_sorted dss -> xr_combine dss = Ret d -> time_sorted d) ->
  (forall d, time_sorted (sortby_time d) /\ sortby_time d ≡ₚ d)
  /\ (forall od scen_dir scen model w,
        let out := scen_dir // (model ++ "_combined.nc") in
        let w' := snd (combine_pair od scen_dir scen model w) in
        (w_fs w' = w_fs w /\ w_trace w' = w_trace w)
        \/ (exists d, time_sorted d
              /\ w_fs w' = <[out := File d]> (w_fs w)
              /\ w_trace w' = (w_trace w ++ [Write out d])%list))
  /\ (forall mc scenario od w,
        writes_sorted w -> writes_sorted (snd (combine mc scenario od w)))
  /\ (forall od scen_dir scen model w files dss d,
        let out := scen_dir // (model ++ "_combined.nc") in
        is_Some (w_fs w !! (od // model // scen)) ->
        fst (glob_cropped (od // model // scen) w) = Ret files -> files <> [] ->
        fst (map_M open_local files w) = Ret dss ->
        xr_combine (map sortby_time dss) = Ret d ->
        is_dir (w_fs w !! out) = false ->
        disk_fault (add_log Info ("Combining files for " ++ model ++ " " ++ scen
                                  ++ "...") w) out = None ->
        fst (combine_pair od scen_dir scen model w) = Ret tt
        /\ w_fs (snd (combine_pair od scen_dir scen model w)) !! out = Some (File d)
        /\ time_sorted d).
Proof.
  intros Hcontract. split; [|split; [|split]].
  - intros d. split; [apply sortby_time_sorted | apply sortby_time_permutation].
  - intros od scen_dir scen model w out w'.
    destruct (combine_one_cases od scen_dir scen model w)
      as [H|(files & dss & d & _ & _ & Hcomb & Hfs & Htr)]; [by left|].
    right. exists d. split; [by eapply combine_sorted_inputs|done].
  - intros. by apply combine_writes_sorted.
  - intros. by eapply combine_one_writes.
Qed.

(** ** The combiner called on its own *)

Lemma for_each_raises {A} (Q : exn -> Prop) (body : A -> M unit) l w e w' :
  (forall x w e w', body x w = (Raise e, w') -> Q e) ->
  for_each l body w = (Raise e, w') -> Q e.
Proof.
  intros Hbody. revert w. induction l as [|x l IH]; intros w; [discriminate|].
  simpl. unfold bind. destruct (body x w) as [[[]|e1] w1] eqn:E.
  - apply IH.
  - intros [= -> ->]. by eapply Hbody.
Qed.

Lemma try_except_raises m catches h w e w' :
  (forall e1 w1 e2 w2, h e1 w1 <> (Raise e2, w2)) ->
  try_except m catches h w = (Raise e, w') -> catches e = false.
Proof.
  intros Hh. unfold try_except. destruct (m w) as [[[]|e1] w1]; [discriminate|].
  destruct (catches e1) eqn:Hc.
  - intros H. by destruct (Hh _ _ _ _ H).
  - by intros [= <- _].
Qed.

Lemma combine_one_raises od scen_dir scen model w e w' :
  combine_pair od scen_dir scen model w = (Raise e, w') -> is_Exception e = false.
Proof.
  unfold combine_one, bind, path_exists.
  destruct (w_fs w !! (od // model // scen)); simpl; [|discriminate].
  unfold glob_cropped. destruct (List.filter _ _); [discriminate|].
  apply try_except_raises. discriminate.
Qed.

Lemma mkdir_raises p w e w' : mkdir p w = (Raise e, w') -> exists msg, e = OSError msg.
Proof.
  unfold mkdir. destruct (blocked (w_fs w) p); [|discriminate].
  intros [= <- _]. by eexists.
Qed.

(** Only a failed [mkdir], or something [except Exception] lets through,
    leaves the combiner. *)
Lemma combine_raises mc scenario od w e w' :
  combine mc scenario od w = (Raise e, w') ->
  (exists msg, e = OSError msg) \/ is_Exception e = false.
Proof.
  unfold combine_netcdf_files, bind.
  destruct (mkdir (od // "combined") w) as [[[]|e1] w1] eqn:E1.
  2:{ intros [= <- _]. left. by eapply mkdir_raises. }
  apply (for_each_raises
           (fun e => (exists msg, e = OSError msg) \/ is_Exception e = false)).
  clear. intros scen w e w'. unfold bind.
  destruct (mkdir _ w) as [[[]|e1] w1] eqn:E1.
  2:{ intros [= <- _]. left. by eapply mkdir_raises. }
  intros H. right. revert H.
  apply (for_each_raises (fun e => is_Exception e = false)).
  intros model w2 e2 w3. apply combine_one_raises.
Qed.

Lemma prefixes_snoc (p : path) (c : string) :
  prefixes (p // c) = (prefixes p ++ [p // c])%list.
Proof.
  unfold prefixes, path_div. rewrite length_app. simpl.
  rewrite seq_app, map_app. simpl. f_equal.
  - apply map_ext_in. intros n Hn. apply in_seq in Hn.
    rewrite take_app_le by lia. done.
  - rewrite take_ge; [done|]. rewrite length_app. simpl. lia.
Qed.

Lemma elem_of_prefixes_length (p q : path) :
  q ∈ prefixes p -> (List.length q <= List.length p)%nat.
Proof.
  unfold prefixes. intros Hin.
  apply list_elem_of_In, in_map_iff in Hin as (k & <- & _).
  rewrite length_take. lia.
Qed.

Lemma blocked_snoc f (p : path) (c : string) :
  blocked f (p // c) = blocked f p || is_file (f !! (p // c)).
Proof.
  unfold blocked. rewrite prefixes_snoc, existsb_app. simpl.
  by rewrite orb_false_r.
Qed.

Lemma blocked_ext (f1 f2 : gmap path node) (p : path) :
  (forall q, is_file (f1 !! q) = is_file (f2 !! q)) -> blocked f1 p = blocked f2 p.
Proof.
  intros Hsame. unfold blocked. induction (prefixes p) as [|q ps IH]; simpl; [done|].
  by rewrite Hsame, IH.
Qed.

Lemma mkdir_success p w :
  blocked (w_fs w) p = false ->
  mkdir p w = (Ret tt, snd (mkdir p w))
  /\ w_log (snd (mkdir p w)) = w_log w
  /\ (forall q, is_file (w_fs (snd (mkdir p w)) !! q) = is_file (w_fs w !! q))
  /\ (forall q, q ∉ prefixes p -> w_fs (snd (mkdir p w)) !! q = w_fs w !! q)
  /\ (forall q, q ∈ prefixes p -> w_fs (snd (mkdir p w)) !! q = Some Dir).
Proof.
  intros Hfree. unfold mkdir. rewrite Hfree. simpl.
  split; [done|]. split; [done|]. unfold blocked in Hfree.
  generalize dependent (prefixes p). intros ps Hfree.
  split; [|split].
  - intros q. induction ps as [|q0 ps IH]; simpl in *; [done|].
    apply orb_false_iff in Hfree as [Hq0 Hps].
    destruct (decide (q0 = q)) as [->|Hne].
    + by rewrite lookup_insert_eq, Hq0.
    + rewrite lookup_insert_ne by done. by apply IH.
  - intros q Hq. by apply lookup_after_mkdirs.
  - intros q Hq. clear Hfree. induction ps as [|q0 ps IH]; simpl; [inversion Hq|].
    destruct (decide (q0 = q)) as [->|Hne].
    + by rewrite lookup_insert_eq.
    + rewrite lookup_insert_ne by done. apply IH.
      apply elem_of_cons in Hq as [->|Hq]; done.
Qed.

Lemma source_not_created od m scen q :
  m <> "combined" -> q ∈ prefixes (od // "combined" // scen) -> q <> od // m // scen.
Proof.
  intros Hm Hq ->. rewrite !prefixes_snoc, !elem_of_app, !list_elem_of_singleton in Hq.
  destruct Hq as [[Hq|Hq]|Hq].
  - apply elem_of_prefixes_length in Hq. unfold path_div in Hq.
    rewrite !length_app in Hq. simpl in Hq. lia.
  - apply (f_equal List.length) in Hq. unfold path_div in Hq.
    rewrite !length_app in Hq. simpl in Hq. lia.
  - unfold path_div in Hq. apply app_inj_tail in Hq as [Hq _].
    apply app_inj_tail in Hq as [_ Hq]. done.
Qed.

(** C9, as the code has it.  [combine_netcdf_files] checks no name.  For
    an output directory, models and a scenario that are plain path
    components (letters, digits, '-', '_', '.'; in the catalogue or not),
    it never raises a [ValueError]; and called with one model and one
    scenario whose source directory does not exist, it makes
    [output_dir/combined] and [output_dir/combined/scenario], logs the
    warning "Directory ... does not exist, skipping..." and returns
    normally. *)
Theorem combine_alone_does_not_validate :
  (forall mc scenario od w msg,
      plain_path od = true ->
      plain_path (helper_models mc) = true ->
      plain_path (resolve_scenarios scenario) = true ->
      fst (combine mc scenario od w) <> Raise (ValueError msg))
  /\ (forall m scen od w,
        plain_path od = true ->
        plain_component m = true -> plain_component scen = true ->
        m <> "all" -> scen <> "all" -> m <> "combined" ->
        blocked (w_fs w) (od // "combined" // scen) = false ->
        w_fs w !! (od // m // scen) = None ->
        exists w', combine (Str m) scen od w = (Ret tt, w')
          /\ w_trace w' = w_trace (emit (Mkdir (od // "combined" // scen))
                                        (emit (Mkdir (od // "combined")) w))
          /\ w_log w' = w_log (add_log Warning
                                 ("Directory " ++ path_str (od // m // scen)
                                  ++ " does not exist, skipping...") w)
          /\ w_fs w' !! (od // "combined" // scen) = Some Dir).
Proof.
  split.
  - intros mc scenario od w msg _ _ _ Hrun.
    destruct (combine mc scenario od w) as [r w'] eqn:E. simpl in Hrun. subst r.
    apply combine_raises in E as [[msg' H]|H]; discriminate.
  - intros m scen od w _ _ _ Hm Hscen Hcomb Hfree Hnone.
    pose proof Hfree as Hfree2. rewrite blocked_snoc in Hfree2.
    apply orb_false_iff in Hfree2 as [Hfree1 _].
    destruct (mkdir_success _ w Hfree1) as (E1 & Hlog1 & Hfile1 & Hfs1 & _).
    set (w1 := snd (mkdir (od // "combined") w)) in *.
    assert (Hfree' : blocked (w_fs w1) (od // "combined" // scen) = false).
    { by rewrite (blocked_ext (w_fs w1) (w_fs w)). }
    destruct (mkdir_success _ w1 Hfree') as (E2 & Hlog2 & _ & Hfs2 & Hdir2).
    set (w2 := snd (mkdir (od // "combined" // scen) w1)) in *.
    assert (Hsrc : w_fs w2 !! (od // m // scen) = None).
    { rewrite Hfs2, Hfs1; [done| |].
      - intros Hq. eapply (source_not_created od m scen); [done| |reflexivity].
        rewrite prefixes_snoc, elem_of_app. by left.
      - intros Hq. by eapply (source_not_created od m scen). }
    exists (add_log Warning ("Directory " ++ path_str (od // m // scen)
                             ++ " does not exist, skipping...") w2).
    split; [|split; [|split]].
    + unfold combine_netcdf_files, helper_models, resolve_scenarios.
      apply String.eqb_neq in Hm, Hscen. rewrite Hm, Hscen.
      unfold bind at 1. rewrite E1. simpl for_each. unfold bind at 1 2.
      fold w1. rewrite E2. unfold bind at 1.
      unfold combine_one, bind, path_exists. fold w2. by rewrite Hsrc.
    + simpl. unfold w2, w1. by rewrite !mkdir_trace.
    + simpl. by rewrite Hlog2, Hlog1.
    + simpl. apply Hdir2. rewrite prefixes_snoc, elem_of_app. right.
      by apply list_elem_of_singleton.
Qed.

End Behaviour.

(** C6.  In the guarded part of a unit, a failure of the remote open, of
    the spatial subset or of the write is caught: an error naming the URL
    and the failure is logged and the unit returns normally.  The pool
    returns normally whatever its tasks did, and the outcome of
    [download_isimip_data] is the same for every remote server, xarray,
    disk and subprocess: no exception of theirs reaches the caller. *)
Theorem fetch_failure_is_logged_and_swallowed {bbox : Type}
    (remote_open : world -> string -> result dataset)
    (xr_sel : bbox -> dataset -> result dataset)
    (disk_fault : world -> path -> option exn) :
  (forall (bb : option bbox) url out w e,
      let w1 := add_log Info ("Downloading " ++ url) w in
      let w2 := emit (NetOpen url) w1 in
      is_Exception e = true ->
      remote_open w1 url = Raise e
      \/ (exists ds, remote_open w1 url = Ret ds
                     /\ fst (crop xr_sel bb ds w2) = Raise e)
      \/ (exists ds ds', remote_open w1 url = Ret ds
                         /\ fst (crop xr_sel bb ds w2) = Ret ds'
                         /\ fst (to_netcdf disk_fault out ds' w2) = Raise e) ->
      fetch remote_open xr_sel disk_fault bb url out w
      = (Ret tt, add_log Error ("Error processing " ++ url ++ ": " ++ exn_str e) w2))
  /\ (forall (bb : option bbox) od mw tasks w,
        0 < mw ->
        fst (thread_pool_map mw (run_task remote_open xr_sel disk_fault bb od) tasks w)
        = Ret tt)
  /\ (forall remote_open' xr_sel' disk_fault' xr_combine xr_combine' run_shell run_shell'
             mc vars scenario (bb : option bbox) od mw cf w,
        fst (download_isimip_data remote_open xr_sel disk_fault xr_combine run_shell
               mc vars scenario bb od mw cf w)
        = fst (download_isimip_data remote_open' xr_sel' disk_fault' xr_combine'
                 run_shell' mc vars scenario bb od mw cf w)).
Proof.
  split; [|split].
  - intros. by apply fetch_failure_caught.
  - intros. by apply pool_returns.
  - intros. by rewrite !download_outcome.
Qed.

(** ** The checks on concrete trees are sound *)

Lemma is_dir_true (o : option node) : is_dir o = true -> o = Some Dir.
Proof. by destruct o as [[|d]|]. Qed.

Lemma fs_wfb_sound (f : gmap path node) : fs_wfb f = true -> fs_wf f.
Proof.
  unfold fs_wfb, fs_wf. rewrite forallb_forall. intros Hall p [n Hn].
  assert (Hin : In p (map fst (map_to_list f))).
  { apply in_map_iff. exists (p, n). split; [done|].
    by apply list_elem_of_In, elem_of_map_to_list. }
  specialize (Hall p Hin). destruct (parent p) as [|c q]; [by left|].
  right. by apply is_dir_true.
Qed.

Lemma checked_combine_monotonic (dss : list dataset) (d : dataset) :
  Forall time_sorted dss -> checked_combine dss = Ret d -> time_sorted d.
Proof.
  intros _. unfold checked_combine. case_bool_decide; [|discriminate].
  by intros [= <-].
Qed.

Lemma example_inputs_valid :
  valid_inputs (Str "GFDL-ESM4") (Lst ["tas"; "pr"]) "historical".
Proof.
  unfold valid_inputs. simpl. repeat split; repeat constructor.
Qed.

(** ** The statements at concrete inputs *)

Lemma download_ends_in_NameError_witness :
  valid_inputs (Str "GFDL-ESM4") (Lst ["tas"; "pr"]) "historical" /\ 0 < 5
  /\ fst example_run = Raise (NameError "name 'conda_env' is not defined").
Proof.
  split; [exact example_inputs_valid|]. split; [lia|].
  unfold example_run.
  rewrite (proj2 (download_ends_in_NameError stub_open stub_sel no_fault
                    checked_combine stub_shell (Str "GFDL-ESM4") (Lst ["tas"; "pr"])
                    "historical" (Some europe) ["isimip_data"] 5 true w0)
                 example_inputs_valid ltac:(lia)).
  reflexivity.
Defined.

Lemma invalid_name_raises_before_effects_witness :
  "XYZ" ∈ resolve_models (Str "XYZ") /\ ("XYZ" ∉ valid_model_names)
  /\ exists x,
       download_isimip_data stub_open stub_sel no_fault checked_combine stub_shell
         (Str "XYZ") (Lst ["tas"]) "historical" None ["out"] 5 true w0
       = (Raise x, w0).
Proof.
  assert (Hin : "XYZ" ∈ resolve_models (Str "XYZ")) by (simpl; repeat constructor).
  assert (Hbad : "XYZ" ∉ valid_model_names) by (by apply str_in_not_elem).
  split; [exact Hin|]. split; [exact Hbad|].
  destruct (invalid_name_raises_before_effects stub_open stub_sel no_fault
              checked_combine stub_shell (Str "XYZ") (Lst ["tas"]) "historical"
              None ["out"] 5 true w0) as (x & Hrun & _).
  - left. exists "XYZ". by split.
  - by exists x.
Defined.

(** C3, as the spec has it, fails: in the list ["XYZ"; "all"] the name
    "XYZ" is outside the catalogue, yet no validation error is raised; the
    call makes the directories of the five catalogue models, opens 35
    remote resources and ends in the [NameError] of line 266. *)
Lemma all_hides_invalid_model :
  "XYZ" ∈ as_list (Lst ["XYZ"; "all"])
  /\ ("XYZ" ∉ valid_model_names)
  /\ fst mixed_run = Raise (NameError "name 'conda_env' is not defined")
  /\ List.length (net_calls (snd mixed_run)) = 35%nat
  /\ w_fs w0 !! ["out"; "GFDL-ESM4"; "ssp126"] = None
  /\ w_fs (snd mixed_run) !! ["out"; "GFDL-ESM4"; "ssp126"] = Some Dir.
Proof.
  split; [by apply str_in_elem|]. split; [by apply str_in_not_elem|].
  by vm_compute.
Qed.

Lemma existing_target_skips_fetch_witness :
  fs_wf (w_fs populated_world)
  /\ populated (w_fs populated_world) ["isimip_data"]
       (build_tasks (resolve_models (Str "GFDL-ESM4")) (resolve_scenarios "historical")
                    (as_list (Lst ["tas"; "pr"]))) = true
  /\ net_calls (snd (download_isimip_data stub_open stub_sel no_fault checked_combine
                       stub_shell (Str "GFDL-ESM4") (Lst ["tas"; "pr"]) "historical"
                       (Some europe) ["isimip_data"] 5 true populated_world))
     = net_calls populated_world
  /\ exists w',
       run_task stub_open stub_sel no_fault (Some europe) ["isimip_data"]
         ("GFDL-ESM4", "tas", "historical", 1971) populated_world = (Ret tt, w')
       /\ w_fs w' = w_fs populated_world.
Proof.
  assert (Hwf : fs_wf (w_fs populated_world)) by (apply fs_wfb_sound; by vm_compute).
  pose proof (existing_target_skips_fetch stub_open stub_sel no_fault checked_combine
                stub_shell) as [Hunit Hrun].
  split; [exact Hwf|]. split; [by vm_compute|]. split.
  - apply Hrun; [exact Hwf | by vm_compute].
  - destruct (Hunit (Some europe) ["isimip_data"]
                ("GFDL-ESM4", "tas", "historical", 1971)
                ["isimip_data"; "GFDL-ESM4"; "historical";
                 "gfdl-esm4_r1i1p1f1_w5e5_historical_tas_global_daily_1971_1980_cropped.nc"]
                populated_world Hwf) as (w' & Hw' & Hfs & _).
    + by vm_compute.
    + eexists. by vm_compute.
    + by vm_compute.
    + exists w'. by split.
Defined.

Lemma end_year_rule_and_drop_witness :
  end_year "historical" 2015 < 2015
  /\ "GFDL-ESM4" ∈ valid_model_names
  /\ process_file stub_open stub_sel no_fault None ["out"] "GFDL-ESM4" "tas"
       "historical" 2015 w0 = (Ret tt, w0).
Proof.
  assert (Hlt : end_year "historical" 2015 < 2015) by (by vm_compute).
  assert (Hm : "GFDL-ESM4" ∈ valid_model_names) by (by apply str_in_elem).
  split; [exact Hlt|]. split; [exact Hm|].
  pose proof (end_year_rule_and_drop stub_open stub_sel no_fault None ["out"]
                "GFDL-ESM4" "tas" "historical" 2015 w0) as (_ & _ & Hdrop).
  destruct (Hdrop Hlt) as (_ & _ & _ & Hrun). by apply Hrun.
Defined.

Lemma fetch_failure_is_logged_and_swallowed_witness :
  is_Exception (LibError "connection refused") = true
  /\ failing_run failing_open stub_sel no_fault
     = (Ret tt, World ∅
                  [(Info, "Downloading https://example.org/x.nc");
                   (Error, "Error processing https://example.org/x.nc: connection refused")]
                  [NetOpen "https://example.org/x.nc"])
  /\ failing_run stub_open failing_sel no_fault
     = (Ret tt, World ∅
                  [(Info, "Downloading https://example.org/x.nc");
                   (Error, "Error processing https://example.org/x.nc: 'lon'")]
                  [NetOpen "https://example.org/x.nc"])
  /\ failing_run stub_open stub_sel disk_full
     = (Ret tt, World ∅
                  [(Info, "Downloading https://example.org/x.nc");
                   (Error, "Error processing https://example.org/x.nc: No space left on device")]
                  [NetOpen "https://example.org/x.nc"])
  /\ 0 < 5
  /\ fst (thread_pool_map 5 (run_task failing_open stub_sel no_fault None ["out"])
            [("GFDL-ESM4", "tas", "ssp126", 2021)] w0) = Ret tt.
Proof.
  split; [reflexivity|]. unfold failing_run. split; [|split; [|split; [|split]]].
  - rewrite (proj1 (fetch_failure_is_logged_and_swallowed failing_open stub_sel no_fault)
               (Some europe) "https://example.org/x.nc" ["out"; "x_cropped.nc"] w0
               (LibError "connection refused") eq_refl); [reflexivity|].
    left. reflexivity.
  - rewrite (proj1 (fetch_failure_is_logged_and_swallowed stub_open failing_sel no_fault)
               (Some europe) "https://example.org/x.nc" ["out"; "x_cropped.nc"] w0
               (KeyError "lon") eq_refl); [reflexivity|].
    right. left. eexists. split; reflexivity.
  - rewrite (proj1 (fetch_failure_is_logged_and_swallowed stub_open stub_sel disk_full)
               (Some europe) "https://example.org/x.nc" ["out"; "x_cropped.nc"] w0
               (OSError "No space left on device") eq_refl); [reflexivity|].
    right. right. eexists. eexists. split; [reflexivity|]. split; reflexivity.
  - lia.
  - apply (proj1 (proj2 (fetch_failure_is_logged_and_swallowed failing_open stub_sel
                           no_fault))). lia.
Defined.

Lemma remote_name_and_url_witness :
  "UKESM1-0-LL" ∈ valid_model_names
  /\ dropped ("UKESM1-0-LL", "pr", "ssp585", 2021) = false
  /\ fst (mkdir ["out"; "UKESM1-0-LL"; "ssp585"] w0) = Ret tt
  /\ net_calls (snd (process_file stub_open stub_sel no_fault None ["out"]
                       "UKESM1-0-LL" "pr" "ssp585" 2021 w0))
     = [NetOpen "https://files.isimip.org/ISIMIP3b/InputData/climate/atmosphere/bias-adjusted/global/daily/ssp585/UKESM1-0-LL/ukesm1-0-ll_r1i1p1f2_w5e5_ssp585_pr_global_daily_2021_2030.nc"].
Proof.
  assert (Hm : "UKESM1-0-LL" ∈ valid_model_names) by (by apply str_in_elem).
  split; [exact Hm|]. split; [reflexivity|]. split; [reflexivity|].
  pose proof (remote_name_and_url stub_open stub_sel no_fault None ["out"]
                "UKESM1-0-LL" "pr" "ssp585" 2021 w0 Hm) as (_ & _ & Hnet).
  rewrite Hnet; [by vm_compute|reflexivity|reflexivity|by vm_compute].
Defined.

Lemma combined_time_axis_sorted_witness :
  (forall dss d, Forall time_sorted dss -> checked_combine dss = Ret d -> time_sorted d)
  /\ writes_sorted unsorted_tree
  /\ writes_sorted (snd (combine_netcdf_files no_fault checked_combine (Str "all") "all"
                           ["out"] unsorted_tree))
  /\ w_fs (snd (combine_one no_fault checked_combine ["out"]
                  ["out"; "combined"; "historical"] "historical" "GFDL-ESM4"
                  unsorted_tree))
       !! ["out"; "combined"; "historical"; "GFDL-ESM4_combined.nc"]
     = Some (File [(1, "t1"); (2, "t2"); (3, "t3"); (4, "t4")]).
Proof.
  assert (Hempty : writes_sorted unsorted_tree).
  { intros p d Hin. inversion Hin. }
  pose proof (combined_time_axis_sorted no_fault checked_combine
                checked_combine_monotonic) as (_ & _ & Hrun & Hlive).
  split; [exact checked_combine_monotonic|]. split; [exact Hempty|]. split.
  - by apply Hrun.
  - apply (Hlive ["out"] ["out"; "combined"; "historical"] "historical" "GFDL-ESM4"
             unsorted_tree
             [["out"; "GFDL-ESM4"; "historical"; "b_cropped.nc"];
              ["out"; "GFDL-ESM4"; "historical"; "a_cropped.nc"]]
             [[(2, "t2"); (1, "t1")]; [(4, "t4"); (3, "t3")]]).
    + eexists. by vm_compute.
    + by vm_compute.
    + discriminate.
    + by vm_compute.
    + by vm_compute.
    + by vm_compute.
    + reflexivity.
Defined.

(** C9, as the spec has it, fails: called with the model name "XYZ" the
    combiner raises nothing; it makes the two output directories, warns
    that the source directory is missing, and returns. *)
Lemma combine_accepts_invalid_model :
  ("XYZ" ∉ valid_model_names)
  /\ fst (combine_netcdf_files no_fault checked_combine (Str "XYZ") "historical"
            ["out"] w0) = Ret tt
  /\ w_trace (snd (combine_netcdf_files no_fault checked_combine (Str "XYZ")
                     "historical" ["out"] w0))
     = [Mkdir ["out"; "combined"]; Mkdir ["out"; "combined"; "historical"]]
  /\ w_log (snd (combine_netcdf_files no_fault checked_combine (Str "XYZ")
                   "historical" ["out"] w0))
     = [(Warning, "Directory out/XYZ/historical does not exist, skipping...")].
Proof.
  split; [by apply str_in_not_elem|]. by vm_compute.
Qed.

Lemma combine_alone_does_not_validate_witness :
  plain_path ["out"] = true
  /\ plain_component "XYZ" = true /\ plain_component "historical" = true
  /\ plain_path (helper_models (Str "XYZ")) = true
  /\ plain_path (resolve_scenarios "historical") = true
  /\ "XYZ" <> "all" /\ "historical" <> "all" /\ "XYZ" <> "combined"
  /\ blocked (w_fs w0) (["out"] // "combined" // "historical") = false
  /\ w_fs w0 !! (["out"] // "XYZ" // "historical") = None
  /\ fst (combine_netcdf_files no_fault checked_combine (Str "XYZ") "historical"
            ["out"] w0) = Ret tt
  /\ (forall msg, fst (combine_netcdf_files no_fault checked_combine (Str "XYZ")
                         "historical" ["out"] w0) <> Raise (ValueError msg)).
Proof.
  split; [reflexivity|]. split; [reflexivity|]. split; [reflexivity|].
  split; [reflexivity|]. split; [reflexivity|].
  split; [discriminate|]. split; [discriminate|]. split; [discriminate|].
  split; [reflexivity|]. split; [reflexivity|]. split.
  - destruct (proj2 (combine_alone_does_not_validate no_fault checked_combine)
                "XYZ" "historical" ["out"] w0) as (w' & Hrun & _);
      [reflexivity|reflexivity|reflexivity|discriminate|discriminate|discriminate
      |reflexivity|reflexivity|].
    by rewrite Hrun.
  - intros msg.
    apply (proj1 (combine_alone_does_not_validate no_fault checked_combine)
             (Str "XYZ") "historical" ["out"] w0 msg); reflexivity.
Defined.

Lemma all_in_list_selects_catalog_witness :
  "all" ∈ ["XYZ"; "all"]
  /\ resolve_models (Lst ["XYZ"; "all"])
     = ["GFDL-ESM4"; "MPI-ESM1-2-HR"; "IPSL-CM6A-LR"; "MRI-ESM2-0"; "UKESM1-0-LL"]
  /\ validate_models (resolve_models (Lst ["XYZ"; "all"])) w0 = (Ret tt, w0).
Proof.
  assert (Hin : "all" ∈ ["XYZ"; "all"]) by (by apply str_in_elem).
  pose proof (all_in_list_selects_catalog (bbox := Z * Z * Z * Z) stub_open stub_sel
                no_fault checked_combine stub_shell ["XYZ"; "all"] Hin)
    as (Hres & Hval & _).
  split; [exact Hin|]. split; [exact Hres|]. apply Hval.
Defined.

(** * Further properties of the code *)

(** ** The task list *)

Lemma length_bind_const {A B} (f : A -> list B) (k : nat) (l : list A) :
  (forall x, List.length (f x) = k) -> List.length (l ≫= f) = (List.length l * k)%nat.
Proof.
  intros Hf. induction l as [|x l IH]; [done|].
  change (List.length (f x ++ (l ≫= f))%list = (S (List.length l) * k)%nat).
  rewrite length_app, Hf, IH. lia.
Qed.

Lemma length_bind_sum {A B} (f : A -> list B) (l : list A) :
  List.length (l ≫= f) = sum_list ((fun x => List.length (f x)) <$> l).
Proof.
  induction l as [|x l IH]; [done|].
  change (List.length (f x ++ (l ≫= f))%list
          = (List.length (f x) + sum_list ((fun x => List.length (f x)) <$> l))%nat).
  by rewrite length_app, IH.
Qed.

(** X1.  The number of generated units is the number of models times the
    number of variables times the number of decade starts of the scenarios,
    four for "historical" and seven for any other; for the scenario "all"
    that is eighteen units for each model and variable. *)
Theorem task_count (ms ss vs : list string) :
  List.length (build_tasks ms ss vs)
  = (List.length ms * (List.length vs
       * sum_list ((fun s => if String.eqb s "historical" then 4 else 7) <$> ss)))%nat
  /\ List.length (build_tasks ms (resolve_scenarios "all") vs)
     = (18 * (List.length ms * List.length vs))%nat.
Proof.
  assert (Hgen : forall ss,
             List.length (build_tasks ms ss vs)
             = (List.length ms * (List.length vs
                  * sum_list ((fun s => if String.eqb s "historical" then 4 else 7)
                              <$> ss)))%nat).
  { clear ss. intros ss. unfold build_tasks. apply length_bind_const. intros m.
    rewrite length_bind_sum. induction ss as [|s ss IH].
    - simpl. lia.
    - rewrite !fmap_cons. cbn [sum_list sum_list_with]. rewrite IH.
      rewrite (length_bind_const _ (if String.eqb s "historical" then 4 else 7)%nat).
      + unfold id. destruct (String.eqb s "historical"); lia.
      + intros v. rewrite (length_bind_const _ 1%nat) by done.
        unfold decade_starts. destruct (String.eqb s "historical"); reflexivity. }
  split; [apply Hgen|]. rewrite Hgen. simpl. lia.
Qed.

(** X2.  Every generated unit starts in a year ending in 1 between 1971
    and 2081, covers exactly ten years and is never dropped: the cap at 2014
    and the test of line 210 do not fire for any unit the loops build. *)
Theorem generated_units_span_ten_years (ms ss vs : list string) m v s (y : Z) :
  (m, v, s, y) ∈ build_tasks ms ss vs ->
  end_year s y = y + 9
  /\ dropped (m, v, s, y) = false
  /\ 1971 <= y <= 2081 /\ y mod 10 = 1
  /\ (s = "historical" -> y + 9 <= 2010).
Proof.
  intros Hin. apply elem_of_build_tasks in Hin as (_ & _ & _ & Hy).
  unfold dropped, end_year.
  destruct (String.eqb_spec s "historical") as [->|Hs].
  - rewrite decade_starts_historical in Hy.
    repeat (apply elem_of_cons in Hy as [->|Hy]; [by repeat split|]). inversion Hy.
  - rewrite decade_starts_future in Hy by done.
    repeat (apply elem_of_cons in Hy as [->|Hy]; [by repeat split|]). inversion Hy.
Qed.

(** ** Which error a call reports *)

Lemma for_each_first {A} (body : A -> M unit) (good : list A) (x : A) (rest : list A)
    (e : exn) (w : world) :
  Forall (fun y => body y w = (Ret tt, w)) good ->
  body x w = (Raise e, w) ->
  for_each (good ++ x :: rest) body w = (Raise e, w).
Proof.
  intros Hgood Hx. induction Hgood as [|y good Hy _ IH]; simpl; unfold bind.
  - by rewrite Hx.
  - by rewrite Hy.
Qed.

Lemma for_each_all {A} (body : A -> M unit) (l : list A) (w : world) :
  Forall (fun y => body y w = (Ret tt, w)) l -> for_each l body w = (Ret tt, w).
Proof.
  intros Hl. induction Hl as [|y l Hy _ IH]; simpl; unfold bind; [done|].
  by rewrite Hy.
Qed.

Section Effects.

Context {bbox : Type}.
Variable remote_open : world -> string -> result dataset.
Variable xr_sel : bbox -> dataset -> result dataset.
Variable disk_fault : world -> path -> option exn.
Variable xr_combine : list dataset -> result dataset.
Variable run_shell : world -> string -> result unit * gmap path node.

Local Abbreviation download :=
  (download_isimip_data remote_open xr_sel disk_fault xr_combine run_shell).
Local Abbreviation after := (after_tasks remote_open xr_sel disk_fault).
Local Abbreviation unit_run := (run_task remote_open xr_sel disk_fault).
Local Abbreviation process := (process_file remote_open xr_sel disk_fault).
Local Abbreviation fetch_unit := (fetch remote_open xr_sel disk_fault).
Local Abbreviation combine_pair := (combine_one disk_fault xr_combine).
Local Abbreviation combine := (combine_netcdf_files disk_fault xr_combine).
Local Abbreviation ncml_pair := (ncml_one run_shell).
Local Abbreviation ncml := (create_ncml_files run_shell).

Lemma validate_models_first good m rest w :
  Forall (fun x => x ∈ valid_model_names) good -> m ∉ valid_model_names ->
  validate_models (good ++ m :: rest) w = (Raise (model_error m), w).
Proof.
  intros Hgood Hbad. apply for_each_first.
  - eapply Forall_impl; [exact Hgood|]. intros x Hx. simpl in Hx.
    apply valid_model_lookup in Hx as [tok Htok]. by rewrite Htok.
  - apply valid_model_lookup_None in Hbad. by rewrite Hbad.
Qed.

Lemma validate_models_pass ms w :
  Forall (fun x => x ∈ valid_model_names) ms -> validate_models ms w = (Ret tt, w).
Proof.
  intros Hms. apply for_each_all. eapply Forall_impl; [exact Hms|].
  intros x Hx. simpl in Hx. apply valid_model_lookup in Hx as [tok Htok].
  by rewrite Htok.
Qed.

Lemma validate_variables_first good v rest w :
  Forall (fun x => x ∈ valid_variables) good -> v ∉ valid_variables ->
  validate_variables (good ++ v :: rest) w = (Raise (variable_error v), w).
Proof.
  intros Hgood Hbad. apply for_each_first.
  - eapply Forall_impl; [exact Hgood|]. intros x Hx. simpl in Hx.
    apply str_in_elem in Hx. by rewrite Hx.
  - apply str_in_not_elem in Hbad. by rewrite Hbad.
Qed.

Lemma validate_variables_pass vs w :
  Forall (fun x => x ∈ valid_variables) vs -> validate_variables vs w = (Ret tt, w).
Proof.
  intros Hvs. apply for_each_all. eapply Forall_impl; [exact Hvs|].
  intros x Hx. simpl in Hx. apply str_in_elem in Hx. by rewrite Hx.
Qed.

(** X3.  The three validation loops run in the order models, variables,
    scenario, each in list order, and the first offender is the one the
    error names: an invalid model is reported whatever the variables and
    the scenario are, an invalid variable only when every model is valid,
    an invalid scenario only when every model and variable is. *)
Theorem first_offender_is_reported mc vars scenario (bb : option bbox) od mw cf w :
  (forall good m rest,
      resolve_models mc = (good ++ m :: rest)%list ->
      Forall (fun x => x ∈ valid_model_names) good -> m ∉ valid_model_names ->
      download mc vars scenario bb od mw cf w = (Raise (model_error m), w))
  /\ (forall good v rest,
        Forall (fun x => x ∈ valid_model_names) (resolve_models mc) ->
        as_list vars = (good ++ v :: rest)%list ->
        Forall (fun x => x ∈ valid_variables) good -> v ∉ valid_variables ->
        download mc vars scenario bb od mw cf w = (Raise (variable_error v), w))
  /\ (Forall (fun x => x ∈ valid_model_names) (resolve_models mc) ->
      Forall (fun x => x ∈ valid_variables) (as_list vars) ->
      scenario <> "all" -> scenario ∉ valid_scenarios ->
      download mc vars scenario bb od mw cf w = (Raise (scenario_error scenario), w)).
Proof.
  split; [|split].
  - intros good m rest Hres Hgood Hbad. unfold download_isimip_data, bind.
    by rewrite Hres, validate_models_first.
  - intros good v rest Hms Hvars Hgood Hbad. unfold download_isimip_data, bind.
    by rewrite validate_models_pass, Hvars, validate_variables_first.
  - intros Hms Hvs Hall Hbad. unfold download_isimip_data, bind.
    rewrite validate_models_pass, validate_variables_pass by done.
    unfold resolve_scenarios. apply String.eqb_neq in Hall. rewrite Hall.
    apply str_in_not_elem in Hbad. unfold validate_scenarios. cbn [for_each].
    unfold bind. by rewrite Hbad.
Qed.

(** ** One fetch unit, step by step *)

Lemma unit_names od m v s y p url :
  local_target od (m, v, s, y) = Some p -> unit_url (m, v, s, y) = Some url ->
  exists tok, dict_get valid_models m = Some tok
    /\ p = od // m // s // (file_name tok (experiment m) s v y (end_year s y)
                            ++ "_cropped.nc")
    /\ url = remote_url s m (file_name tok (experiment m) s v y (end_year s y))
    /\ parent p = od // m // s.
Proof.
  unfold local_target, unit_url.
  destruct (dict_get valid_models m) as [tok|]; [|discriminate].
  intros [= <-] [= <-]. exists tok. by rewrite parent_snoc.
Qed.

Lemma fetch_success (bb : option bbox) url out w ds ds' :
  let w1 := add_log Info ("Downloading " ++ url) w in
  let w2 := emit (NetOpen url) w1 in
  remote_open w1 url = Ret ds -> fst (crop xr_sel bb ds w2) = Ret ds' ->
  is_dir (w_fs w !! out) = false -> disk_fault w2 out = None ->
  fetch_unit bb url out w
  = (Ret tt, add_log Info ("Successfully processed: " ++ path_str out)
               (World (<[out := File ds']> (w_fs w)) (w_log w1)
                      (w_trace w2 ++ [Write out ds']))).
Proof.
  intros w1 w2 Hopen Hcrop Hdir Hfault.
  unfold fetch, try_except, bind, log, xr_open_dataset. fold w1. fold w2.
  rewrite Hopen, crop_keeps_world, Hcrop. unfold to_netcdf.
  change (w_fs w2) with (w_fs w). by rewrite Hdir, Hfault.
Qed.

(** The guarded part changes the files in one way only: it may put a
    dataset at its target. *)
Lemma fetch_fs (bb : option bbox) url out w :
  w_fs (snd (fetch_unit bb url out w)) = w_fs w
  \/ exists d, w_fs (snd (fetch_unit bb url out w)) = <[out := File d]> (w_fs w).
Proof.
  unfold fetch, try_except, bind, log, xr_open_dataset.
  set (w2 := emit (NetOpen url) (add_log Info ("Downloading " ++ url) w)).
  destruct (remote_open _ url) as [ds|e]; simpl.
  - rewrite crop_keeps_world. destruct (fst (crop xr_sel bb ds w2)) as [ds'|e].
    + unfold to_netcdf. destruct (is_dir (w_fs w2 !! out)); [by left|].
      destruct (disk_fault w2 out) as [e|].
      * destruct (is_Exception e); by left.
      * right. by exists ds'.
    + destruct (is_Exception e); by left.
  - destruct (is_Exception e); by left.
Qed.

(** X4.  A unit whose directory can be made, whose target is absent,
    whose remote open and spatial subset succeed and whose write meets no
    fault returns normally with the (possibly subset) dataset stored at the
    target, after the two log lines "Downloading <url>" and "Successfully
    processed: <target>"; without a bounding box the stored dataset is the
    remote one, untouched. *)
Theorem successful_unit_stores_dataset (bb : option bbox) od t p url w ds ds' :
  local_target od t = Some p -> unit_url t = Some url -> dropped t = false ->
  blocked (w_fs w) (parent p) = false -> w_fs w !! p = None ->
  let w1 := add_log Info ("Downloading " ++ url) (snd (mkdir (parent p) w)) in
  let w2 := emit (NetOpen url) w1 in
  remote_open w1 url = Ret ds -> fst (crop xr_sel bb ds w2) = Ret ds' ->
  disk_fault w2 p = None ->
  exists w', unit_run bb od t w = (Ret tt, w')
    /\ w_fs w' = <[p := File ds']> (w_fs (snd (mkdir (parent p) w)))
    /\ w_fs w' !! p = Some (File ds')
    /\ w_log w' = w_log (add_log Info ("Successfully processed: " ++ path_str p)
                           (add_log Info ("Downloading " ++ url) w))
    /\ w_trace w' = (w_trace w ++ [Mkdir (parent p); NetOpen url; Write p ds'])%list
    /\ (bb = None -> ds' = ds).
Proof.
  destruct t as [[[m v] s] y]. intros Htarget Hurl Hkept Hfree Hnone w1 w2 Hopen Hcrop Hfault.
  destruct (unit_names od m v s y p url Htarget Hurl) as (tok & Htok & Hp & Hu & Hpar).
  destruct (mkdir_success _ w Hfree) as (Emk & Hlog & _ & Hfs & _).
  assert (Hnone' : w_fs (snd (mkdir (parent p) w)) !! p = None).
  { rewrite Hfs; [done|]. rewrite Hp at 1. rewrite Hpar. apply child_not_prefix. }
  eexists. split.
  - unfold run_task. rewrite (process_file_executed _ _ _ bb od m v s y tok w Htok Hkept).
    + rewrite <- Hp, <- Hu, <- Hpar.
      apply (fetch_success bb url p (snd (mkdir (parent p) w)) ds ds');
        try done. by rewrite Hnone'.
    + rewrite <- Hpar. by rewrite Emk.
    + by rewrite <- Hp.
  - simpl. split; [done|]. split; [by rewrite lookup_insert_eq|].
    split; [by rewrite Hlog|]. split.
    + rewrite mkdir_trace. by rewrite <- !app_assoc.
    + intros ->. simpl in Hcrop. by injection Hcrop.
Qed.

(** X6.  When a regular file stands where the unit's directory should be,
    or above it, the [mkdir] of line 217 raises outside the [try]: the unit
    makes no remote open, writes nothing and logs nothing, and the pool
    drops the exception, so the failure leaves no record at all. *)
Theorem blocked_directory_fails_silently (bb : option bbox) od t p w :
  local_target od t = Some p -> dropped t = false ->
  blocked (w_fs w) (parent p) = true ->
  (exists msg, unit_run bb od t w = (Raise (OSError msg), emit (Mkdir (parent p)) w))
  /\ (forall mw, 0 < mw ->
        thread_pool_map mw (unit_run bb od) [t] w = (Ret tt, emit (Mkdir (parent p)) w)).
Proof.
  destruct t as [[[m v] s] y]. intros Htarget Hkept Hblocked.
  apply local_target_Some in Htarget as (tok & Htok & ->). rewrite parent_snoc in *.
  assert (Hrun : unit_run bb od (m, v, s, y) w
                 = (Raise (OSError ("File exists: " ++ path_str (od // m // s))),
                    emit (Mkdir (od // m // s)) w)).
  { unfold run_task, process_file, dropped in *. rewrite Htok, Hkept.
    unfold bind, mkdir. by rewrite Hblocked. }
  split; [by eexists|]. intros mw Hmw. unfold thread_pool_map.
  destruct (Z.leb_spec mw 0); [lia|]. cbn [fold_left]. by rewrite Hrun.
Qed.

(** The four ways a unit can go, by the world it leaves. *)
Lemma unit_cases (bb : option bbox) od m v s y w :
  snd (unit_run bb od (m, v, s, y) w) = w
  \/ exists tok, dict_get valid_models m = Some tok
       /\ dropped (m, v, s, y) = false
       /\ ((blocked (w_fs w) (od // m // s) = true
            /\ snd (unit_run bb od (m, v, s, y) w) = emit (Mkdir (od // m // s)) w)
           \/ (blocked (w_fs w) (od // m // s) = false
               /\ is_Some (w_fs (snd (mkdir (od // m // s) w))
                             !! (od // m // s // (file_name tok (experiment m) s v y
                                                    (end_year s y) ++ "_cropped.nc")))
               /\ snd (unit_run bb od (m, v, s, y) w)
                  = add_log Info
                      ("File already exists: "
                       ++ path_str (od // m // s // (file_name tok (experiment m) s v y
                                                      (end_year s y) ++ "_cropped.nc")))
                      (snd (mkdir (od // m // s) w)))
           \/ (blocked (w_fs w) (od // m // s) = false
               /\ w_fs (snd (mkdir (od // m // s) w))
                    !! (od // m // s // (file_name tok (experiment m) s v y
                                           (end_year s y) ++ "_cropped.nc")) = None
               /\ snd (unit_run bb od (m, v, s, y) w)
                  = snd (fetch_unit bb
                           (remote_url s m (file_name tok (experiment m) s v y
                                              (end_year s y)))
                           (od // m // s // (file_name tok (experiment m) s v y
                                               (end_year s y) ++ "_cropped.nc"))
                           (snd (mkdir (od // m // s) w))))).
Proof.
  unfold run_task, process_file, dropped.
  destruct (dict_get valid_models m) as [tok|]; [|by left].
  destruct (String.eqb s "historical" && (end_year s y <? y)%Z) eqn:Hdrop; [by left|].
  right. exists tok. split; [done|]. split; [done|]. unfold bind.
  destruct (blocked (w_fs w) (od // m // s)) eqn:Hb.
  - left. split; [done|]. unfold mkdir. by rewrite Hb.
  - right. destruct (mkdir_success _ w Hb) as (Emk & _). rewrite Emk.
    unfold path_exists.
    destruct (w_fs (snd (mkdir (od // m // s) w)) !! _) as [n|] eqn:El.
    + left. split; [done|]. split; [by eexists|]. done.
    + right. split; [done|]. split; done.
Qed.

Lemma mkdir_keeps_entries p w : w_fs w ⊆ w_fs (snd (mkdir p w)).
Proof.
  destruct (blocked (w_fs w) p) eqn:Hb.
  - unfold mkdir. by rewrite Hb.
  - destruct (mkdir_success _ w Hb) as (_ & _ & _ & Hout & Hin).
    apply map_subseteq_spec. intros q n Hq.
    destruct (decide (q ∈ prefixes p)) as [Hmem|Hmem].
    + rewrite (Hin q Hmem).
      assert (Hnf : is_file (w_fs w !! q) = false).
      { unfold blocked in Hb. clear -Hb Hmem.
        induction (prefixes p) as [|q0 ps IH]; [inversion Hmem|].
        simpl in Hb. apply orb_false_iff in Hb as [H0 Hps].
        apply elem_of_cons in Hmem as [->|Hmem]; auto. }
      rewrite Hq in Hnf. by destruct n.
    + by rewrite (Hout q Hmem).
Qed.

Lemma unit_keeps_entries (bb : option bbox) od t w :
  w_fs w ⊆ w_fs (snd (unit_run bb od t w)).
Proof.
  destruct t as [[[m v] s] y].
  destruct (unit_cases bb od m v s y w)
    as [->|(tok & _ & _ & [[_ ->]|[(_ & _ & ->)|(_ & Hnone & ->)]])]; try done.
  - apply mkdir_keeps_entries.
  - etrans; [apply mkdir_keeps_entries|].
    destruct (fetch_fs bb (remote_url s m (file_name tok (experiment m) s v y (end_year s y)))
                (od // m // s // (file_name tok (experiment m) s v y (end_year s y)
                                  ++ "_cropped.nc"))
                (snd (mkdir (od // m // s) w))) as [->|[d ->]]; [done|].
    by apply insert_subseteq.
Qed.

Lemma after_tasks_keeps_entries (bb : option bbox) od tasks w :
  w_fs w ⊆ w_fs (after bb od tasks w).
Proof.
  revert w. induction tasks as [|t tasks IH]; intros w; [done|].
  rewrite after_tasks_cons. etrans; [apply unit_keeps_entries|apply IH].
Qed.

(** X7.  A download only adds to the tree: every directory and every file
    present before the call is present, with the same content, after it.
    Nothing is deleted and no existing file is overwritten, whatever the
    remote server and the disk do. *)
Theorem download_keeps_existing_entries mc vars scenario (bb : option bbox)
    od mw cf w :
  w_fs w ⊆ w_fs (snd (download_isimip_data remote_open xr_sel disk_fault xr_combine
                        run_shell mc vars scenario bb od mw cf w))
  /\ (forall p n, w_fs w !! p = Some n ->
        w_fs (snd (download_isimip_data remote_open xr_sel disk_fault xr_combine
                     run_shell mc vars scenario bb od mw cf w)) !! p = Some n).
Proof.
  assert (Hsub : w_fs w ⊆ w_fs (snd (download mc vars scenario bb od mw cf w))).
  { destruct (download_cases remote_open xr_sel disk_fault xr_combine run_shell
                mc vars scenario bb od mw cf w)
      as [(x & Hrun & _)|[(_ & _ & Hrun)|(_ & _ & Hrun)]]; rewrite Hrun; simpl;
      try done.
    apply after_tasks_keeps_entries. }
  split; [exact Hsub|]. intros p n Hp.
  by eapply (proj1 (map_subseteq_spec _ _) Hsub).
Qed.

Lemma unit_in_existing_dir (bb : option bbox) od m v s y tok w :
  dict_get valid_models m = Some tok -> dropped (m, v, s, y) = false ->
  Forall (fun q => w_fs w !! q = Some Dir) (prefixes (od // m // s)) ->
  let p := od // m // s // (file_name tok (experiment m) s v y (end_year s y)
                            ++ "_cropped.nc") in
  unit_run bb od (m, v, s, y) w
  = match w_fs w !! p with
    | Some _ => (Ret tt, add_log Info ("File already exists: " ++ path_str p)
                           (emit (Mkdir (od // m // s)) w))
    | None => fetch_unit bb (remote_url s m (file_name tok (experiment m) s v y
                                               (end_year s y)))
                p (emit (Mkdir (od // m // s)) w)
    end.
Proof.
  intros Htok Hkept Hdirs p. unfold run_task, process_file, dropped in *.
  rewrite Htok, Hkept. unfold bind. rewrite mkdir_existing by done.
  unfold path_exists. simpl. fold p. by destruct (w_fs w !! p).
Qed.

(** X5.  Running a unit a second time resumes rather than repeats: if the
    first run left the target file (it was there already, or the fetch
    succeeded), the second run returns normally without a remote open and
    with the files unchanged; if the first run left no file (the fetch
    failed), the second run opens the same URL again. *)
Theorem rerun_fetches_only_what_is_missing (bb : option bbox) od t p url w :
  local_target od t = Some p -> unit_url t = Some url -> dropped t = false ->
  blocked (w_fs w) (parent p) = false ->
  let w1 := snd (unit_run bb od t w) in
  let w2 := snd (unit_run bb od t w1) in
  (is_Some (w_fs w1 !! p) ->
     fst (unit_run bb od t w1) = Ret tt /\ w_fs w2 = w_fs w1
     /\ net_calls w2 = net_calls w1)
  /\ (w_fs w1 !! p = None -> net_calls w2 = (net_calls w1 ++ [NetOpen url])%list).
Proof.
  destruct t as [[[m v] s] y]. intros Htarget Hurl Hkept Hfree w1 w2.
  destruct (unit_names od m v s y p url Htarget Hurl) as (tok & Htok & Hp & Hu & Hpar).
  rewrite Hpar in Hfree.
  destruct (mkdir_success _ w Hfree) as (_ & _ & _ & _ & Hdirs).
  assert (Hdirs1 : Forall (fun q => w_fs w1 !! q = Some Dir) (prefixes (od // m // s))).
  { apply Forall_forall. intros q Hq. unfold w1.
    destruct (unit_cases bb od m v s y w)
      as [E|(tok' & Htok' & _ & [[Hb _]|[(_ & _ & E)|(_ & _ & E)]])].
    - exfalso. revert E. unfold run_task, process_file, dropped in *.
      rewrite Htok, Hkept. unfold bind.
      destruct (mkdir_success _ w Hfree) as (Emk & _ & _ & _ & _). rewrite Emk.
      intros E. apply (f_equal w_trace) in E. revert E.
      unfold path_exists. destruct (w_fs _ !! _); simpl.
      + rewrite mkdir_trace. intros E. apply (f_equal List.length) in E.
        rewrite length_app in E. simpl in E. lia.
      + intros E. apply (f_equal (fun l => List.length (List.filter is_net l))) in E.
        fold (net_calls (snd (fetch_unit bb
               (remote_url s m (file_name tok (experiment m) s v y (end_year s y)))
               (od // m // s // (file_name tok (experiment m) s v y (end_year s y)
                                 ++ "_cropped.nc"))
               (snd (mkdir (od // m // s) w))))) in E.
        rewrite fetch_net_calls in E. fold (net_calls w) in E.
        unfold net_calls at 1 in E. rewrite mkdir_trace, List.filter_app in E.
        simpl in E. rewrite app_nil_r, length_app in E. simpl in E.
        unfold net_calls in E. lia.
    - congruence.
    - rewrite E. simpl. by apply Hdirs.
    - rewrite E. rewrite Htok in Htok'. injection Htok' as <-.
      destruct (fetch_fs bb (remote_url s m (file_name tok (experiment m) s v y
                                               (end_year s y)))
                  (od // m // s // (file_name tok (experiment m) s v y (end_year s y)
                                    ++ "_cropped.nc"))
                  (snd (mkdir (od // m // s) w))) as [->|[d ->]]; [by apply Hdirs|].
      rewrite lookup_insert_ne; [by apply Hdirs|].
      intros <-. by apply (child_not_prefix (od // m // s)) in Hq. }
  pose proof (unit_in_existing_dir bb od m v s y tok w1 Htok Hkept Hdirs1) as Hrun.
  cbv zeta in Hrun. rewrite <- Hp, <- Hu in Hrun. unfold w2. split.
  - intros [n Hn]. rewrite Hrun, Hn. simpl. split; [done|]. split; [done|].
    rewrite net_calls_add_log, net_calls_emit. simpl. apply app_nil_r.
  - intros Hn. rewrite Hrun, Hn, fetch_net_calls, net_calls_emit. simpl.
    by rewrite app_nil_r.
Qed.

(** ** What a download touches *)

Lemma grows_refl od w : grows od 0 w w.
Proof. exists []. by rewrite app_nil_r. Qed.

Lemma grows_trans od n1 n2 w w1 w2 :
  grows od n1 w w1 -> grows od n2 w1 w2 -> grows od (n1 + n2) w w2.
Proof.
  intros (new1 & E1 & H1 & L1) (new2 & E2 & H2 & L2).
  exists (new1 ++ new2)%list. rewrite E2, E1, <- app_assoc. split; [done|].
  split; [by apply Forall_app|]. rewrite List.filter_app, length_app. lia.
Qed.

Lemma grows_weaken od n n' w w' : (n <= n')%nat -> grows od n w w' -> grows od n' w w'.
Proof. intros Hn (new & E & H & L). exists new. repeat split; try done. lia. Qed.

Lemma fetch_trace (bb : option bbox) url out w :
  w_trace (snd (fetch_unit bb url out w)) = (w_trace w ++ [NetOpen url])%list
  \/ exists d, w_trace (snd (fetch_unit bb url out w))
               = (w_trace w ++ [NetOpen url; Write out d])%list.
Proof.
  unfold fetch, try_except, bind, log, xr_open_dataset.
  set (w2 := emit (NetOpen url) (add_log Info ("Downloading " ++ url) w)).
  destruct (remote_open _ url) as [ds|e]; simpl.
  - rewrite crop_keeps_world. destruct (fst (crop xr_sel bb ds w2)) as [ds'|e].
    + unfold to_netcdf. destruct (is_dir (w_fs w2 !! out)); [by left|].
      destruct (disk_fault w2 out) as [e|].
      * destruct (is_Exception e); by left.
      * right. exists ds'. simpl. by rewrite <- app_assoc.
    + destruct (is_Exception e); by left.
  - destruct (is_Exception e); by left.
Qed.

Lemma unit_grows (bb : option bbox) od t w : grows od 1 w (snd (unit_run bb od t w)).
Proof.
  destruct t as [[[m v] s] y].
  destruct (unit_cases bb od m v s y w)
    as [->|(tok & Htok & _ & [[_ ->]|[(_ & _ & ->)|(_ & _ & ->)]])].
  - apply (grows_weaken od 0); [lia|apply grows_refl].
  - exists [Mkdir (od // m // s)]. split; [done|]. split; [|simpl; lia].
    constructor; [|done]. exists m, s. split; [|done].
    apply valid_model_lookup. by eexists.
  - exists [Mkdir (od // m // s)]. split; [simpl; by rewrite mkdir_trace|].
    split; [|simpl; lia].
    constructor; [|done]. exists m, s. split; [|done].
    apply valid_model_lookup. by eexists.
  - assert (Hm : m ∈ valid_model_names) by (apply valid_model_lookup; by eexists).
    assert (Hmk : own_event od (Mkdir (od // m // s))) by (by exists m, s).
    assert (Hnet : own_event od (NetOpen (remote_url s m
                     (file_name tok (experiment m) s v y (end_year s y))))).
    { by eexists. }
    destruct (fetch_trace bb (remote_url s m (file_name tok (experiment m) s v y
                                                (end_year s y)))
                (od // m // s // (file_name tok (experiment m) s v y (end_year s y)
                                  ++ "_cropped.nc"))
                (snd (mkdir (od // m // s) w))) as [E|[d E]]; rewrite mkdir_trace in E.
    + eexists. split; [by rewrite E, <- app_assoc|]. split; [|simpl; lia].
      by repeat constructor.
    + eexists. split; [by rewrite E, <- app_assoc|]. split; [|simpl; lia].
      repeat constructor; try done. by exists m, s, (file_name tok (experiment m) s v y
                                                       (end_year s y)).
Qed.

Lemma after_tasks_grows (bb : option bbox) od tasks w :
  grows od (List.length tasks) w (after bb od tasks w).
Proof.
  revert w. induction tasks as [|t tasks IH]; intros w; [apply grows_refl|].
  rewrite after_tasks_cons.
  apply (grows_trans od 1 (List.length tasks) w _ _ (unit_grows bb od t w)), IH.
Qed.

(** X8.  Whatever it is called with, a download only continues the trace
    of effects, and with effects of three kinds: making a directory
    [output_dir/model/scenario] for a catalogue model, opening a resource
    under the fixed base URL, writing a file ending in "_cropped.nc" into
    such a directory.  It starts no subprocess, and it opens at most one
    remote resource for each generated unit. *)
Theorem download_effects_are_confined mc vars scenario (bb : option bbox)
    od mw cf w :
  exists new,
    w_trace (snd (download mc vars scenario bb od mw cf w)) = (w_trace w ++ new)%list
    /\ Forall (own_event od) new
    /\ (forall cmd, Proc cmd ∉ new)
    /\ (List.length (List.filter is_net new)
        <= List.length (build_tasks (resolve_models mc) (resolve_scenarios scenario)
                                    (as_list vars)))%nat.
Proof.
  assert (Hg : grows od (List.length (build_tasks (resolve_models mc)
                                        (resolve_scenarios scenario) (as_list vars)))
                 w (snd (download mc vars scenario bb od mw cf w))).
  { destruct (download_cases remote_open xr_sel disk_fault xr_combine run_shell
                mc vars scenario bb od mw cf w)
      as [(x & Hrun & _)|[(_ & _ & Hrun)|(_ & _ & Hrun)]]; rewrite Hrun; simpl.
    - apply (grows_weaken od 0); [lia|apply grows_refl].
    - apply (grows_weaken od 0); [lia|apply grows_refl].
    - apply after_tasks_grows. }
  destruct Hg as (new & E & Hown & Hlen). exists new.
  split; [done|]. split; [done|]. split; [|done].
  intros cmd Hin. rewrite Forall_forall in Hown. by apply (Hown _ Hin).
Qed.

(** ** The combiner's failures *)

Lemma map_M_open_local_raises files w e :
  fst (map_M open_local files w) = Raise e -> is_Exception e = true.
Proof.
  induction files as [|p files IH]; [discriminate|].
  simpl. unfold bind, open_local at 1.
  destruct (w_fs w !! p) as [[|d]|]; simpl; try by intros [= <-].
  pose proof (map_M_open_local files w) as Hw.
  destruct (map_M open_local files w) as [[dss|e1] w1]; simpl in *; [discriminate|].
  intros [= ->]. by apply IH.
Qed.

Lemma combine_one_log_only od scen_dir scen model w files e :
  is_Some (w_fs w !! (od // model // scen)) ->
  fst (glob_cropped (od // model // scen) w) = Ret files -> files <> [] ->
  is_Exception e = true ->
  let out := scen_dir // (model ++ "_combined.nc") in
  let w1 := add_log Info ("Combining files for " ++ model ++ " " ++ scen ++ "...") w in
  fst (map_M open_local files w) = Raise e
  \/ (exists dss, fst (map_M open_local files w) = Ret dss
                  /\ xr_combine (map sortby_time dss) = Raise e)
  \/ (exists dss d, fst (map_M open_local files w) = Ret dss
                    /\ xr_combine (map sortby_time dss) = Ret d
                    /\ fst (to_netcdf disk_fault out d w1) = Raise e) ->
  combine_pair od scen_dir scen model w
  = (Ret tt, add_log Error ("Failed to combine files for " ++ model ++ " " ++ scen
                            ++ ": " ++ exn_str e) w1).
Proof.
  intros [n Hn] Hglob Hne Hexc out w1 Hfail.
  unfold combine_one, bind, path_exists. rewrite Hn. simpl.
  revert Hglob. unfold glob_cropped. simpl. intros [= ->].
  destruct files as [|p files]; [done|].
  unfold try_except, bind, log, open_mfdataset, bind. fold w1.
  pose proof (map_M_open_local (p :: files) w1) as Hw.
  pose proof (map_M_open_local_fs (p :: files) w1 w eq_refl) as Hfst.
  destruct (map_M open_local (p :: files) w1) as [r w2]. cbn [fst snd] in Hw, Hfst.
  subst w2 r.
  destruct Hfail as [Hopen|[(dss & Hopen & Hcomb)|(dss & d & Hopen & Hcomb & Hwrite)]];
    rewrite Hopen.
  - by rewrite Hexc.
  - by rewrite Hcomb, Hexc.
  - rewrite Hcomb. fold out. by rewrite (to_netcdf_failure _ _ _ _ _ Hwrite), Hexc.
Qed.

Lemma combine_one_returns od scen_dir scen model w :
  (forall dss e, xr_combine dss = Raise e -> is_Exception e = true) ->
  (forall w p e, disk_fault w p = Some e -> is_Exception e = true) ->
  fst (combine_pair od scen_dir scen model w) = Ret tt.
Proof.
  intros Hcomb Hdisk.
  destruct (combine_pair od scen_dir scen model w) as [[[]|e] w'] eqn:E; [done|].
  pose proof (combine_one_raises _ _ _ _ _ _ _ _ _ E) as Hnot.
  exfalso. revert E. unfold combine_one, bind, path_exists.
  destruct (w_fs w !! (od // model // scen)); simpl; [|discriminate].
  unfold glob_cropped. destruct (List.filter _ _) as [|p files]; [discriminate|].
  unfold try_except, bind, log, open_mfdataset, bind.
  set (w1 := add_log Info _ w).
  pose proof (map_M_open_local_raises (p :: files) w1) as Hopen.
  pose proof (map_M_open_local (p :: files) w1) as Hw.
  destruct (map_M open_local (p :: files) w1) as [[dss|e1] w2];
    cbn [fst snd] in Hw, Hopen; subst w2.
  2:{ rewrite (Hopen e1 eq_refl). discriminate. }
  destruct (xr_combine (map sortby_time dss)) as [d|e1] eqn:Ec.
  2:{ rewrite (Hcomb _ _ Ec). discriminate. }
  unfold to_netcdf. destruct (is_dir _); [discriminate|].
  destruct (disk_fault w1 _) as [e1|] eqn:Ed; [|discriminate].
  rewrite (Hdisk _ _ _ Ed). discriminate.
Qed.

(** X9.  For an output directory, models and scenarios that are plain
    path components: a pair whose files cannot be opened or combined is
    given up with one error line, "Failed to combine files for <model>
    <scenario>: <error>", and leaves files and effects as they were; a pair
    whose write fails is given up with the same line and a normal return
    (what the failed write leaves at the combined file is not stated); and
    as long as xarray and the disk fail with exceptions derived from
    [Exception], no pair stops the run: the combiner returns normally, or
    with the [OSError] of a [mkdir] of its output directories. *)
Theorem combine_failure_is_logged_and_skipped :
  (forall od scen_dir scen model w files e,
      plain_path od = true -> plain_path scen_dir = true ->
      plain_component model = true -> plain_component scen = true ->
      is_Some (w_fs w !! (od // model // scen)) ->
      fst (glob_cropped (od // model // scen) w) = Ret files -> files <> [] ->
      is_Exception e = true ->
      let out := scen_dir // (model ++ "_combined.nc") in
      let w1 := add_log Info ("Combining files for " ++ model ++ " " ++ scen ++ "...") w in
      let w2 := add_log Error ("Failed to combine files for " ++ model ++ " " ++ scen
                               ++ ": " ++ exn_str e) w1 in
      (fst (map_M open_local files w) = Raise e
       \/ (exists dss, fst (map_M open_local files w) = Ret dss
                       /\ xr_combine (map sortby_time dss) = Raise e) ->
       combine_pair od scen_dir scen model w = (Ret tt, w2))
      /\ ((exists dss d, fst (map_M open_local files w) = Ret dss
                         /\ xr_combine (map sortby_time dss) = Ret d
                         /\ fst (to_netcdf disk_fault out d w1) = Raise e) ->
          fst (combine_pair od scen_dir scen model w) = Ret tt
          /\ w_log (snd (combine_pair od scen_dir scen model w)) = w_log w2))
  /\ ((forall dss e, xr_combine dss = Raise e -> is_Exception e = true) ->
      (forall w p e, disk_fault w p = Some e -> is_Exception e = true) ->
      forall mc scenario od w,
        plain_path od = true -> plain_path (helper_models mc) = true ->
        plain_path (resolve_scenarios scenario) = true ->
        fst (combine mc scenario od w) = Ret tt
        \/ exists msg, fst (combine mc scenario od w) = Raise (OSError msg)).
Proof.
  split.
  { intros od scen_dir scen model w files e _ _ _ _ Hsrc Hglob Hne Hexc out w1 w2.
    split.
    - intros Hfail. eapply combine_one_log_only; eauto.
      destruct Hfail as [H|H]; [by left|by right; left].
    - intros Hfail.
      rewrite (combine_one_log_only od scen_dir scen model w files e Hsrc Hglob Hne Hexc);
        [done|]. by right; right. }
  intros Hcomb Hdisk mc scenario od w _ _ _.
  destruct (combine mc scenario od w) as [[[]|e] w'] eqn:E; [by left|].
  right. simpl. revert E. unfold combine_netcdf_files, bind.
  destruct (mkdir (od // "combined") w) as [[[]|e1] w1] eqn:E1.
  2:{ intros [= <- _]. apply mkdir_raises in E1 as [msg ->]. by exists msg. }
  apply (for_each_raises (fun e => exists msg, Raise e = Raise (OSError msg))).
  clear -Hcomb Hdisk. intros scen w e w'. unfold bind.
  destruct (mkdir _ w) as [[[]|e1] w1] eqn:E1.
  2:{ intros [= <- _]. apply mkdir_raises in E1 as [msg ->]. by exists msg. }
  apply (for_each_raises (fun e => exists msg, Raise e = Raise (OSError msg))).
  intros model w2 e2 w3 E.
  pose proof (combine_one_returns od (od // "combined" // scen) scen model w2
                Hcomb Hdisk) as H.
  rewrite E in H. discriminate.
Qed.

(** ** The loops over missing sources *)

Lemma for_each_logs {A} (entry : A -> level * string) (body : A -> M unit)
    (l : list A) (w : world) :
  (forall x w1, x ∈ l -> w_fs w1 = w_fs w ->
                body x w1 = (Ret tt, add_log (entry x).1 (entry x).2 w1)) ->
  for_each l body w
  = (Ret tt, World (w_fs w) (w_log w ++ map entry l) (w_trace w)).
Proof.
  revert w. induction l as [|x l IH]; intros w Hbody.
  - simpl. rewrite app_nil_r. by destruct w.
  - simpl. unfold bind. rewrite Hbody; [|by apply elem_of_cons; left|done].
    rewrite IH.
    + unfold add_log. simpl. rewrite <- app_assoc. simpl.
      by destruct (entry x).
    + intros y w1 Hy Hfs. apply Hbody; [by apply elem_of_cons; right|].
      by rewrite Hfs.
Qed.

Lemma combine_one_missing od scen_dir scen model w :
  w_fs w !! (od // model // scen) = None ->
  combine_pair od scen_dir scen model w
  = (Ret tt, add_log (missing_warning od scen model).1
                     (missing_warning od scen model).2 w).
Proof.
  intros Hnone. unfold combine_one, bind, path_exists. by rewrite Hnone.
Qed.

(** X10.  Called with an output directory, models and one scenario that
    are plain path components, on a tree that has none of the source
    directories, the combiner makes [output_dir/combined] and
    [output_dir/combined/scenario], logs one warning for each model of its
    selector, in order, writes nothing and returns normally.  Its selector
    is not the downloader's: only the bare string "all" stands for the
    catalogue, and a list is taken as it is, so an "all" inside a list is
    looked up as a model. *)
Theorem combine_warns_for_each_missing_source mc scen od w :
  plain_path od = true -> plain_path (helper_models mc) = true ->
  plain_component scen = true ->
  scen <> "all" ->
  blocked (w_fs w) (od // "combined" // scen) = false ->
  Forall (fun m => m <> "combined" /\ w_fs w !! (od // m // scen) = None)
         (helper_models mc) ->
  (exists w', combine mc scen od w = (Ret tt, w')
     /\ w_log w' = (w_log w ++ map (missing_warning od scen) (helper_models mc))%list
     /\ w_trace w' = (w_trace w ++ [Mkdir (od // "combined");
                                    Mkdir (od // "combined" // scen)])%list)
  /\ helper_models (Str "all") = valid_model_names
  /\ (forall l, helper_models (Lst l) = l).
Proof.
  intros _ _ _ Hscen Hfree Hmissing. split; [|by split].
  pose proof Hfree as Hfree2. rewrite blocked_snoc in Hfree2.
  apply orb_false_iff in Hfree2 as [Hfree1 _].
  destruct (mkdir_success _ w Hfree1) as (E1 & Hlog1 & Hfile1 & Hfs1 & _).
  set (w1 := snd (mkdir (od // "combined") w)) in *.
  assert (Hfree' : blocked (w_fs w1) (od // "combined" // scen) = false).
  { by rewrite (blocked_ext (w_fs w1) (w_fs w)). }
  destruct (mkdir_success _ w1 Hfree') as (E2 & Hlog2 & _ & Hfs2 & _).
  set (w2 := snd (mkdir (od // "combined" // scen) w1)) in *.
  assert (Hsrc : forall m, m ∈ helper_models mc -> w_fs w2 !! (od // m // scen) = None).
  { intros m Hm. rewrite Forall_forall in Hmissing. destruct (Hmissing m Hm) as [Hc Hnone].
    rewrite Hfs2, Hfs1; [done| |].
    - intros Hq. eapply (source_not_created od m scen); [done| |reflexivity].
      rewrite prefixes_snoc, elem_of_app. by left.
    - intros Hq. by eapply (source_not_created od m scen). }
  eexists. split.
  - unfold combine_netcdf_files, resolve_scenarios.
    apply String.eqb_neq in Hscen. rewrite Hscen.
    unfold bind at 1. rewrite E1. cbn [for_each]. unfold bind at 1 2.
    fold w1. rewrite E2. fold w2.
    rewrite (for_each_logs (missing_warning od scen)); [reflexivity|].
    intros m w3 Hm Hfs3. apply combine_one_missing. rewrite Hfs3. by apply Hsrc.
  - simpl. split; [by rewrite Hlog2, Hlog1|].
    unfold w2, w1. rewrite !mkdir_trace, <- app_assoc. done.
Qed.

(** ** The aggregator *)

Lemma ncml_one_raises od ncml_dir conda_env scen model w e w' :
  ncml_pair od ncml_dir conda_env scen model w = (Raise e, w') ->
  is_CalledProcessError e = false.
Proof.
  unfold ncml_one, bind, path_exists.
  destruct (w_fs w !! (od // model // scen)); simpl; [|discriminate].
  apply try_except_raises. discriminate.
Qed.

(** X11.  For one model and scenario the aggregator skips a missing source
    directory with a warning and starts no subprocess; otherwise it runs
    one command, [conda run -n <env> Rscript -e '<script>'], and logs its
    success, or catches a [CalledProcessError] and logs "Failed to create
    ncml file for <model> <scenario>: <error>".  Any other exception of the
    subprocess call is not caught and ends the aggregation; so a whole run
    never raises a [CalledProcessError]. *)
Theorem ncml_subprocess_outcomes od conda_env scen model w :
  let cmd := ncml_command od conda_env scen model in
  let ncml_file := od // "ncml" // scen // (model ++ "_" ++ scen ++ ".ncml") in
  let started f := World f (w_log w) (w_trace w ++ [Proc cmd]) in
  (w_fs w !! (od // model // scen) = None ->
     ncml_pair od (od // "ncml") conda_env scen model w
     = (Ret tt, add_log (missing_warning od scen model).1
                        (missing_warning od scen model).2 w))
  /\ (is_Some (w_fs w !! (od // model // scen)) ->
      forall r f, run_shell w cmd = (r, f) ->
        match r with
        | Ret _ =>
            ncml_pair od (od // "ncml") conda_env scen model w
            = (Ret tt, add_log Info ("Successfully created ncml file: "
                                     ++ path_str ncml_file) (started f))
        | Raise e =>
            if is_CalledProcessError e
            then ncml_pair od (od // "ncml") conda_env scen model w
                 = (Ret tt, add_log Error ("Failed to create ncml file for " ++ model
                                           ++ " " ++ scen ++ ": " ++ exn_str e)
                              (started f))
            else ncml_pair od (od // "ncml") conda_env scen model w
                 = (Raise e, started f)
        end)
  /\ (forall mc scenario msg,
        fst (ncml mc scenario od conda_env w) <> Raise (CalledProcessError msg)).
Proof.
  intros cmd ncml_file started. split; [|split].
  - intros Hnone. unfold ncml_one, bind, path_exists. by rewrite Hnone.
  - intros [n Hn] r f Hrun.
    assert (E : ncml_pair od (od // "ncml") conda_env scen model w
                = try_except
                    (run subprocess_run run_shell cmd ;
                     log Info ("Successfully created ncml file: " ++ path_str ncml_file))
                    is_CalledProcessError
                    (fun e => log Error ("Failed to create ncml file for " ++ model
                                         ++ " " ++ scen ++ ": " ++ exn_str e)) w).
    { unfold ncml_one, bind, path_exists. by rewrite Hn. }
    rewrite E. unfold try_except, bind, subprocess_run. rewrite Hrun.
    destruct r as [[]|e]; [done|]. by destruct (is_CalledProcessError e).
  - intros mc scenario msg Hrun.
    destruct (ncml mc scenario od conda_env w) as [r w'] eqn:E. simpl in Hrun. subst r.
    revert E. unfold create_ncml_files. intros E.
    eapply (for_each_raises (fun e => e <> CalledProcessError msg)) in E; [done|].
    clear. intros scen w e w'. unfold bind.
    destruct (mkdir _ w) as [[[]|e1] w1] eqn:E1.
    2:{ intros [= <- _]. apply mkdir_raises in E1 as [m ->]. discriminate. }
    intros E.
    eapply (for_each_raises (fun e => is_CalledProcessError e = false)) in E.
    + intros ->. discriminate.
    + intros model w2 e2 w3. apply ncml_one_raises.
Qed.

End Effects.

(** ** File names *)

Lemma str_app_cons (x : ascii) (a b : string) : String x a ++ b = String x (a ++ b).
Proof. reflexivity. Qed.

Lemma str_app_nil (b : string) : EmptyString ++ b = b.
Proof. reflexivity. Qed.

Lemma str_app_assoc (a b c : string) : (a ++ b) ++ c = a ++ (b ++ c).
Proof.
  induction a as [|x a IH]; [by rewrite !str_app_nil|].
  by rewrite !str_app_cons, IH.
Qed.

Lemma str_app_inv_head (p a b : string) : p ++ a = p ++ b -> a = b.
Proof.
  induction p as [|x p IH]; [by rewrite !str_app_nil|].
  rewrite !str_app_cons. intros [= H]. by apply IH.
Qed.

Lemma str_length_app (a b : string) :
  String.length (a ++ b) = (String.length a + String.length b)%nat.
Proof.
  induction a as [|x a IH]; [by rewrite str_app_nil|].
  rewrite str_app_cons. simpl. by rewrite IH.
Qed.

Lemma substring_all (s : string) : substring 0 (String.length s) s = s.
Proof. induction s as [|x s IH]; simpl; [done|]. by rewrite IH. Qed.

Lemma substring_skip (a b : string) :
  substring (String.length a) (String.length b) (a ++ b) = b.
Proof.
  induction a as [|x a IH]; [rewrite str_app_nil; apply substring_all|].
  rewrite str_app_cons. exact IH.
Qed.

Lemma substring_split (s : string) (n : nat) :
  (n <= String.length s)%nat ->
  s = substring 0 n s ++ substring n (String.length s - n) s.
Proof.
  revert n. induction s as [|x s IH]; intros n Hn.
  - simpl in Hn. by replace n with 0%nat by lia.
  - destruct n as [|n].
    + rewrite Nat.sub_0_r, substring_all. reflexivity.
    + simpl in Hn. cbn [substring String.length Nat.sub]. rewrite str_app_cons.
      rewrite <- IH by lia. done.
Qed.

(** [ends_with] is the suffix test. *)
Lemma ends_with_spec (suffix s : string) :
  ends_with suffix s = true <-> exists stem, s = stem ++ suffix.
Proof.
  unfold ends_with. rewrite andb_true_iff, Nat.leb_le, String.eqb_eq. split.
  - intros [Hlen Hsub]. exists (substring 0 (String.length s - String.length suffix) s).
    etrans; [apply (substring_split s (String.length s - String.length suffix)); lia|].
    f_equal.
    replace (String.length s - (String.length s - String.length suffix))%nat
      with (String.length suffix) by lia.
    exact Hsub.
  - intros [stem ->]. rewrite str_length_app. split; [lia|].
    replace (String.length stem + String.length suffix - String.length suffix)%nat
      with (String.length stem) by lia.
    apply substring_skip.
Qed.

Lemma strip_prefix_spec (dir p r : path) :
  strip_prefix dir p = Some r <-> p = (dir ++ r)%list.
Proof.
  revert p. induction dir as [|d dir IH]; intros p; simpl.
  - split; [by intros [= ->]|by intros ->].
  - destruct p as [|c p]; [split; discriminate|].
    destruct (String.eqb_spec d c) as [->|Hne].
    + rewrite IH. split; [by intros ->|by intros [= ->]].
    + split; [discriminate|]. intros [= -> _]. done.
Qed.

Lemma cropped_in_spec (dir p : path) :
  cropped_in dir p = true <-> exists stem, p = dir // (stem ++ "_cropped.nc").
Proof.
  unfold cropped_in. split.
  - destruct (strip_prefix dir p) as [[|name [|??]]|] eqn:E; try discriminate.
    apply strip_prefix_spec in E. intros [stem ->]%ends_with_spec. by exists stem.
  - intros [stem ->].
    assert (E : strip_prefix dir (dir // (stem ++ "_cropped.nc"))
                = Some [stem ++ "_cropped.nc"]) by by apply strip_prefix_spec.
    rewrite E. apply ends_with_spec. by exists stem.
Qed.

(** X12.  The combiner's [glob("*_cropped.nc")] of a directory lists, each
    once, exactly the entries directly in that directory whose name ends in
    "_cropped.nc".  In particular it finds every file a fetch unit has
    stored for that model and scenario: what the downloader writes, the
    combiner reads. *)
Theorem glob_lists_the_cropped_files (dir : path) (w : world) :
  exists files, glob_cropped dir w = (Ret files, w)
    /\ NoDup files
    /\ (forall p, p ∈ files
                  <-> is_Some (w_fs w !! p)
                      /\ exists stem, p = dir // (stem ++ "_cropped.nc"))
    /\ (forall od t p, local_target od t = Some p -> parent p = dir ->
                       is_Some (w_fs w !! p) -> p ∈ files).
Proof.
  eexists. split; [reflexivity|].
  assert (Hmem : forall p, p ∈ List.filter (cropped_in dir) (map fst (map_to_list (w_fs w)))
                           <-> is_Some (w_fs w !! p)
                               /\ exists stem, p = dir // (stem ++ "_cropped.nc")).
  { intros p. rewrite list_elem_of_In, filter_In, cropped_in_spec, in_map_iff.
    split; intros [Hin Hname]; (split; [|done]).
    - destruct Hin as ([q n] & <- & Hin). exists n.
      by apply elem_of_map_to_list, list_elem_of_In.
    - destruct Hin as [n Hn]. exists (p, n). split; [done|].
      by apply list_elem_of_In, elem_of_map_to_list. }
  split; [|split; [exact Hmem|]].
  - apply NoDup_ListNoDup, List.NoDup_filter, NoDup_ListNoDup.
    apply (NoDup_fst_map_to_list (w_fs w)).
  - intros od [[[m v] s] y] p Htarget Hpar Hsome. apply Hmem. split; [done|].
    unfold local_target in Htarget.
    destruct (dict_get valid_models m) as [tok|]; [|discriminate].
    injection Htarget as <-. rewrite parent_snoc in Hpar. subst dir. by eexists.
Qed.

Lemma variable_then_rest (v1 v2 r1 r2 : string) :
  v1 ∈ valid_variables -> v2 ∈ valid_variables ->
  v1 ++ "_global_daily_" ++ r1 = v2 ++ "_global_daily_" ++ r2 ->
  v1 = v2 /\ r1 = r2.
Proof.
  unfold valid_variables. intros H1 H2.
  repeat (apply elem_of_cons in H1 as [->|H1]);
    repeat (apply elem_of_cons in H2 as [->|H2]);
    try (by inversion H1); try (by inversion H2);
    intros H; vm_compute in H; by simplify_eq.
Qed.

Lemma decade_then_rest (s : string) (y1 y2 : Z) :
  y1 ∈ decade_starts s -> y2 ∈ decade_starts s ->
  str_int y1 ++ "_" ++ str_int (end_year s y1) ++ "_cropped.nc"
  = str_int y2 ++ "_" ++ str_int (end_year s y2) ++ "_cropped.nc" ->
  y1 = y2.
Proof.
  unfold end_year. destruct (String.eqb_spec s "historical") as [->|Hs].
  - rewrite decade_starts_historical. intros H1 H2.
    repeat (apply elem_of_cons in H1 as [->|H1]);
      repeat (apply elem_of_cons in H2 as [->|H2]);
      try (by inversion H1); try (by inversion H2);
      intros H; vm_compute in H; by simplify_eq.
  - rewrite decade_starts_future by done. intros H1 H2.
    repeat (apply elem_of_cons in H1 as [->|H1]);
      repeat (apply elem_of_cons in H2 as [->|H2]);
      try (by inversion H1); try (by inversion H2);
      intros H; vm_compute in H; by simplify_eq.
Qed.

(** With valid inputs the target path determines the unit. *)
Lemma local_target_determines_unit mc vars scenario od (t1 t2 : task) :
  valid_inputs mc vars scenario ->
  t1 ∈ build_tasks (resolve_models mc) (resolve_scenarios scenario) (as_list vars) ->
  t2 ∈ build_tasks (resolve_models mc) (resolve_scenarios scenario) (as_list vars) ->
  local_target od t1 = local_target od t2 ->
  is_Some (local_target od t1) /\ t1 = t2.
Proof.
  destruct t1 as [[[m1 v1] s1] y1], t2 as [[[m2 v2] s2] y2].
  intros (Hms & Hvs & _) H1 H2.
  apply elem_of_build_tasks in H1 as (Hm1 & _ & Hv1 & Hy1).
  apply elem_of_build_tasks in H2 as (Hm2 & _ & Hv2 & Hy2).
  rewrite Forall_forall in Hms, Hvs.
  apply Hms, valid_model_lookup in Hm1 as [tok1 Htok1].
  apply Hms, valid_model_lookup in Hm2 as [tok2 Htok2].
  apply Hvs in Hv1, Hv2. unfold local_target. rewrite Htok1, Htok2.
  intros [= H]. split; [by eexists|]. unfold path_div in H.
  apply app_inj_tail in H as [H Hname]. apply app_inj_tail in H as [H ->].
  apply app_inj_tail in H as [_ ->].
  rewrite Htok1 in Htok2. injection Htok2 as <-.
  unfold file_name in Hname. rewrite !str_app_assoc in Hname.
  do 6 apply str_app_inv_head in Hname.
  apply variable_then_rest in Hname as [-> Hname]; [|done..].
  apply decade_then_rest in Hname as ->; done.
Qed.

Lemma decade_starts_NoDup (s : string) : NoDup (decade_starts s).
Proof.
  assert (Hcons : forall (x : Z) l, x ∉ l -> NoDup l -> NoDup (x :: l)).
  { intros x l Hx Hl. by apply NoDup_cons. }
  unfold decade_starts. destruct (String.eqb s "historical"); vm_compute;
    repeat (apply Hcons;
            [intros H; repeat (apply elem_of_cons in H as [H|H]; [discriminate|]);
             inversion H|]);
    apply NoDup_nil_2.
Qed.

Lemma resolve_scenarios_NoDup (scenario : string) : NoDup (resolve_scenarios scenario).
Proof.
  unfold resolve_scenarios. destruct (String.eqb scenario "all").
  - unfold valid_scenarios.
    repeat (apply NoDup_cons; split; [by apply str_in_not_elem|]). apply NoDup_nil_2.
  - apply NoDup_singleton.
Qed.

(** Selectors without repetition give a task list without repetition. *)
Lemma build_tasks_NoDup (ms ss vs : list string) :
  NoDup ms -> NoDup ss -> NoDup vs -> NoDup (build_tasks ms ss vs).
Proof.
  intros Hms Hss Hvs. unfold build_tasks.
  apply NoDup_bind; [|intros m _|done].
  { intros m1 m2 t _ _ H1 H2.
    apply list_elem_of_bind in H1 as (s1 & H1 & _).
    apply list_elem_of_bind in H1 as (v1 & H1 & _).
    apply list_elem_of_bind in H1 as (y1 & H1 & _).
    apply list_elem_of_bind in H2 as (s2 & H2 & _).
    apply list_elem_of_bind in H2 as (v2 & H2 & _).
    apply list_elem_of_bind in H2 as (y2 & H2 & _).
    apply list_elem_of_singleton in H1, H2. congruence. }
  apply NoDup_bind; [|intros s _|done].
  { intros s1 s2 t _ _ H1 H2.
    apply list_elem_of_bind in H1 as (v1 & H1 & _).
    apply list_elem_of_bind in H1 as (y1 & H1 & _).
    apply list_elem_of_bind in H2 as (v2 & H2 & _).
    apply list_elem_of_bind in H2 as (y2 & H2 & _).
    apply list_elem_of_singleton in H1, H2. congruence. }
  apply NoDup_bind; [|intros v _|done].
  { intros v1 v2 t _ _ H1 H2.
    apply list_elem_of_bind in H1 as (y1 & H1 & _).
    apply list_elem_of_bind in H2 as (y2 & H2 & _).
    apply list_elem_of_singleton in H1, H2. congruence. }
  apply NoDup_bind; [|intros y _; apply NoDup_singleton|apply decade_starts_NoDup].
  intros y1 y2 t _ _ H1 H2. apply list_elem_of_singleton in H1, H2. congruence.
Qed.

(** X13.  In a run with valid inputs whose model and variable selectors
    name nothing twice, the list of units handed to the pool has no unit
    twice, every unit has a target, and the list of their targets
    [output_dir/model/scenario/<name>_cropped.nc] has no path twice: no
    two units of the run write the same file. *)
Theorem distinct_units_have_distinct_targets mc vars scenario od :
  valid_inputs mc vars scenario ->
  NoDup (resolve_models mc) -> NoDup (as_list vars) ->
  NoDup (build_tasks (resolve_models mc) (resolve_scenarios scenario) (as_list vars))
  /\ Forall (fun t => is_Some (local_target od t))
            (build_tasks (resolve_models mc) (resolve_scenarios scenario) (as_list vars))
  /\ NoDup (local_target od
              <$> build_tasks (resolve_models mc) (resolve_scenarios scenario)
                              (as_list vars)).
Proof.
  intros Hvalid Hms Hvs.
  assert (Htasks : NoDup (build_tasks (resolve_models mc) (resolve_scenarios scenario)
                                      (as_list vars))).
  { apply build_tasks_NoDup; [done|apply resolve_scenarios_NoDup|done]. }
  split; [exact Htasks|]. split.
  - apply Forall_forall. intros t Ht.
    by destruct (local_target_determines_unit mc vars scenario od t t Hvalid Ht Ht).
  - apply NoDup_fmap_2_strong; [|exact Htasks]. intros t1 t2 H1 H2 Heq.
    by destruct (local_target_determines_unit mc vars scenario od t1 t2 Hvalid H1 H2).
Qed.

(** ** Whole runs in a co-operative environment *)

Section Runs.

Context {bbox : Type}.
Variable remote_open : world -> string -> result dataset.
Variable xr_sel : bbox -> dataset -> result dataset.
Variable disk_fault : world -> path -> option exn.
Variable xr_combine : list dataset -> result dataset.
Variable run_shell : world -> string -> result unit * gmap path node.

Local Abbreviation download :=
  (download_isimip_data remote_open xr_sel disk_fault xr_combine run_shell).
Local Abbreviation after := (after_tasks remote_open xr_sel disk_fault).
Local Abbreviation unit_run := (run_task remote_open xr_sel disk_fault).
Local Abbreviation fetch_unit := (fetch remote_open xr_sel disk_fault).

(** The server answers every open, the subset always succeeds, the disk
    takes every write. *)
Hypothesis server_up : forall w u, exists ds, remote_open w u = Ret ds.
Hypothesis subset_ok : forall b ds, exists ds', xr_sel b ds = Ret ds'.
Hypothesis disk_ok : forall w p, disk_fault w p = None.

Lemma blocked_same_prefixes (f1 f2 : gmap path node) (d : path) :
  (forall q, q ∈ prefixes d -> is_file (f1 !! q) = is_file (f2 !! q)) ->
  blocked f1 d = blocked f2 d.
Proof.
  intros Hsame. unfold blocked. induction (prefixes d) as [|q ps IH]; [done|].
  simpl. rewrite Hsame, IH; [done| |].
  - intros q' Hq'. apply Hsame. by apply elem_of_cons; right.
  - by apply elem_of_cons; left.
Qed.

Lemma fetch_succeeds (bb : option bbox) url out w :
  w_fs w !! out = None ->
  exists d, w_fs (snd (fetch_unit bb url out w)) = <[out := File d]> (w_fs w).
Proof.
  intros Hnone.
  destruct (server_up (add_log Info ("Downloading " ++ url) w) url) as [ds Hopen].
  assert (Hcrop : exists ds', fst (crop xr_sel bb ds
                    (emit (NetOpen url) (add_log Info ("Downloading " ++ url) w)))
                              = Ret ds').
  { unfold crop, sel, mret. destruct bb as [b|]; simpl; [apply subset_ok|by eexists]. }
  destruct Hcrop as [ds' Hcrop]. exists ds'.
  rewrite (fetch_success remote_open xr_sel disk_fault bb url out w ds ds');
    try done. by rewrite Hnone.
Qed.

Lemma unit_leaves_target (bb : option bbox) od t w :
  is_Some (local_target od t) -> dropped t = false ->
  blocked (w_fs w) (unit_dir od t) = false ->
  (exists p, local_target od t = Some p /\ is_Some (w_fs (snd (unit_run bb od t w)) !! p))
  /\ Forall (fun q => w_fs (snd (unit_run bb od t w)) !! q = Some Dir)
            (prefixes (unit_dir od t))
  /\ (forall d, (List.length d <= List.length od + 2)%nat ->
                blocked (w_fs (snd (unit_run bb od t w))) d = blocked (w_fs w) d).
Proof.
  destruct t as [[[m v] s] y]. intros [p Hp] Hkept Hfree. simpl in Hfree.
  destruct (local_target_Some od m v s y p Hp) as (tok & Htok & ->).
  destruct (mkdir_success _ w Hfree) as (_ & _ & Hfile & _ & Hdirs).
  assert (Hlen : forall d q, (List.length d <= List.length od + 2)%nat -> q ∈ prefixes d ->
                  q <> od // m // s // (file_name tok (experiment m) s v y (end_year s y)
                                        ++ "_cropped.nc")).
  { intros d q Hd Hq ->. apply elem_of_prefixes_length in Hq. unfold path_div in Hq.
    rewrite !length_app in Hq. simpl in Hq. lia. }
  destruct (unit_cases remote_open xr_sel disk_fault bb od m v s y w)
    as [E|(tok' & Htok' & _ & [[Hb _]|[(_ & Hsome & E)|(_ & Hnone & E)]])].
  - exfalso. revert E. unfold run_task, process_file, dropped in *.
    rewrite Htok, Hkept. unfold bind.
    destruct (mkdir_success _ w Hfree) as (Emk & _ & _ & _ & _). rewrite Emk.
    intros E. apply (f_equal (fun x => List.length (w_trace x))) in E. revert E.
    unfold path_exists. destruct (w_fs _ !! _); simpl.
    + rewrite mkdir_trace, length_app. simpl. lia.
    + set (u := remote_url _ _ _). set (o := _ // _).
      destruct (fetch_trace remote_open xr_sel disk_fault bb u o
                  (snd (mkdir (od // m // s) w))) as [->|[d ->]];
        rewrite mkdir_trace, !length_app; simpl; lia.
  - congruence.
  - rewrite Htok in Htok'. injection Htok' as <-. rewrite E. simpl.
    split; [by eexists|]. split; [by apply Forall_forall|].
    intros d Hd. by apply blocked_ext.
  - rewrite Htok in Htok'. injection Htok' as <-. rewrite E.
    destruct (fetch_succeeds bb (remote_url s m (file_name tok (experiment m) s v y
                                                   (end_year s y)))
                (od // m // s // (file_name tok (experiment m) s v y (end_year s y)
                                  ++ "_cropped.nc"))
                (snd (mkdir (od // m // s) w)) Hnone) as [d ->].
    split; [eexists; split; [done|]; by rewrite lookup_insert_eq|]. split.
    + apply Forall_forall. intros q Hq. rewrite lookup_insert_ne; [by apply Hdirs|].
      intros <-. by apply (child_not_prefix (od // m // s)) in Hq.
    + intros d' Hd. apply blocked_same_prefixes. intros q Hq.
      rewrite lookup_insert_ne; [apply Hfile|]. intros <-. by eapply Hlen.
Qed.

Lemma unit_dir_length od (t : task) : List.length (unit_dir od t) = (List.length od + 2)%nat.
Proof.
  destruct t as [[[m v] s] y]. unfold unit_dir, path_div. rewrite !length_app. simpl. lia.
Qed.

Lemma after_tasks_populates (bb : option bbox) od tasks w :
  (forall t, t ∈ tasks ->
     is_Some (local_target od t) /\ dropped t = false
     /\ blocked (w_fs w) (unit_dir od t) = false) ->
  forall t, t ∈ tasks ->
    (exists p, local_target od t = Some p /\ is_Some (w_fs (after bb od tasks w) !! p))
    /\ Forall (fun q => w_fs (after bb od tasks w) !! q = Some Dir)
              (prefixes (unit_dir od t)).
Proof.
  revert w. induction tasks as [|t0 tasks IH]; intros w Hall t Hin; [inversion Hin|].
  rewrite after_tasks_cons.
  destruct (Hall t0) as (Htarget0 & Hkept0 & Hfree0); [by apply elem_of_cons; left|].
  destruct (unit_leaves_target bb od t0 w Htarget0 Hkept0 Hfree0)
    as ((p0 & Hp0 & Hsome0) & Hdirs0 & Hblocked).
  set (w1 := snd (unit_run bb od t0 w)) in *.
  assert (Hall1 : forall t, t ∈ tasks ->
             is_Some (local_target od t) /\ dropped t = false
             /\ blocked (w_fs w1) (unit_dir od t) = false).
  { intros t' Hin'. destruct (Hall t') as (? & ? & Hfree'); [by apply elem_of_cons; right|].
    split; [done|]. split; [done|]. rewrite Hblocked; [done|].
    rewrite unit_dir_length. lia. }
  pose proof (after_tasks_keeps_entries remote_open xr_sel disk_fault bb od tasks w1)
    as Hsub.
  destruct (decide (t ∈ tasks)) as [Hin'|Hnot]; [by apply IH|].
  apply elem_of_cons in Hin as [->|Hin]; [|done]. split.
  - exists p0. split; [done|]. by eapply lookup_weaken_is_Some.
  - eapply Forall_impl; [exact Hdirs0|]. intros q Hq. simpl in Hq.
    by eapply lookup_weaken.
Qed.

Lemma after_tasks_skips (bb : option bbox) od tasks w :
  (forall t, t ∈ tasks ->
     dropped t = false
     /\ (exists p, local_target od t = Some p /\ is_Some (w_fs w !! p))
     /\ Forall (fun q => w_fs w !! q = Some Dir) (prefixes (unit_dir od t))) ->
  w_fs (after bb od tasks w) = w_fs w
  /\ net_calls (after bb od tasks w) = net_calls w.
Proof.
  revert w. induction tasks as [|t tasks IH]; intros w Hall; [done|].
  rewrite after_tasks_cons.
  destruct (Hall t) as (Hkept & (p & Hp & [n Hn]) & Hdirs); [by apply elem_of_cons; left|].
  destruct t as [[[m v] s] y].
  destruct (local_target_Some od m v s y p Hp) as (tok & Htok & ->).
  rewrite (unit_in_existing_dir remote_open xr_sel disk_fault bb od m v s y tok w
             Htok Hkept Hdirs), Hn.
  cbn [snd]. set (w1 := add_log _ _ _).
  assert (Hfs : w_fs w1 = w_fs w) by reflexivity.
  assert (Hnet : net_calls w1 = net_calls w).
  { unfold w1. rewrite net_calls_add_log, net_calls_emit. simpl. apply app_nil_r. }
  destruct (IH w1) as [Hfs' Hnet'].
  - intros t' Hin. rewrite Hfs. apply Hall. by apply elem_of_cons; right.
  - by rewrite Hfs', Hnet'.
Qed.

Lemma run_is_after_tasks mc vars scenario (bb : option bbox) od mw cf w :
  valid_inputs mc vars scenario -> 0 < mw ->
  snd (download mc vars scenario bb od mw cf w)
  = after bb od (build_tasks (resolve_models mc) (resolve_scenarios scenario)
                             (as_list vars)) w.
Proof.
  intros Hvalid Hmw.
  destruct (download_cases remote_open xr_sel disk_fault xr_combine run_shell
              mc vars scenario bb od mw cf w)
    as [(x & _ & Hoff)|[(_ & Hle & _)|(_ & _ & Hrun)]].
  - by destruct (valid_inputs_not_offending _ _ _ x Hvalid).
  - lia.
  - by rewrite Hrun.
Qed.

Lemma built_tasks_ready mc vars scenario od w t :
  valid_inputs mc vars scenario ->
  (forall m s, m ∈ resolve_models mc -> s ∈ resolve_scenarios scenario ->
               blocked (w_fs w) (od // m // s) = false) ->
  t ∈ build_tasks (resolve_models mc) (resolve_scenarios scenario) (as_list vars) ->
  is_Some (local_target od t) /\ dropped t = false
  /\ blocked (w_fs w) (unit_dir od t) = false.
Proof.
  intros (Hms & _ & _) Hfree Hin. split; [|split].
  - destruct t as [[[m v] s] y]. apply elem_of_build_tasks in Hin as (Hm & _).
    rewrite Forall_forall in Hms. apply Hms, valid_model_lookup in Hm as [tok Htok].
    unfold local_target. rewrite Htok. by eexists.
  - by eapply built_tasks_kept.
  - destruct t as [[[m v] s] y]. apply elem_of_build_tasks in Hin as (Hm & Hs & _).
    by apply Hfree.
Qed.

(** X14.  With valid inputs, a positive pool size, no regular file in the
    way of the model/scenario directories, and a server, a subset and a
    disk that do not fail, a run leaves the file of every generated unit in
    the tree. *)
Theorem successful_run_populates_the_tree mc vars scenario (bb : option bbox)
    od mw cf w :
  valid_inputs mc vars scenario -> 0 < mw ->
  (forall m s, m ∈ resolve_models mc -> s ∈ resolve_scenarios scenario ->
               blocked (w_fs w) (od // m // s) = false) ->
  populated (w_fs (snd (download mc vars scenario bb od mw cf w))) od
    (build_tasks (resolve_models mc) (resolve_scenarios scenario) (as_list vars))
  = true.
Proof.
  intros Hvalid Hmw Hfree. rewrite run_is_after_tasks by done.
  unfold populated. apply forallb_forall. intros t Hin. apply list_elem_of_In in Hin.
  destruct (after_tasks_populates bb od _ w
              (fun t Ht => built_tasks_ready mc vars scenario od w t Hvalid Hfree Ht)
              t Hin) as ((p & -> & [n ->]) & _).
  done.
Qed.

(** X15.  Under the same conditions a second, identical run changes no
    file and opens no remote resource: everything the first run fetched is
    skipped by the second. *)
Theorem second_run_fetches_nothing mc vars scenario (bb : option bbox)
    od mw cf w :
  valid_inputs mc vars scenario -> 0 < mw ->
  (forall m s, m ∈ resolve_models mc -> s ∈ resolve_scenarios scenario ->
               blocked (w_fs w) (od // m // s) = false) ->
  let w1 := snd (download mc vars scenario bb od mw cf w) in
  let w2 := snd (download mc vars scenario bb od mw cf w1) in
  w_fs w2 = w_fs w1 /\ net_calls w2 = net_calls w1.
Proof.
  intros Hvalid Hmw Hfree w1 w2. unfold w2, w1.
  rewrite !run_is_after_tasks by done.
  apply after_tasks_skips. intros t Hin.
  destruct (after_tasks_populates bb od _ w
              (fun t Ht => built_tasks_ready mc vars scenario od w t Hvalid Hfree Ht)
              t Hin) as (Htarget & Hdirs).
  split; [by eapply built_tasks_kept|]. by split.
Qed.

(** ** The aggregator on a tree without sources *)

Lemma sibling_not_made od (c m scen : string) (q : path) :
  m <> c -> q ∈ prefixes (od // c // scen) -> q <> od // m // scen.
Proof.
  intros Hm Hq ->. rewrite !prefixes_snoc, !elem_of_app, !list_elem_of_singleton in Hq.
  destruct Hq as [[Hq|Hq]|Hq].
  - apply elem_of_prefixes_length in Hq. unfold path_div in Hq.
    rewrite !length_app in Hq. simpl in Hq. lia.
  - apply (f_equal List.length) in Hq. unfold path_div in Hq.
    rewrite !length_app in Hq. simpl in Hq. lia.
  - unfold path_div in Hq. apply app_inj_tail in Hq as [Hq _].
    apply app_inj_tail in Hq as [_ Hq]. done.
Qed.

(** X16.  Called with an output directory, models and one scenario that
    are plain path components, on a tree that has none of the source
    directories, the aggregator makes [output_dir/ncml/scenario], logs one
    warning for each model of its selector, in order, starts no subprocess
    and returns normally. *)
Theorem ncml_warns_for_each_missing_source mc scen od conda_env w :
  plain_path od = true -> plain_path (helper_models mc) = true ->
  plain_component scen = true ->
  scen <> "all" ->
  blocked (w_fs w) (od // "ncml" // scen) = false ->
  Forall (fun m => m <> "ncml" /\ w_fs w !! (od // m // scen) = None)
         (helper_models mc) ->
  exists w', create_ncml_files run_shell mc scen od conda_env w = (Ret tt, w')
    /\ w_log w' = (w_log w ++ map (missing_warning od scen) (helper_models mc))%list
    /\ w_trace w' = (w_trace w ++ [Mkdir (od // "ncml" // scen)])%list.
Proof.
  intros _ _ _ Hscen Hfree Hmissing.
  destruct (mkdir_success _ w Hfree) as (E1 & Hlog1 & _ & Hfs1 & _).
  set (w1 := snd (mkdir (od // "ncml" // scen) w)) in *.
  assert (Hsrc : forall m, m ∈ helper_models mc -> w_fs w1 !! (od // m // scen) = None).
  { intros m Hm. rewrite Forall_forall in Hmissing. destruct (Hmissing m Hm) as [Hc Hnone].
    rewrite Hfs1; [done|]. intros Hq. by eapply (sibling_not_made od "ncml" m scen). }
  eexists. split.
  - unfold create_ncml_files, resolve_scenarios.
    apply String.eqb_neq in Hscen. rewrite Hscen. cbn [for_each]. unfold bind at 1 2.
    fold w1. rewrite E1.
    rewrite (for_each_logs (missing_warning od scen)); [reflexivity|].
    intros m w3 Hm Hfs3. unfold ncml_one, bind, path_exists.
    rewrite Hfs3, (Hsrc m Hm). reflexivity.
  - simpl. split; [by rewrite Hlog1|]. unfold w1. by rewrite mkdir_trace.
Qed.

End Runs.

(** ** The further statements at concrete inputs *)

Lemma blocked_empty (p : path) : blocked ∅ p = false.
Proof.
  unfold blocked. induction (prefixes p) as [|q ps IH]; [done|].
  simpl. by rewrite lookup_empty, IH.
Qed.

Lemma stub_server_up : forall w u, exists ds, stub_open w u = Ret ds.
Proof. intros. by eexists. Qed.

Lemma stub_subset_ok : forall b ds, exists ds', stub_sel b ds = Ret ds'.
Proof. intros. by eexists. Qed.

Lemma generated_units_span_ten_years_witness :
  ("GFDL-ESM4", "tas", "historical", 2001)
    ∈ build_tasks ["GFDL-ESM4"] ["historical"; "ssp585"] ["pr"; "tas"]
  /\ end_year "historical" 2001 = 2001 + 9.
Proof.
  assert (Hin : ("GFDL-ESM4", "tas", "historical", 2001)
                  ∈ build_tasks ["GFDL-ESM4"] ["historical"; "ssp585"] ["pr"; "tas"]).
  { apply list_elem_of_In. vm_compute. tauto. }
  split; [exact Hin|].
  exact (proj1 (generated_units_span_ten_years _ _ _ _ _ _ _ Hin)).
Defined.

Lemma first_offender_is_reported_witness :
  resolve_models (Lst ["GFDL-ESM4"; "XYZ"; "ABC"]) = (["GFDL-ESM4"] ++ "XYZ" :: ["ABC"])%list
  /\ Forall (fun x => x ∈ valid_model_names) ["GFDL-ESM4"]
  /\ ("XYZ" ∉ valid_model_names)
  /\ download_isimip_data stub_open stub_sel no_fault checked_combine stub_shell
       (Lst ["GFDL-ESM4"; "XYZ"; "ABC"]) (Lst ["bad"]) "nonsense" None ["out"] 5 true w0
     = (Raise (model_error "XYZ"), w0).
Proof.
  assert (Hgood : Forall (fun x => x ∈ valid_model_names) ["GFDL-ESM4"]).
  { repeat constructor. }
  assert (Hbad : "XYZ" ∉ valid_model_names) by (by apply str_in_not_elem).
  split; [reflexivity|]. split; [exact Hgood|]. split; [exact Hbad|].
  exact (proj1 (first_offender_is_reported stub_open stub_sel no_fault checked_combine
                  stub_shell (Lst ["GFDL-ESM4"; "XYZ"; "ABC"]) (Lst ["bad"]) "nonsense"
                  None ["out"] 5 true w0)
               ["GFDL-ESM4"] "XYZ" ["ABC"] eq_refl Hgood Hbad).
Defined.

Lemma successful_unit_stores_dataset_witness :
  local_target ["out"] unit_2021 = Some target_2021
  /\ unit_url unit_2021 = Some url_2021
  /\ dropped unit_2021 = false
  /\ blocked (w_fs w0) (parent target_2021) = false
  /\ w_fs w0 !! target_2021 = None
  /\ exists w', run_task stub_open stub_sel no_fault None ["out"] unit_2021 w0
                = (Ret tt, w')
       /\ w_fs w' !! target_2021 = Some (File [(2, "b"); (1, "a")]).
Proof.
  split; [by vm_compute|]. split; [by vm_compute|]. split; [reflexivity|].
  split; [reflexivity|]. split; [reflexivity|].
  destruct (successful_unit_stores_dataset stub_open stub_sel no_fault None ["out"]
              unit_2021 target_2021 url_2021 w0 [(2, "b"); (1, "a")] [(2, "b"); (1, "a")])
    as (w' & Hrun & _ & Hfile & _); try reflexivity; try (by vm_compute).
  exists w'. by split.
Defined.

Lemma rerun_fetches_only_what_is_missing_witness :
  local_target ["out"] unit_2021 = Some target_2021
  /\ unit_url unit_2021 = Some url_2021
  /\ dropped unit_2021 = false
  /\ blocked (w_fs w0) (parent target_2021) = false
  /\ is_Some (w_fs (snd (run_task stub_open stub_sel no_fault None ["out"] unit_2021 w0))
                !! target_2021)
  /\ net_calls (snd (run_task stub_open stub_sel no_fault None ["out"] unit_2021
                       (snd (run_task stub_open stub_sel no_fault None ["out"]
                               unit_2021 w0))))
     = net_calls (snd (run_task stub_open stub_sel no_fault None ["out"] unit_2021 w0))
  /\ w_fs (snd (run_task failing_open stub_sel no_fault None ["out"] unit_2021 w0))
       !! target_2021 = None
  /\ net_calls (snd (run_task failing_open stub_sel no_fault None ["out"] unit_2021
                       (snd (run_task failing_open stub_sel no_fault None ["out"]
                               unit_2021 w0))))
     = [NetOpen url_2021; NetOpen url_2021].
Proof.
  assert (Ht : local_target ["out"] unit_2021 = Some target_2021) by (by vm_compute).
  assert (Hu : unit_url unit_2021 = Some url_2021) by (by vm_compute).
  assert (Hs : is_Some (w_fs (snd (run_task stub_open stub_sel no_fault None ["out"]
                                     unit_2021 w0)) !! target_2021)).
  { eexists. by vm_compute. }
  assert (Hn : w_fs (snd (run_task failing_open stub_sel no_fault None ["out"]
                            unit_2021 w0)) !! target_2021 = None) by (by vm_compute).
  split; [exact Ht|]. split; [exact Hu|]. split; [reflexivity|]. split; [reflexivity|].
  split; [exact Hs|]. split; [|split; [exact Hn|]].
  - apply (proj1 (rerun_fetches_only_what_is_missing stub_open stub_sel no_fault None
                    ["out"] unit_2021 target_2021 url_2021 w0 Ht Hu eq_refl eq_refl) Hs).
  - rewrite (proj2 (rerun_fetches_only_what_is_missing failing_open stub_sel no_fault
                      None ["out"] unit_2021 target_2021 url_2021 w0 Ht Hu eq_refl
                      eq_refl) Hn).
    by vm_compute.
Defined.

Lemma blocked_directory_fails_silently_witness :
  local_target ["out"] unit_2021 = Some target_2021
  /\ dropped unit_2021 = false
  /\ blocked (w_fs blocked_tree) (parent target_2021) = true
  /\ 0 < 5
  /\ thread_pool_map 5 (run_task stub_open stub_sel no_fault None ["out"]) [unit_2021]
       blocked_tree
     = (Ret tt, emit (Mkdir ["out"; "GFDL-ESM4"; "ssp126"]) blocked_tree).
Proof.
  assert (Ht : local_target ["out"] unit_2021 = Some target_2021) by (by vm_compute).
  assert (Hb : blocked (w_fs blocked_tree) (parent target_2021) = true) by (by vm_compute).
  split; [exact Ht|]. split; [reflexivity|]. split; [exact Hb|]. split; [lia|].
  apply (proj2 (blocked_directory_fails_silently stub_open stub_sel no_fault None ["out"]
                  unit_2021 target_2021 blocked_tree Ht eq_refl Hb) 5). lia.
Defined.

Lemma download_keeps_existing_entries_witness :
  w_fs unsorted_tree !! ["out"; "GFDL-ESM4"; "historical"; "a_cropped.nc"]
  = Some (File [(4, "t4"); (3, "t3")])
  /\ w_fs (snd (download_isimip_data stub_open stub_sel no_fault checked_combine
                  stub_shell (Str "GFDL-ESM4") (Str "tas") "historical" None ["out"]
                  5 false unsorted_tree))
       !! ["out"; "GFDL-ESM4"; "historical"; "a_cropped.nc"]
     = Some (File [(4, "t4"); (3, "t3")]).
Proof.
  assert (H : w_fs unsorted_tree !! ["out"; "GFDL-ESM4"; "historical"; "a_cropped.nc"]
              = Some (File [(4, "t4"); (3, "t3")])) by (by vm_compute).
  split; [exact H|].
  exact (proj2 (download_keeps_existing_entries stub_open stub_sel no_fault
                  checked_combine stub_shell (Str "GFDL-ESM4") (Str "tas") "historical"
                  None ["out"] 5 false unsorted_tree) _ _ H).
Defined.

Lemma combine_failure_is_logged_and_skipped_witness :
  plain_path ["out"] = true /\ plain_path ["out"; "combined"; "historical"] = true
  /\ plain_component "GFDL-ESM4" = true /\ plain_component "historical" = true
  /\ plain_path (helper_models (Str "all")) = true
  /\ plain_path (resolve_scenarios "all") = true
  /\ is_Some (w_fs unsorted_tree !! (["out"] // "GFDL-ESM4" // "historical"))
  /\ is_Exception (ValueError "Could not find any dimension coordinates to use to order the datasets") = true
  /\ combine_one no_fault failing_combine ["out"]
       ["out"; "combined"; "historical"] "historical" "GFDL-ESM4" unsorted_tree
     = (Ret tt,
        World (w_fs unsorted_tree)
          [(Info, "Combining files for GFDL-ESM4 historical...");
           (Error, "Failed to combine files for GFDL-ESM4 historical: Could not find any dimension coordinates to use to order the datasets")]
          [])
  /\ w_log (snd (combine_one disk_full checked_combine ["out"]
                   ["out"; "combined"; "historical"] "historical" "GFDL-ESM4"
                   unsorted_tree))
     = [(Info, "Combining files for GFDL-ESM4 historical...");
        (Error, "Failed to combine files for GFDL-ESM4 historical: No space left on device")]
  /\ fst (combine_netcdf_files no_fault failing_combine (Str "all") "all" ["out"]
            unsorted_tree) = Ret tt.
Proof.
  assert (Hsrc : is_Some (w_fs unsorted_tree !! (["out"] // "GFDL-ESM4" // "historical"))).
  { eexists. by vm_compute. }
  split; [reflexivity|]. split; [reflexivity|]. split; [reflexivity|].
  split; [reflexivity|]. split; [reflexivity|]. split; [reflexivity|].
  split; [exact Hsrc|]. split; [reflexivity|]. split; [|split].
  - rewrite (proj1 (proj1 (combine_failure_is_logged_and_skipped no_fault failing_combine)
               ["out"] ["out"; "combined"; "historical"] "historical" "GFDL-ESM4"
               unsorted_tree
               [["out"; "GFDL-ESM4"; "historical"; "b_cropped.nc"];
                ["out"; "GFDL-ESM4"; "historical"; "a_cropped.nc"]]
               (ValueError "Could not find any dimension coordinates to use to order the datasets")
               eq_refl eq_refl eq_refl eq_refl Hsrc ltac:(by vm_compute)
               ltac:(discriminate) eq_refl)); [reflexivity|].
    right. eexists. split; [by vm_compute|reflexivity].
  - destruct (proj2 (proj1 (combine_failure_is_logged_and_skipped disk_full
                              checked_combine)
               ["out"] ["out"; "combined"; "historical"] "historical" "GFDL-ESM4"
               unsorted_tree
               [["out"; "GFDL-ESM4"; "historical"; "b_cropped.nc"];
                ["out"; "GFDL-ESM4"; "historical"; "a_cropped.nc"]]
               (OSError "No space left on device")
               eq_refl eq_refl eq_refl eq_refl Hsrc ltac:(by vm_compute)
               ltac:(discriminate) eq_refl)) as [_ Hlog].
    + eexists. eexists. split; [by vm_compute|]. split; by vm_compute.
    + rewrite Hlog. reflexivity.
  - destruct (proj2 (combine_failure_is_logged_and_skipped no_fault failing_combine)
                   (fun dss e H => ltac:(by injection H as <-))
                   (fun w p e H => ltac:(discriminate H))
                   (Str "all") "all" ["out"] unsorted_tree eq_refl eq_refl eq_refl)
      as [H|[msg H]]; [exact H|].
    revert H. by vm_compute.
Defined.

Lemma combine_warns_for_each_missing_source_witness :
  plain_path ["out"] = true /\ plain_path (helper_models (Lst ["all"; "XYZ"])) = true
  /\ plain_component "historical" = true
  /\ "historical" <> "all"
  /\ blocked (w_fs w0) (["out"] // "combined" // "historical") = false
  /\ Forall (fun m => m <> "combined" /\ w_fs w0 !! (["out"] // m // "historical") = None)
            (helper_models (Lst ["all"; "XYZ"]))
  /\ w_log (snd (combine_netcdf_files no_fault checked_combine (Lst ["all"; "XYZ"])
                   "historical" ["out"] w0))
     = [(Warning, "Directory out/all/historical does not exist, skipping...");
        (Warning, "Directory out/XYZ/historical does not exist, skipping...")].
Proof.
  assert (Hm : Forall (fun m => m <> "combined"
                                /\ w_fs w0 !! (["out"] // m // "historical") = None)
                      (helper_models (Lst ["all"; "XYZ"]))).
  { repeat constructor; discriminate. }
  split; [reflexivity|]. split; [reflexivity|]. split; [reflexivity|].
  split; [discriminate|]. split; [reflexivity|]. split; [exact Hm|].
  destruct (proj1 (combine_warns_for_each_missing_source no_fault checked_combine
                     (Lst ["all"; "XYZ"]) "historical" ["out"] w0
                     eq_refl eq_refl eq_refl
                     ltac:(discriminate) eq_refl Hm)) as (w' & Hrun & Hlog & _).
  rewrite Hrun. cbn [snd]. rewrite Hlog. reflexivity.
Defined.

Lemma ncml_subprocess_outcomes_witness :
  w_fs w0 !! (["out"] // "GFDL-ESM4" // "ssp126") = None
  /\ is_Some (w_fs one_source_tree !! (["out"] // "GFDL-ESM4" // "ssp126"))
  /\ fst (ncml_one stub_shell ["out"] (["out"] // "ncml") "c4r" "ssp126" "GFDL-ESM4" w0)
     = Ret tt
  /\ w_log (snd (ncml_one shell_exit_1 ["out"] (["out"] // "ncml") "c4r" "ssp126"
                   "GFDL-ESM4" one_source_tree))
     = [(Error, "Failed to create ncml file for GFDL-ESM4 ssp126: Command returned non-zero exit status 1.")]
  /\ fst (ncml_one shell_interrupted ["out"] (["out"] // "ncml") "c4r" "ssp126"
            "GFDL-ESM4" one_source_tree)
     = Raise (BaseExc "KeyboardInterrupt").
Proof.
  assert (Hsrc : is_Some (w_fs one_source_tree !! (["out"] // "GFDL-ESM4" // "ssp126"))).
  { eexists. by vm_compute. }
  split; [reflexivity|]. split; [exact Hsrc|]. split; [|split].
  - by rewrite (proj1 (ncml_subprocess_outcomes stub_shell ["out"] "c4r" "ssp126"
                        "GFDL-ESM4" w0) eq_refl).
  - pose proof (proj1 (proj2 (ncml_subprocess_outcomes shell_exit_1 ["out"] "c4r"
                                "ssp126" "GFDL-ESM4" one_source_tree)) Hsrc _ _ eq_refl)
      as H.
    cbv beta iota in H. change (is_CalledProcessError _) with true in H. cbv iota in H.
    rewrite H. reflexivity.
  - pose proof (proj1 (proj2 (ncml_subprocess_outcomes shell_interrupted ["out"] "c4r"
                                "ssp126" "GFDL-ESM4" one_source_tree)) Hsrc _ _ eq_refl)
      as H.
    cbv beta iota in H. change (is_CalledProcessError _) with false in H. cbv iota in H.
    rewrite H. reflexivity.
Defined.

Lemma glob_lists_the_cropped_files_witness :
  local_target ["out"] unit_2021 = Some target_2021
  /\ parent target_2021 = ["out"; "GFDL-ESM4"; "ssp126"]
  /\ exists w files,
       is_Some (w_fs w !! target_2021)
       /\ glob_cropped ["out"; "GFDL-ESM4"; "ssp126"] w = (Ret files, w)
       /\ target_2021 ∈ files.
Proof.
  assert (Ht : local_target ["out"] unit_2021 = Some target_2021) by (by vm_compute).
  split; [exact Ht|]. split; [reflexivity|].
  set (w := snd (run_task stub_open stub_sel no_fault None ["out"] unit_2021 w0)).
  assert (Hs : is_Some (w_fs w !! target_2021)) by (eexists; by vm_compute).
  destruct (glob_lists_the_cropped_files ["out"; "GFDL-ESM4"; "ssp126"] w)
    as (files & Hglob & _ & _ & Hfound).
  exists w, files. split; [exact Hs|]. split; [exact Hglob|].
  by apply (Hfound ["out"] unit_2021 target_2021 Ht eq_refl Hs).
Defined.

Lemma distinct_units_have_distinct_targets_witness :
  valid_inputs (Str "GFDL-ESM4") (Lst ["tas"; "pr"]) "historical"
  /\ NoDup (resolve_models (Str "GFDL-ESM4")) /\ NoDup (as_list (Lst ["tas"; "pr"]))
  /\ NoDup (local_target ["out"]
              <$> build_tasks (resolve_models (Str "GFDL-ESM4"))
                    (resolve_scenarios "historical") (as_list (Lst ["tas"; "pr"]))).
Proof.
  assert (Hm : NoDup (resolve_models (Str "GFDL-ESM4"))) by apply NoDup_singleton.
  assert (Hv : NoDup (as_list (Lst ["tas"; "pr"]))).
  { simpl. apply NoDup_cons. split; [by apply str_in_not_elem|apply NoDup_singleton]. }
  split; [exact example_inputs_valid|]. split; [exact Hm|]. split; [exact Hv|].
  exact (proj2 (proj2 (distinct_units_have_distinct_targets (Str "GFDL-ESM4")
                         (Lst ["tas"; "pr"]) "historical" ["out"]
                         example_inputs_valid Hm Hv))).
Defined.

Lemma successful_run_populates_the_tree_witness :
  valid_inputs (Str "GFDL-ESM4") (Lst ["tas"; "pr"]) "historical" /\ 0 < 5
  /\ populated (w_fs populated_world) ["isimip_data"]
       (build_tasks (resolve_models (Str "GFDL-ESM4")) (resolve_scenarios "historical")
                    (as_list (Lst ["tas"; "pr"]))) = true.
Proof.
  split; [exact example_inputs_valid|]. split; [lia|].
  apply (successful_run_populates_the_tree stub_open stub_sel no_fault checked_combine
           stub_shell stub_server_up stub_subset_ok (fun _ _ => eq_refl)
           (Str "GFDL-ESM4") (Lst ["tas"; "pr"]) "historical" (Some europe)
           ["isimip_data"] 5 true w0 example_inputs_valid ltac:(lia)).
  intros m s _ _. apply blocked_empty.
Defined.

Lemma second_run_fetches_nothing_witness :
  valid_inputs (Str "GFDL-ESM4") (Lst ["tas"; "pr"]) "historical" /\ 0 < 5
  /\ net_calls (snd (download_isimip_data stub_open stub_sel no_fault checked_combine
                       stub_shell (Str "GFDL-ESM4") (Lst ["tas"; "pr"]) "historical"
                       (Some europe) ["isimip_data"] 5 true populated_world))
     = net_calls populated_world.
Proof.
  split; [exact example_inputs_valid|]. split; [lia|].
  apply (second_run_fetches_nothing stub_open stub_sel no_fault checked_combine
           stub_shell stub_server_up stub_subset_ok (fun _ _ => eq_refl)
           (Str "GFDL-ESM4") (Lst ["tas"; "pr"]) "historical" (Some europe)
           ["isimip_data"] 5 true w0 example_inputs_valid ltac:(lia)).
  intros m s _ _. apply blocked_empty.
Defined.

Lemma ncml_warns_for_each_missing_source_witness :
  plain_path ["out"] = true /\ plain_path (helper_models (Str "UKESM1-0-LL")) = true
  /\ plain_component "ssp126" = true
  /\ "ssp126" <> "all"
  /\ blocked (w_fs w0) (["out"] // "ncml" // "ssp126") = false
  /\ Forall (fun m => m <> "ncml" /\ w_fs w0 !! (["out"] // m // "ssp126") = None)
            (helper_models (Str "UKESM1-0-LL"))
  /\ w_trace (snd (create_ncml_files stub_shell (Str "UKESM1-0-LL") "ssp126" ["out"]
                     "c4r" w0))
     = [Mkdir ["out"; "ncml"; "ssp126"]].
Proof.
  assert (Hm : Forall (fun m => m <> "ncml"
                                /\ w_fs w0 !! (["out"] // m // "ssp126") = None)
                      (helper_models (Str "UKESM1-0-LL"))).
  { repeat constructor; discriminate. }
  split; [reflexivity|]. split; [reflexivity|]. split; [reflexivity|].
  split; [discriminate|]. split; [reflexivity|]. split; [exact Hm|].
  destruct (ncml_warns_for_each_missing_source stub_shell (Str "UKESM1-0-LL") "ssp126"
              ["out"] "c4r" w0 eq_refl eq_refl eq_refl ltac:(discriminate) eq_refl Hm)
    as (w' & Hrun & _ & Htr).
  rewrite Hrun. cbn [snd]. rewrite Htr. reflexivity.
Defined.
